(** * auto-md: branch resolution, feedback loop, section parsing, publishing

    A shallow embedding of the parts of [auto_md] that carry decisions:
    [git_utils.find_branch_for_issue], the section parser at the end of
    [ai_utils.generate_task_document], [ai_utils.save_markdown_to_file],
    [config.is_initialized] and steps 4 to 7 of [cli.run].

    Python [str] values are modelled as [string], read as the UTF-8 encoding
    of the text.  Searching for a substring, splitting at a line feed and
    testing an ASCII prefix give the same answer on the encoding as on the
    code points.  [str.lower] and [str.strip] are modelled on the ASCII
    range (letters [A-Z], and the ASCII white space Python recognises);
    bytes above 127 are left alone, so [Py.lower] and [Py.strip] are the
    two methods on ASCII text.  A property that depends on what the two
    methods do is stated for every function in their place, or for ASCII
    text. *)

From Stdlib Require Import Ascii String ZArith List Lia Bool.
From stdpp Require Import base option list strings pretty gmap.

Local Open Scope Z_scope.

(** ** Python string primitives *)

Module Py.

Fixpoint str_map (f : ascii -> ascii) (s : string) : string :=
  match s with
  | EmptyString => EmptyString
  | String c s' => String (f c) (str_map f s')
  end.

Definition lower_char (c : ascii) : ascii :=
  let n := nat_of_ascii c in
  if (Nat.leb 65 n && Nat.leb n 90)%bool then ascii_of_nat (n + 32) else c.

(** [s.lower()] *)
Definition lower (s : string) : string := str_map lower_char s.

(** [c.isspace()] on the ASCII range: TAB, LF, VT, FF, CR, FS, GS, RS, US
    and the space. *)
Definition isspace (c : ascii) : bool :=
  let n := nat_of_ascii c in
  ((Nat.leb 9 n && Nat.leb n 13) || (Nat.leb 28 n && Nat.leb n 32))%bool.

Fixpoint lstrip (s : string) : string :=
  match s with
  | EmptyString => EmptyString
  | String c s' => if isspace c then lstrip s' else s
  end.

Fixpoint rstrip (s : string) : string :=
  match s with
  | EmptyString => EmptyString
  | String c s' =>
      match rstrip s' with
      | EmptyString => if isspace c then EmptyString else String c EmptyString
      | r => String c r
      end
  end.

(** [s.strip()] *)
Definition strip (s : string) : string := rstrip (lstrip s).

(** [s.startswith(p)] *)
Fixpoint startswith (p s : string) : bool :=
  match p, s with
  | EmptyString, _ => true
  | String _ _, EmptyString => false
  | String a p', String b s' => if ascii_dec a b then startswith p' s' else false
  end.

(** [sub in s] *)
Fixpoint contains (sub s : string) : bool :=
  startswith sub s ||
  match s with
  | EmptyString => false
  | String _ s' => contains sub s'
  end.

(** [s[n:]] *)
Fixpoint drop (n : nat) (s : string) : string :=
  match n, s with
  | O, _ => s
  | S _, EmptyString => EmptyString
  | S n', String _ s' => drop n' s'
  end.

Definition LF : ascii := ascii_of_nat 10.

(** [s.split('\n')]: one more piece than there are line feeds. *)
Fixpoint split_lines (s : string) : list string :=
  match s with
  | EmptyString => [EmptyString]
  | String c s' =>
      if ascii_dec c LF then EmptyString :: split_lines s'
      else match split_lines s' with
           | h :: t => String c h :: t
           | [] => [String c EmptyString]
           end
  end.

(** ['\n'.join(l)] *)
Fixpoint join_lines (l : list string) : string :=
  match l with
  | [] => EmptyString
  | [x] => x
  | x :: rest => x +:+ String LF (join_lines rest)
  end.

(** [s.replace(pat, "")] for a non-empty [pat]: occurrences are removed
    from left to right, without overlap.  [skip] counts the characters of
    an occurrence still to be dropped. *)
Fixpoint remove_from (skip : nat) (pat s : string) : string :=
  match s with
  | EmptyString => EmptyString
  | String c s' =>
      match skip with
      | S k => remove_from k pat s'
      | O => if startswith pat s
             then remove_from (String.length pat - 1) pat s'
             else String c (remove_from 0 pat s')
      end
  end.

Definition remove_all (pat s : string) : string := remove_from 0 pat s.

(** Truth value of a string: the empty string is false. *)
Definition truthy (s : string) : bool :=
  match s with EmptyString => false | _ => true end.

End Py.

(** ** The world the commands run in

    One run of the tool talks to a terminal, to [git] through
    [subprocess.run], to the text backend and to the file system.  The
    answers of the first three are scripted: the world holds, in order, what
    the user will type, how the coming subprocesses will end and what the
    backend will reply.  Quantifying over the scripts covers every behaviour
    of the collaborators.  Everything the program does to the outside is
    appended to [trace].

    The console belongs to the world as well.  [console.print] reads its
    argument as markup: [[bold red]] opens a style, [[/bold red]] closes it,
    and a closing tag that matches no open one makes the call raise
    [MarkupError] instead of printing.  [markup_ok] tells of a text whether
    the console prints it; quantifying over the world covers every parser,
    the one of the console library included. *)

Record CompletedProcess := {
  returncode : Z;
  stdout : string;
  stderr : string
}.

(** What [subprocess.run(..., check=True)] raises on a non-zero exit. *)
Record CalledProcessError := {
  e_returncode : Z;
  e_stderr : string
}.

Inductive Answer :=
| Confirm (b : bool)        (* click.confirm *)
| IntAnswer (z : Z)         (* click.prompt(type=int) *)
| StrAnswer (s : string).   (* click.prompt(type=str) *)

(** The arguments of one call of the text chain. *)
Record Invocation := {
  inv_issue_key : string;
  inv_summary : string;
  inv_description : string;
  inv_status : string;
  inv_assignee : string;
  inv_parent_info : string;
  inv_chat_history : list (string * string)
}.

Inductive Event :=
| Printed (msg : string)          (* console.print *)
| Displayed (markdown : string)   (* display_markdown *)
| Asked (text : string)           (* click.confirm, click.prompt *)
| Chdir (path : string)           (* os.chdir *)
| Ran (argv : list string)        (* subprocess.run *)
| Invoked (args : Invocation)     (* text_chain.invoke *)
| Wrote (path : string).          (* open(path, "w") ... write *)

Record World := {
  terminal : list Answer;
  processes : list CompletedProcess;
  backend : list string;
  dirs : gset string;
  files : gmap string string;
  markup_ok : string -> bool;
  trace : list Event
}.

(** A command either completes with a value and a new world, or does not
    complete: a script ran dry, an answer had the wrong type (click asks
    again), or an exception left the modelled code. *)
Definition M (A : Type) : Type := World -> option (A * World).

#[global] Instance M_ret : MRet M := λ A a w, Some (a, w).
#[global] Instance M_bind : MBind M := λ A B f m w,
  match m w with
  | Some (a, w') => f a w'
  | None => None
  end.

Definition stuck {A} : M A := λ _, None.

Definition set_terminal (answers : list Answer) (w : World) : World :=
  {| terminal := answers; processes := processes w; backend := backend w;
     dirs := dirs w; files := files w; markup_ok := markup_ok w;
     trace := trace w |}.

Definition set_processes (procs : list CompletedProcess) (w : World) : World :=
  {| terminal := terminal w; processes := procs; backend := backend w;
     dirs := dirs w; files := files w; markup_ok := markup_ok w;
     trace := trace w |}.

Definition set_backend (replies : list string) (w : World) : World :=
  {| terminal := terminal w; processes := processes w; backend := replies;
     dirs := dirs w; files := files w; markup_ok := markup_ok w;
     trace := trace w |}.

Definition set_dirs (d : gset string) (w : World) : World :=
  {| terminal := terminal w; processes := processes w; backend := backend w;
     dirs := d; files := files w; markup_ok := markup_ok w;
     trace := trace w |}.

Definition set_files (f : gmap string string) (w : World) : World :=
  {| terminal := terminal w; processes := processes w; backend := backend w;
     dirs := dirs w; files := f; markup_ok := markup_ok w;
     trace := trace w |}.

(** [log events w]: the world after [events] happened, in that order. *)
Definition log (events : list Event) (w : World) : World :=
  {| terminal := terminal w; processes := processes w; backend := backend w;
     dirs := dirs w; files := files w; markup_ok := markup_ok w;
     trace := trace w ++ events |}.

Definition emit (e : Event) : M unit := λ w, Some (tt, log [e] w).

(** [console.print(msg)] for a text made of the program's own words, issue
    keys, branch names and paths.  An issue key has been accepted by the
    tracker and [git] allows no bracket in a branch name, so the tags in
    such a text are the program's, opened and closed in pairs, and the
    call prints. *)
Definition console_print (msg : string) : M unit := emit (Printed msg).

(** [console.print(msg)] for a text that carries what [git] wrote to its
    error stream, or the configured address of the repository.  Nothing
    escapes the brackets in that part, so the console decides: the text is
    printed, or [MarkupError] leaves the function. *)
Definition console_print_markup (msg : string) : M unit := λ w,
  if markup_ok w msg then emit (Printed msg) w else None.

Definition next_answer : M Answer := λ w,
  match terminal w with
  | [] => None
  | a :: rest => Some (a, set_terminal rest w)
  end.

Definition click_confirm (text : string) : M bool :=
  _ ← emit (Asked text);
  a ← next_answer;
  match a with Confirm b => mret b | _ => stuck end.

Definition click_prompt_int (text : string) : M Z :=
  _ ← emit (Asked text);
  a ← next_answer;
  match a with IntAnswer z => mret z | _ => stuck end.

Definition click_prompt_str (text : string) : M string :=
  _ ← emit (Asked text);
  a ← next_answer;
  match a with StrAnswer s => mret s | _ => stuck end.

Definition os_chdir (path : string) : M unit := emit (Chdir path).

Definition next_process : M CompletedProcess := λ w,
  match processes w with
  | [] => None
  | p :: rest => Some (p, set_processes rest w)
  end.

(** [subprocess.run(argv, capture_output=True, text=True, check=True)] *)
Definition subprocess_run (argv : list string)
  : M (CompletedProcess + CalledProcessError) :=
  _ ← emit (Ran argv);
  p ← next_process;
  if returncode p =? 0 then mret (inl p)
  else mret (inr {| e_returncode := returncode p; e_stderr := stderr p |}).

Definition next_reply : M string := λ w,
  match backend w with
  | [] => None
  | reply :: rest => Some (reply, set_backend rest w)
  end.

(** [text_chain.invoke({...})] *)
Definition text_chain_invoke (args : Invocation) : M string :=
  _ ← emit (Invoked args);
  next_reply.

Definition store (path content : string) : M unit := λ w,
  Some (tt, set_files (<[path := content]> (files w)) w).

(** The directory part of a path: what precedes its last separator. *)
Fixpoint parent_dir (path : string) : string :=
  match path with
  | EmptyString => EmptyString
  | String c rest =>
      if Py.contains "/" rest then String c (parent_dir rest) else EmptyString
  end.

(** A file can be created in the current directory (no directory part)
    and in a directory that exists. *)
Definition dir_ok (d : string) (existing : gset string) : bool :=
  bool_decide (d = "") || bool_decide (d ∈ existing).

(** [with open(path, "w", encoding="utf-8") as f: f.write(content)]; a
    [FileNotFoundError] when the directory of [path] is missing.  Other
    input/output errors are not modelled, and line feeds are written as
    they are (the tool runs on a POSIX system). *)
Definition write_text (path content : string) : M unit :=
  λ w,
    if dir_ok (parent_dir path) (dirs w)
    then (_ ← emit (Wrote path); store path content) w
    else None.

(** Reading a file back, as any later reader of the file system would. *)
Definition read_text (path : string) (w : World) : option string :=
  files w !! path.

Definition path_exists (path : string) : M bool := λ w,
  Some (bool_decide (path ∈ dirs w), w).

(** [os.makedirs(path, exist_ok=True)], given the chain of directories
    that [path] names, outermost first. *)
Definition os_makedirs (chain : list string) : M unit := λ w,
  Some (tt, set_dirs (list_to_set chain ∪ dirs w) w).

(** [Path(p) / child]; an absolute [child] replaces [p].  Redundant
    separators and [.] components, which [pathlib] drops, are kept as they
    are: the function is [pathlib]'s for a [child] that is a plain name. *)
Definition path_join (p child : string) : string :=
  if Py.startswith "/" child then child else p +:+ "/" +:+ child.

Fixpoint for_each {A} (l : list A) (body : A -> M unit) : M unit :=
  match l with
  | [] => mret tt
  | x :: rest => _ ← body x; for_each rest body
  end.

(** ** git_utils *)

(** The list comprehension of [find_branch_for_issue], for any two
    functions in the place of [str.lower] and [str.strip]. *)
Definition matching_with (lower strip : string -> string)
    (branches : list string) (issue_key : string) : list string :=
  map strip
      (List.filter (λ branch, Py.contains (lower issue_key) (lower branch))
                   branches).

(** The list comprehension of [find_branch_for_issue]. *)
Definition matching_branches (branches : list string) (issue_key : string)
  : list string :=
  map Py.strip
      (List.filter (λ branch, Py.contains (Py.lower issue_key) (Py.lower branch))
                   branches).

(** [find_branch_for_issue(temp_dir, issue_key)]; [os.chdir] is taken to
    succeed, the clone having just created the directory. *)
Definition find_branch_for_issue (temp_dir issue_key : string)
  : M (list string) :=
  _ ← os_chdir temp_dir;
  result ← subprocess_run ["git"; "branch"; "-r"];
  match result with
  | inl result =>
      let branches := Py.split_lines (Py.strip (stdout result)) in
      mret (matching_branches branches issue_key)
  | inr e =>
      _ ← console_print_markup ("[bold red]查找分支失败: " +:+ e_stderr e +:+ "[/bold red]");
      mret []
  end.

(** [checkout_branch(branch_name)] *)
Definition checkout_branch (branch_name : string) : M bool :=
  if Py.startswith "origin/" branch_name then
    let local_branch := Py.remove_all "origin/" branch_name in
    r ← subprocess_run ["git"; "checkout"; "-b"; local_branch; branch_name];
    match r with
    | inl _ => mret true
    | inr e =>
        _ ← console_print_markup ("[bold red]检出分支失败: " +:+ e_stderr e +:+ "[/bold red]");
        mret false
    end
  else
    r ← subprocess_run ["git"; "checkout"; branch_name];
    match r with
    | inl _ => mret true
    | inr e =>
        _ ← console_print_markup ("[bold red]检出分支失败: " +:+ e_stderr e +:+ "[/bold red]");
        mret false
    end.

(** The three commands inside the [try] of [create_branch_for_issue]. *)
Definition create_branch_commands (issue_key base_branch : string)
  : M (string + CalledProcessError) :=
  _ ← console_print ("[bold]更新基础分支 " +:+ base_branch +:+ "...[/bold]");
  r ← subprocess_run ["git"; "checkout"; base_branch];
  match r with
  | inr e => mret (inr e)
  | inl _ =>
      r ← subprocess_run ["git"; "pull"];
      match r with
      | inr e => mret (inr e)
      | inl _ =>
          let new_branch := issue_key in
          _ ← console_print ("[bold]创建新分支: " +:+ new_branch +:+ "[/bold]");
          r ← subprocess_run ["git"; "checkout"; "-b"; new_branch];
          match r with
          | inr e => mret (inr e)
          | inl _ => mret (inl new_branch)
          end
      end
  end.

(** [create_branch_for_issue(issue_key, base_branch)] *)
Definition create_branch_for_issue (issue_key base_branch : string)
  : M (bool * option string) :=
  r ← create_branch_commands issue_key base_branch;
  match r with
  | inl new_branch => mret (true, Some new_branch)
  | inr e =>
      _ ← console_print_markup ("[bold red]创建分支失败: " +:+ e_stderr e +:+ "[/bold red]");
      mret (false, None)
  end.

(** ** ai_utils *)

Record DocSection := {
  sec_title : string;
  sec_content : string
}.

Record MarkdownDocument := {
  doc_title : string;
  doc_sections : list DocSection;
  doc_content : string
}.

(** [if current_section: sections.append(Section(...))] *)
Definition close_section (current_section : option string)
    (current_content : list string) (sections : list DocSection)
  : list DocSection :=
  match current_section with
  | Some title =>
      if Py.truthy title
      then sections ++ [{| sec_title := title;
                           sec_content := Py.join_lines current_content |}]
      else sections
  | None => sections
  end.

(** The [for line in lines] loop of [generate_task_document], followed by
    the saving of the last section. *)
Fixpoint scan_lines (lines : list string) (current_section : option string)
    (current_content : list string) (sections : list DocSection)
  : list DocSection :=
  match lines with
  | [] => close_section current_section current_content sections
  | line :: rest =>
      if Py.startswith "# " line then
        scan_lines rest (Some (Py.strip (Py.drop 2 line))) []
                   (close_section current_section current_content sections)
      else if Py.startswith "## " line then
        scan_lines rest (Some (Py.strip (Py.drop 3 line))) []
                   (close_section current_section current_content sections)
      else
        scan_lines rest current_section (current_content ++ [line]) sections
  end.

Definition extract_sections (markdown_content : string) : list DocSection :=
  let sections := scan_lines (Py.split_lines markdown_content) None [] [] in
  match sections with
  | [] => [{| sec_title := "任务详情"; sec_content := markdown_content |}]
  | _ => sections
  end.

(** What [generate_task_document] builds from the text the chain returned. *)
Definition make_document (issue_key summary markdown_content : string)
  : MarkdownDocument :=
  let sections := extract_sections markdown_content in
  let title :=
    match sections with
    | first :: _ => sec_title first
    | [] => issue_key +:+ " - " +:+ summary
    end in
  {| doc_title := title; doc_sections := sections;
     doc_content := markdown_content |}.

(** [generate_task_document(issue_key, summary, description, status,
    assignee, parent_info, chat_history)] *)
Definition generate_task_document
    (issue_key summary description status assignee parent_info : string)
    (chat_history : list (string * string)) : M MarkdownDocument :=
  markdown_content ← text_chain_invoke
    {| inv_issue_key := issue_key; inv_summary := summary;
       inv_description := description; inv_status := status;
       inv_assignee := assignee; inv_parent_info := parent_info;
       inv_chat_history := chat_history |};
  mret (make_document issue_key summary markdown_content).

Definition display_markdown (markdown_content : string) : M unit :=
  emit (Displayed markdown_content).

(** [save_markdown_to_file(issue_key, markdown_content)] *)
Definition save_markdown_to_file (issue_key markdown_content : string)
  : M string :=
  let tasks_dir := "docs/.tasks" in
  _ ← os_makedirs ["docs"; tasks_dir];
  let file_path := path_join tasks_dir (issue_key +:+ ".md") in
  _ ← write_text file_path markdown_content;
  mret file_path.

(** ** config *)

(** What [json.load] returns. *)
#[local] Set Warnings "-register-all".
Inductive json :=
| JNull
| JBool (b : bool)
| JNum (n : Z)
| JStr (s : string)
| JArr (items : list json)
| JObj (members : gmap string json).

(** [load_config()]: the parsed file, or an empty dict when the file is
    missing or is not JSON ([persisted = None]). *)
Definition load_config (persisted : option json) : json :=
  match persisted with
  | Some config => config
  | None => JObj ∅
  end.

(** [config.get(key, {})]; only a dict has [get]. *)
Definition dict_get (config : json) (key : string) : option json :=
  match config with
  | JObj members =>
      match members !! key with
      | Some v => Some v
      | None => Some (JObj ∅)
      end
  | _ => None
  end.

Definition is_str (key : string) (v : json) : bool :=
  match v with
  | JStr s => bool_decide (s = key)
  | _ => false
  end.

(** [key in container]: membership in a dict's keys, in a list, or as a
    substring of a string; a [TypeError] on anything else. *)
Definition py_in (key : string) (container : json) : option bool :=
  match container with
  | JObj members => Some (bool_decide (is_Some (members !! key)))
  | JArr items => Some (existsb (is_str key) items)
  | JStr s => Some (Py.contains key s)
  | _ => None
  end.

(** [all(key in container for key in keys)]: stops at the first false. *)
Fixpoint all_in (keys : list string) (container : json) : option bool :=
  match keys with
  | [] => Some true
  | key :: rest =>
      match py_in key container with
      | Some true => all_in rest container
      | Some false => Some false
      | None => None
      end
  end.

(** [is_initialized()]; [None] when an exception is raised. *)
Definition is_initialized (persisted : option json) : option bool :=
  let config := load_config persisted in
  git_config ← dict_get config "git";
  jira_config ← dict_get config "jira";
  git_initialized ← all_in ["url"; "username"; "password"] git_config;
  jira_initialized ← all_in ["username"; "password"] jira_config;
  Some (git_initialized && jira_initialized)%bool.

(** ** cli: [run], from step 4 (branch search) to step 7 (publish)

    Steps 1 to 3 fetch the issue and clone the repository; what they leave
    behind is taken as given: the issue key, the key of the parent issue
    when one was fetched, the text about the parent and the directory of
    the clone.  The four fields handed to the generator are read from the
    issue in step 6 (lines 212-216, [issue_details] further down); in this
    section they are the strings that those lines produced. *)

Section Run.

Variable issue_key : string.
Variable parent_issue : option string.
Variables summary description status_name assignee parent_info : string.
Variable temp_dir : string.

Definition print_branches (branches : list string) : M unit :=
  for_each branches (λ branch, console_print ("  - [cyan]" +:+ branch +:+ "[/cyan]")).

(** Lines 149-158: the search with the key of the parent issue. *)
Definition search_parent (parent_key : string) : M (list string) :=
  branches ← find_branch_for_issue temp_dir parent_key;
  match branches with
  | _ :: _ =>
      _ ← console_print ("[bold green]找到与父问题 " +:+ parent_key +:+ " 相关的分支:[/bold green]");
      _ ← print_branches branches;
      mret branches
  | [] =>
      _ ← console_print ("[bold yellow]未找到与父问题 " +:+ parent_key +:+ " 相关的分支[/bold yellow]");
      mret branches
  end.

(** Step 4, lines 139-162: the value of [branches] after the search. *)
Definition search_branches : M (list string) :=
  branches ← find_branch_for_issue temp_dir issue_key;
  match branches with
  | [] =>
      _ ← console_print ("[bold yellow]未找到与问题 " +:+ issue_key +:+ " 相关的分支[/bold yellow]");
      match parent_issue with
      | Some parent_key => search_parent parent_key
      | None => mret branches
      end
  | _ :: _ =>
      _ ← console_print ("[bold green]找到与问题 " +:+ issue_key +:+ " 相关的分支:[/bold green]");
      _ ← print_branches branches;
      mret branches
  end.

(** [if checkout_branch(branch): ... branch_used = branch.replace(...)] *)
Definition try_checkout (branch : string) : M (option string) :=
  ok ← checkout_branch branch;
  if (ok : bool) then
    _ ← console_print ("[bold green]成功检出分支: " +:+ branch +:+ "[/bold green]");
    mret (Some (Py.remove_all "origin/" branch))
  else
    _ ← console_print ("[bold red]检出分支失败: " +:+ branch +:+ "[/bold red]");
    mret None.

Definition base_branch : string := "release".

Definition branch_options (branches : list string) : string :=
  Py.join_lines (imap (λ i b, pretty (S i) +:+ ". " +:+ b) branches).

(** Lines 191-202: the new branch, cut from the fixed base. *)
Definition create_new_branch : M (option string) :=
  _ ← console_print ("[bold blue]将使用 " +:+ base_branch +:+ " 作为基础分支创建新分支...[/bold blue]");
  r ← create_branch_for_issue issue_key base_branch;
  match r with
  | (true, Some new_branch) =>
      _ ← console_print ("[bold green]已成功从 " +:+ base_branch +:+ " 创建并检出新分支: " +:+ new_branch +:+ "[/bold green]");
      mret (Some new_branch)
  | _ =>
      _ ← console_print "[bold red]创建分支失败[/bold red]";
      mret None
  end.

Definition checkout_question (branch : string) : string :=
  "是否检出分支 " +:+ branch +:+ "？".

Definition create_question : string :=
  "未找到相关分支，是否为问题 " +:+ issue_key +:+ " 创建新分支？".

Definition choose_question : string := "请选择要检出的分支编号".

(** Lines 164-202: the value of [branch_used]. *)
Definition select_branch (branches : list string) : M (option string) :=
  match branches with
  | [] =>
      create_new ← click_confirm create_question;
      if (create_new : bool) then create_new_branch else mret None
  | [branch] =>
      yes ← click_confirm (checkout_question branch);
      if (yes : bool) then try_checkout branch else mret None
  | _ =>
      _ ← console_print ("找到多个相关分支:" +:+ String Py.LF (branch_options branches));
      branch_idx ← click_prompt_int choose_question;
      if ((1 <=? branch_idx) && (branch_idx <=? Z.of_nat (length branches)))%bool then
        match branches !! Z.to_nat (branch_idx - 1) with
        | Some branch => try_checkout branch
        | None => stuck
        end
      else
        _ ← console_print "[bold red]无效的分支编号[/bold red]";
        mret None
  end.

(** Lines 139-202: search, then selection. *)
Definition resolve_branch : M (option string) :=
  branches ← search_branches;
  select_branch branches.

Definition human_turn (feedback : string) : string * string :=
  ("human", "我对生成的文档有以下修改建议：" +:+ feedback).

Definition assistant_turn : string * string :=
  ("assistant", "我会根据您的反馈重新生成文档。").

(** Lines 222-256: the [while True] loop.  Each round takes one reply of
    the backend and one answer of the user; [rounds] bounds the number of
    rounds, and the loop does not complete when it is used up.  The result
    is [doc_file_path] with the final [chat_history]. *)
Fixpoint feedback_loop (rounds : nat) (tasks_dir : string)
    (chat_history : list (string * string))
  : M (string * list (string * string)) :=
  match rounds with
  | O => stuck
  | S rounds' =>
      result ← generate_task_document issue_key summary description
                 status_name assignee parent_info chat_history;
      _ ← console_print (String Py.LF "[bold]AI生成的任务文档：[/bold]");
      _ ← display_markdown (doc_content result);
      answer ← click_prompt_str (String Py.LF "您对生成的文档满意吗？ (y/n)");
      let satisfied := bool_decide (Py.lower answer = "y") in
      if satisfied then
        let doc_file_path := path_join tasks_dir (issue_key +:+ ".md") in
        _ ← write_text doc_file_path (doc_content result);
        _ ← console_print ("[bold green]文档已保存至: " +:+ doc_file_path +:+ "[/bold green]");
        mret (doc_file_path, chat_history)
      else
        feedback ← click_prompt_str "请提供您的修改建议";
        let chat_history := chat_history ++ [human_turn feedback] in
        let chat_history := chat_history ++ [assistant_turn] in
        _ ← console_print "[bold blue]正在根据反馈重新生成...[/bold blue]";
        feedback_loop rounds' tasks_dir chat_history
  end.

Definition commit_message : string := "docs: 添加" +:+ issue_key +:+ "任务文档".

(** [doc_file_path.relative_to(temp_dir)]; a [ValueError] when the path
    is not below [temp_dir]. *)
Definition relative_to (path base : string) : option string :=
  if Py.startswith (base +:+ "/") path
  then Some (Py.drop (String.length base + 1) path)
  else None.

(** Lines 261-289: the body of the [try]. *)
Definition publish_commands (doc_file_path branch_used : string)
  : M (unit + CalledProcessError) :=
  _ ← os_chdir temp_dir;
  match relative_to doc_file_path temp_dir with
  | None => stuck
  | Some rel =>
      r ← subprocess_run ["git"; "add"; rel];
      match r with
      | inr e => mret (inr e)
      | inl _ =>
          r ← subprocess_run ["git"; "commit"; "-m"; commit_message];
          match r with
          | inr e => mret (inr e)
          | inl _ =>
              r ← subprocess_run ["git"; "push"; "-u"; "origin"; branch_used];
              match r with
              | inr e => mret (inr e)
              | inl _ =>
                  _ ← console_print ("[bold green]文档已成功提交并推送到分支: " +:+ branch_used +:+ "[/bold green]");
                  mret (inl tt)
              end
          end
      end
  end.

(** Lines 290-291: the [except] clause of the publish step. *)
Definition publish_outcome (r : unit + CalledProcessError) : M unit :=
  match r with
  | inl _ => mret tt
  | inr e => console_print_markup ("[bold red]提交或推送失败: " +:+ e_stderr e +:+ "[/bold red]")
  end.

(** Step 7, lines 259-291. *)
Definition publish (doc_file_path branch_used : string) : M unit :=
  yes ← click_confirm "是否提交并推送文档到远程仓库？";
  if (yes : bool) then
    r ← publish_commands doc_file_path branch_used;
    publish_outcome r
  else mret tt.

(** Steps 5 to 7, entered when [branch_used] is set: lines 205-210 and
    218-291.  Lines 212-216 in between read [summary], [description],
    [status_name] and [assignee] from the issue; they are [issue_details]
    further down, and the four values are taken here as those lines left
    them, for an issue in which they are strings. *)
Definition document_steps (rounds : nat) (branch_used : string)
  : M (list (string * string)) :=
  let docs_dir := path_join temp_dir "docs" in
  let tasks_dir := path_join docs_dir ".tasks" in
  present ← path_exists tasks_dir;
  _ ← (if (present : bool) then mret tt
       else _ ← os_makedirs [docs_dir; tasks_dir];
            console_print "[bold green]已创建目录: docs/.tasks[/bold green]");
  _ ← console_print (String Py.LF "[bold]开始生成任务文档...[/bold]");
  '(doc_file_path, chat_history) ← feedback_loop rounds tasks_dir [];
  _ ← publish doc_file_path branch_used;
  mret chat_history.

(** Lines 139-291 of [run]. *)
Definition run_from_step4 (rounds : nat) : M (option string) :=
  branch_used ← resolve_branch;
  match branch_used with
  | Some b =>
      if Py.truthy b then _ ← document_steps rounds b; mret branch_used
      else mret branch_used
  | None => mret branch_used
  end.

End Run.

(** ** Specification-side notions *)

(** Text in which every character is an ASCII character. *)
Definition is_ascii (s : string) : bool :=
  forallb (λ c, Nat.ltb (nat_of_ascii c) 128) (list_ascii_of_string s).

(** The capital letters [A] to [Z]. *)
Definition capital (c : ascii) : Prop :=
  (65 <= nat_of_ascii c <= 90)%nat.

(** Two characters that are the same letter: equal, or a capital letter
    and its small form, 32 places further in the ASCII table. *)
Definition same_letter (a b : ascii) : Prop :=
  a = b
  ∨ (capital a ∧ nat_of_ascii b = (nat_of_ascii a + 32)%nat)
  ∨ (capital b ∧ nat_of_ascii a = (nat_of_ascii b + 32)%nat).

(** Two texts that read the same when the case of letters is ignored. *)
Definition EqualUpToCase (s t : string) : Prop :=
  Forall2 same_letter (list_ascii_of_string s) (list_ascii_of_string t).

(** [key] occurs in [name] up to the case of letters: some stretch of
    [name] reads as [key] does. *)
Definition ContainsUpToCase (key name : string) : Prop :=
  ∃ pre mid post, name = pre +:+ mid +:+ post ∧ EqualUpToCase key mid.

(** [Selects strip P listing result]: [result] lists, in the order of
    [listing], the entries that satisfy [P], each as [strip] returns it;
    nothing else is in [result]. *)
Inductive Selects (strip : string -> string) (P : string -> Prop)
  : list string -> list string -> Prop :=
| Selects_nil : Selects strip P [] []
| Selects_take name listing result :
    P name -> Selects strip P listing result ->
    Selects strip P (name :: listing) (strip name :: result)
| Selects_skip name listing result :
    ¬ P name -> Selects strip P listing result ->
    Selects strip P (name :: listing) result.

(** The decision of the branch resolver. *)
Inductive BranchDecision :=
| Checkout (branch : string)
| ChooseAmong (candidates : list string)
| CreateNew (base : string).

(** One match: check it out; several: let the user choose; none: no
    decision from this search. *)
Definition decide_found (found : list string) : option BranchDecision :=
  match found with
  | [] => None
  | [branch] => Some (Checkout branch)
  | _ => Some (ChooseAmong found)
  end.

(** The resolver as the specification words it: search with the primary
    key; on zero matches search once more with the fallback key when there
    is one; on zero matches again, create a branch from the fixed base. *)
Definition resolve (listing : list string) (primaryKey : string)
    (fallbackKey : option string) : BranchDecision :=
  match decide_found (matching_branches listing primaryKey) with
  | Some decision => decision
  | None =>
      match fallbackKey with
      | Some key =>
          match decide_found (matching_branches listing key) with
          | Some decision => decision
          | None => CreateNew "release"
          end
      | None => CreateNew "release"
      end
  end.

(** How many times the branches are listed. *)
Definition searches (listing : list string) (primaryKey : string)
    (fallbackKey : option string) : nat :=
  match matching_branches listing primaryKey, fallbackKey with
  | [], Some _ => 2
  | _, _ => 1
  end.

(** The subprocesses started during [events], in order. *)
Fixpoint commands (events : list Event) : list (list string) :=
  match events with
  | [] => []
  | Ran argv :: rest => argv :: commands rest
  | _ :: rest => commands rest
  end.

(** The conversations handed to the backend during [events], in order. *)
Fixpoint histories (events : list Event) : list (list (string * string)) :=
  match events with
  | [] => []
  | Invoked args :: rest => inv_chat_history args :: histories rest
  | _ :: rest => histories rest
  end.

(** The turns that a sequence of rejections adds to the conversation. *)
Fixpoint turns (feedbacks : list string) : list (string * string) :=
  match feedbacks with
  | [] => []
  | feedback :: rest => human_turn feedback :: assistant_turn :: turns rest
  end.

(** What [print_branches] shows. *)
Definition branch_lines (branches : list string) : list Event :=
  map (λ branch, Printed ("  - [cyan]" +:+ branch +:+ "[/cyan]")) branches.

(** What the user sees when several branches match. *)
Definition choice_events (branches : list string) : list Event :=
  [Printed ("找到多个相关分支:" +:+ String Py.LF (branch_options branches));
   Asked choose_question].

(** One rejected draft: what the backend had replied, what the user
    answered to the question whether the draft is fine, and the feedback
    the user then typed. *)
Record Rejection := {
  rejected_draft : string;
  verdict : string;
  feedback : string
}.

Definition rejection_answers (rejections : list Rejection) : list Answer :=
  flat_map (λ r, [StrAnswer (verdict r); StrAnswer (feedback r)]) rejections.

(** The conversations of successive generator calls: each is the one
    before it followed by the human turn and the acknowledgment. *)
Fixpoint conversations (history : list (string * string))
    (feedbacks : list string) : list (list (string * string)) :=
  history ::
  match feedbacks with
  | [] => []
  | fb :: rest =>
      conversations (history ++ [human_turn fb; assistant_turn]) rest
  end.

Section RoundEvents.

Variables issue_key summary description status_name assignee parent_info : string.

(** What one round of the loop does up to the user's verdict. *)
Definition round_events (history : list (string * string)) (draft : string)
  : list Event :=
  [Invoked {| inv_issue_key := issue_key; inv_summary := summary;
              inv_description := description; inv_status := status_name;
              inv_assignee := assignee; inv_parent_info := parent_info;
              inv_chat_history := history |};
   Printed (String Py.LF "[bold]AI生成的任务文档：[/bold]");
   Displayed draft;
   Asked (String Py.LF "您对生成的文档满意吗？ (y/n)")].

Definition rejected_events : list Event :=
  [Asked "请提供您的修改建议";
   Printed "[bold blue]正在根据反馈重新生成...[/bold blue]"].

Definition accepted_events (doc_file_path : string) : list Event :=
  [Wrote doc_file_path;
   Printed ("[bold green]文档已保存至: " +:+ doc_file_path +:+ "[/bold green]")].

End RoundEvents.

(** A line that opens a section: a level-1 or a level-2 heading. *)
Definition heading_line (line : string) : bool :=
  Py.startswith "# " line || Py.startswith "## " line.

(** ** Sample data *)

Definition nl : string := String Py.LF EmptyString.

(** The text [# Title], [## A], [foo], [## B], [bar], each line ended by a
    line feed. *)
Definition example_markdown : string :=
  "# Title" +:+ nl +:+ "## A" +:+ nl +:+ "foo" +:+ nl +:+
  "## B" +:+ nl +:+ "bar" +:+ nl.

Definition exited (code : Z) (out err : string) : CompletedProcess :=
  {| returncode := code; stdout := out; stderr := err |}.

(** The clone used in the sample runs, and its directory for task files. *)
Definition sample_clone : string := "/tmp/auto-md-1".
Definition sample_tasks_dir : string := "/tmp/auto-md-1/docs/.tasks".

(** The console of the sample runs.  It reads a text from left to right;
    [[name]] opens a style, [[/name]] closes the innermost open style of
    that name and [[/]] the innermost open style; a closing tag that finds
    nothing to close is refused.  A bracket that does not start with a
    small letter, [#], [/] or [@] is plain text.  Names are compared as
    written, in lower case and without the white space around them. *)
Definition opens_tag (c : ascii) : bool :=
  let n := nat_of_ascii c in
  ((Nat.leb 97 n && Nat.leb n 122) || Nat.eqb n 35 || Nat.eqb n 47
   || Nat.eqb n 64)%bool.

(** The name of a tag: what precedes its first [=]. *)
Fixpoint tag_name (tag : string) : string :=
  match tag with
  | EmptyString => EmptyString
  | String c rest => if Ascii.eqb c "=" then EmptyString else String c (tag_name rest)
  end.

Definition style_name (name : string) : string := Py.lower (Py.strip name).

(** The open styles, innermost first, without the innermost one called
    [name]; [None] when no open style has that name. *)
Fixpoint close_style (name : string) (opened : list string)
  : option (list string) :=
  match opened with
  | [] => None
  | top :: rest =>
      if String.eqb top name then Some rest
      else option_map (cons top) (close_style name rest)
  end.

(** The open styles after the tag [[tag]]. *)
Definition apply_tag (tag : string) (opened : list string)
  : option (list string) :=
  match tag_name tag with
  | EmptyString => Some opened
  | String c name =>
      if Ascii.eqb c "/" then
        match style_name name with
        | EmptyString =>
            match opened with [] => None | _ :: rest => Some rest end
        | closed => close_style closed opened
        end
      else if opens_tag c then Some (style_name (String c name) :: opened)
      else Some opened
  end.

(** [tag] holds the characters read since the last opening bracket, when
    there is one that no closing bracket has answered yet. *)
Fixpoint scan_markup (opened : list string) (tag : option string)
    (text : string) : bool :=
  match text with
  | EmptyString => true
  | String c rest =>
      if Ascii.eqb c "[" then scan_markup opened (Some EmptyString) rest
      else
        match tag with
        | None => scan_markup opened None rest
        | Some t =>
            if Ascii.eqb c "]" then
              match apply_tag t opened with
              | Some opened' => scan_markup opened' None rest
              | None => false
              end
            else scan_markup opened (Some (t +:+ String c EmptyString)) rest
        end
  end.

Definition sample_console (text : string) : bool := scan_markup [] None text.

(** A world with the given scripts, no past, the sample console, and a
    file system that holds the directory for task files and no file. *)
Definition scripted (answers : list Answer) (procs : list CompletedProcess)
    (replies : list string) : World :=
  {| terminal := answers; processes := procs; backend := replies;
     dirs := {[ sample_tasks_dir ]}; files := ∅;
     markup_ok := sample_console; trace := [] |}.

(** A configuration file in which every field is present and the URL of
    the repository is the empty string. *)
Definition config_empty_url : json :=
  JObj {[ "git" := JObj {[ "url" := JStr "";
                           "username" := JStr "alice";
                           "password" := JStr "secret" ]};
          "jira" := JObj {[ "username" := JStr "alice";
                            "password" := JStr "secret" ]} ]}.

(** A listing of two remote branches, as [git branch -r] prints it. *)
Definition two_branches : CompletedProcess :=
  exited 0 ("  origin/DTS-1-fix" +:+ nl +:+ "  origin/main" +:+ nl) "".

(** [str.lower] on two Greek texts, as Python computes it: a capital sigma
    becomes the final small sigma [ς] at the end of a word and the small
    sigma [σ] inside one.  The function below gives the two texts their
    lower-case forms; any other text goes through [Py.lower], which is
    [str.lower] on ASCII text. *)
Definition greek_forms : list (string * string) :=
  [("ΑΣ", "ας"); ("origin/ΑΣΒ", "origin/ασβ")].

Definition lower_final_sigma (s : string) : string :=
  match List.find (λ form, String.eqb (fst form) s) greek_forms with
  | Some form => snd form
  | None => Py.lower s
  end.

Definition one_rejection : list Rejection :=
  [{| rejected_draft := "# D1"; verdict := "n";
      feedback := "expand background" |}].

(** * The rest of the code

    The functions below are the neighbours of the ones above: the other
    functions of [git_utils], [config] and [ai_utils], the extraction of
    the issue fields in [cli], and the loops of [ai_doc] and
    [generate_doc]. *)

(** ** More Python primitives *)

(** [s.split(sep)] for a non-empty [sep]: the pieces between the
    occurrences of [sep], found from left to right without overlap.
    [skip] counts the characters of an occurrence still to be dropped. *)
Fixpoint split_from (skip : nat) (sep s : string) : list string :=
  match s with
  | EmptyString => [EmptyString]
  | String c s' =>
      match skip with
      | S k => split_from k sep s'
      | O =>
          if Py.startswith sep s
          then EmptyString :: split_from (String.length sep - 1) sep s'
          else match split_from 0 sep s' with
               | h :: t => String c h :: t
               | [] => [String c EmptyString]
               end
      end
  end.

Definition split_on (sep s : string) : list string := split_from 0 sep s.

(** The characters that [urllib.parse.quote] never escapes: letters,
    digits and [_.-~]. *)
Definition unreserved (c : ascii) : bool :=
  let n := nat_of_ascii c in
  ((Nat.leb 65 n && Nat.leb n 90) || (Nat.leb 97 n && Nat.leb n 122)
   || (Nat.leb 48 n && Nat.leb n 57)
   || Nat.eqb n 95 || Nat.eqb n 46 || Nat.eqb n 45 || Nat.eqb n 126)%bool.

Definition hex_digit (n : nat) : ascii :=
  match String.get n "0123456789ABCDEF" with
  | Some c => c
  | None => "0"%char
  end.

(** [urllib.parse.quote(s, safe='')]: every byte of the UTF-8 encoding
    that is not unreserved becomes [%XX], in upper-case hexadecimal. *)
Fixpoint quote (s : string) : string :=
  match s with
  | EmptyString => EmptyString
  | String c s' =>
      if unreserved c then String c (quote s')
      else
        let n := nat_of_ascii c in
        String "%" (String (hex_digit (n / 16))
                           (String (hex_digit (n mod 16)) (quote s')))
  end.

(** ** JSON values as Python sees them *)

(** Truth value: [None], [False], zero and the empty string, list and
    dict are false. *)
Definition json_truthy (v : json) : bool :=
  match v with
  | JNull => false
  | JBool b => b
  | JNum n => negb (n =? 0)
  | JStr s => Py.truthy s
  | JArr items => match items with [] => false | _ => true end
  | JObj members => negb (bool_decide (members = ∅))
  end.

(** [container[key]] with a string key: a [KeyError] when the key is
    missing, a [TypeError] on anything but a dict. *)
Definition subscript (container : json) (key : string) : option json :=
  match container with
  | JObj members => members !! key
  | _ => None
  end.

(** [container.get(key, default)]; only a dict has [get]. *)
Definition py_get (container : json) (key : string) (default : json)
  : option json :=
  match container with
  | JObj members => Some (match members !! key with Some v => v | None => default end)
  | _ => None
  end.

(** ** cli: the fields of an issue *)

(** What the commands read from a fetched issue before generating. *)
Record IssueDetails := {
  d_summary : json;
  d_description : json;
  d_status_name : json;
  d_assignee : json
}.

(** [fields = issue["fields"]] followed by the four [get]s (lines 212-216
    of [run], and the same lines in [ai_doc], [generate_doc] and
    [display_issue_info]); [None] when an exception is raised. *)
Definition issue_details (issue : json) : option IssueDetails :=
  fields ← subscript issue "fields";
  summary ← py_get fields "summary" (JStr "无标题");
  description ← py_get fields "description" (JStr "无描述");
  status ← py_get fields "status" (JObj ∅);
  status_name ← py_get status "name" (JStr "未知状态");
  assignee ← py_get fields "assignee" (JObj ∅);
  assignee_name ← py_get assignee "displayName" (JStr "未分配");
  Some {| d_summary := summary; d_description := description;
          d_status_name := status_name; d_assignee := assignee_name |}.

(** A value on which [.get] can be called after [fields.get(key, {})]:
    the key is missing, or it holds a dict. *)
Definition dict_or_absent (entry : option json) : Prop :=
  match entry with
  | None | Some (JObj _) => True
  | Some _ => False
  end.

(** [d.get(key, default)] on the members of a dict. *)
Definition member_or (members : gmap string json) (key : string)
    (default : json) : json :=
  match members !! key with
  | Some v => v
  | None => default
  end.

(** A field that is a string, as the tracker sends the four of them for
    an issue that has them. *)
Definition field_text (v : json) : option string :=
  match v with
  | JStr s => Some s
  | _ => None
  end.

(** Steps 5 to 7 of [run] from the fetched issue, lines 205-291.  Lines
    212-216 raise when the issue has no [fields], or holds a [status] or an
    [assignee] that is not a dict; reading the fields changes nothing, so
    it is done first here.  A field that is not a string is handed to the
    template as it is: the model follows the run for fields that are
    strings, and does not complete for others. *)
Definition document_steps_of (issue_key : string) (issue : json)
    (parent_info temp_dir : string) (rounds : nat) (branch_used : string)
  : M (list (string * string)) :=
  match issue_details issue with
  | None => stuck
  | Some d =>
      match field_text (d_summary d), field_text (d_description d),
            field_text (d_status_name d), field_text (d_assignee d) with
      | Some summary, Some description, Some status_name, Some assignee =>
          document_steps issue_key summary description status_name assignee
                         parent_info temp_dir rounds branch_used
      | _, _, _, _ => stuck
      end
  end.

(** ** config and [init] *)

(** [get_git_config()] and [get_jira_config()] *)
Definition get_git_config (persisted : option json) : option json :=
  dict_get (load_config persisted) "git".

Definition get_jira_config (persisted : option json) : option json :=
  dict_get (load_config persisted) "jira".

(** The configuration that [init] saves: the loaded one with its [git] and
    [jira] entries replaced.  Item assignment raises a [TypeError] when the
    loaded value is not a dict.  The file is represented by the value that
    [json.load] reads from it; what [json.dump] writes of a value made of
    dicts and strings reads back as that value. *)
Definition init_config (persisted : option json)
    (git_url git_username git_password jira_username jira_password : string)
  : option json :=
  match load_config persisted with
  | JObj members =>
      let with_git :=
        <["git" := JObj {[ "url" := JStr git_url;
                           "username" := JStr git_username;
                           "password" := JStr git_password ]}]> members in
      Some (JObj (<["jira" := JObj {[ "username" := JStr jira_username;
                                      "password" := JStr jira_password ]}]>
                    with_git))
  | _ => None
  end.

(** ** git_utils: cloning and the default branch *)

(** The first attempt of [clone_repo]: the credentials inside the URL. *)
Definition auth_url (scheme rest username password : string) : string :=
  scheme +:+ "://" +:+ quote username +:+ ":" +:+ quote password +:+ "@" +:+ rest.

(** The second attempt: the credentials as [--config] parameters. *)
Definition clone_with_parameters (repo_url temp_dir username password : string)
  : list string :=
  ["git"; "clone"; repo_url; temp_dir;
   "--config"; "credential.username=" +:+ username;
   "--config"; "credential.helper=!echo password=" +:+ password +:+ "; echo"].

(** [clone_repo(temp_dir)].  A missing or false value among the three
    settings raises a [ValueError]; a setting that is not a string raises
    where a string method is called on it. *)
Definition clone_repo (persisted : option json) (temp_dir : string) : M bool :=
  match get_git_config persisted with
  | None => stuck
  | Some git_config =>
      match py_get git_config "url" JNull,
            py_get git_config "username" JNull,
            py_get git_config "password" JNull with
      | Some repo_url, Some username, Some password =>
          if negb (json_truthy repo_url) || negb (json_truthy username)
             || negb (json_truthy password)
          then stuck
          else
            _ ← console_print ("[bold]克隆仓库到临时目录: " +:+ temp_dir +:+ "[/bold]");
            match repo_url with
            | JStr repo_url =>
                match split_on "://" repo_url with
                | [scheme; rest] =>
                    match username, password with
                    | JStr username, JStr password =>
                        r ← subprocess_run
                              ["git"; "clone";
                               auth_url scheme rest username password; temp_dir];
                        match r with
                        | inl _ => mret true
                        | inr _ =>
                            _ ← console_print "[bold yellow]URL认证方式克隆失败，尝试使用凭据参数方式...[/bold yellow]";
                            r ← subprocess_run
                                  (clone_with_parameters repo_url temp_dir
                                                         username password);
                            match r with
                            | inl _ => mret true
                            | inr e =>
                                _ ← console_print_markup ("[bold red]克隆仓库失败: " +:+ e_stderr e +:+ "[/bold red]");
                                mret false
                            end
                        end
                    | _, _ => stuck
                    end
                | _ =>
                    _ ← console_print_markup ("[bold red]Git仓库URL格式不正确: " +:+ repo_url +:+ "[/bold red]");
                    mret false
                end
            | _ => stuck
            end
      | _, _, _ => stuck
      end
  end.

(** The inner loop of [get_default_branch]: the first of the usual names
    that [git rev-parse --verify] accepts, [master] when none is. *)
Fixpoint probe_branches (names : list string) : M string :=
  match names with
  | [] => mret "master"
  | branch :: rest =>
      r ← subprocess_run ["git"; "rev-parse"; "--verify"; "origin/" +:+ branch];
      match r with
      | inl _ => mret branch
      | inr _ => probe_branches rest
      end
  end.

(** [get_default_branch()] *)
Definition get_default_branch : M string :=
  r ← subprocess_run ["git"; "remote"; "show"; "origin"];
  match r with
  | inr _ => mret "master"
  | inl result =>
      let lines := Py.split_lines (Py.strip (stdout result)) in
      match List.find (Py.contains "HEAD branch") lines with
      | Some line => mret (Py.strip (List.last (split_on ":" line) ""))
      | None => probe_branches ["main"; "master"; "develop"]
      end
  end.

(** ** ai_utils: the prompts file *)

(** The state of the loop of [load_prompts_from_file]. *)
Record PromptScan := {
  ps_prompts : gmap string string;
  ps_section : option string;
  ps_content : list string
}.

Definition section_open (current_section : option string) : bool :=
  match current_section with
  | Some name => Py.truthy name
  | None => false
  end.

(** One turn of [for line in f]. *)
Definition prompt_line (st : PromptScan) (raw : string) : PromptScan :=
  let line := Py.rstrip raw in
  if Py.startswith "## " line then
    {| ps_prompts :=
         match ps_section st with
         | Some name =>
             if Py.truthy name
             then <[name := Py.join_lines (ps_content st)]> (ps_prompts st)
             else ps_prompts st
         | None => ps_prompts st
         end;
       ps_section := Some (Py.strip (Py.drop 3 line));
       ps_content := [] |}
  else if Py.startswith "# " line then st
  else if section_open (ps_section st) then
    {| ps_prompts := ps_prompts st; ps_section := ps_section st;
       ps_content := ps_content st ++ [line] |}
  else st.

(** The saving of the last section: only when it has content. *)
Definition prompt_finish (st : PromptScan) : gmap string string :=
  match ps_section st, ps_content st with
  | Some name, _ :: _ =>
      if Py.truthy name
      then <[name := Py.join_lines (ps_content st)]> (ps_prompts st)
      else ps_prompts st
  | _, _ => ps_prompts st
  end.

Definition prompt_start : PromptScan :=
  {| ps_prompts := ∅; ps_section := None; ps_content := [] |}.

(** [load_prompts_from_file], from the lines that reading the file
    yields; [None] stands for a file that does not exist. *)
Definition load_prompts (file_lines : option (list string))
  : gmap string string :=
  match file_lines with
  | None => ∅
  | Some lines => prompt_finish (fold_left prompt_line lines prompt_start)
  end.

(** ** cli: the loops of [generate_doc] and [ai_doc] *)

Section OtherCommands.

Variable issue_key : string.
Variables summary description status_name assignee parent_info : string.

(** Lines 462-494: the loop of [generate_doc]. *)
Fixpoint generate_doc_loop (rounds : nat) (chat_history : list (string * string))
  : M (string * list (string * string)) :=
  match rounds with
  | O => stuck
  | S rounds' =>
      result ← generate_task_document issue_key summary description
                 status_name assignee parent_info chat_history;
      _ ← console_print (String Py.LF "[bold]AI生成的任务文档：[/bold]");
      _ ← display_markdown (doc_content result);
      answer ← click_prompt_str (String Py.LF "您对生成的文档满意吗？ (y/n)");
      let satisfied := bool_decide (Py.lower answer = "y") in
      if satisfied then
        file_path ← save_markdown_to_file issue_key (doc_content result);
        _ ← console_print ("[bold green]文档已保存至: " +:+ file_path +:+ "[/bold green]");
        mret (file_path, chat_history)
      else
        feedback ← click_prompt_str "请提供您的修改建议";
        let chat_history := chat_history ++ [human_turn feedback] in
        let chat_history := chat_history ++ [assistant_turn] in
        _ ← console_print "[bold blue]正在根据反馈重新生成...[/bold blue]";
        generate_doc_loop rounds' chat_history
  end.


End OtherCommands.

(** ** Notions for the properties of [run] *)

(** The branches that the search step ends with. *)
Definition candidates (listing : list string) (issue_key : string)
    (parent_key : option string) : list string :=
  match matching_branches listing issue_key with
  | [] =>
      match parent_key with
      | Some key => matching_branches listing key
      | None => []
      end
  | found => found
  end.

(** The answers after which [select_branch] starts no command: a no to the
    one branch found or to creating a branch, or a number that names none
    of several branches. *)
Definition refusal (found : list string) (a : Answer) : Prop :=
  match found with
  | [] | [_] => a = Confirm false
  | _ => ∃ idx, a = IntAnswer idx ∧ (idx < 1 ∨ Z.of_nat (length found) < idx)
  end.

(** ** More sample data *)



(** The same with a repository address that names no scheme. *)
Definition schemeless_settings : gmap string json :=
  {[ "url" := JStr "bitbucket.org/team/repo.git";
     "username" := JStr "alice";
     "password" := JStr "secret" ]}.

Definition schemeless_config : json :=
  JObj {[ "git" := JObj schemeless_settings ]}.

(** An issue without status and assignee, and one that nobody is
    assigned to, as the tracker sends it. *)
Definition bare_fields : gmap string json := {[ "summary" := JStr "Fix login" ]}.

Definition bare_issue : gmap string json :=
  {[ "key" := JStr "DTS-1"; "fields" := JObj bare_fields ]}.

Definition unassigned_issue : json :=
  JObj {[ "key" := JStr "DTS-1";
          "fields" := JObj {[ "summary" := JStr "Fix login";
                              "assignee" := JNull ]} ]}.

(** An issue with the four fields that the generator is given. *)
Definition sample_issue : gmap string json :=
  {[ "key" := JStr "DTS-1";
     "fields" := JObj {[ "summary" := JStr "Fix login";
                         "description" := JStr "Users cannot log in";
                         "status" := JObj {[ "name" := JStr "Open" ]};
                         "assignee" := JObj {[ "displayName" := JStr "alice" ]} ]} ]}.

(** What [git remote show origin] prints, in part. *)
Definition remote_show : CompletedProcess :=
  exited 0 ("* remote origin" +:+ nl +:+
            "  Fetch URL: https://bitbucket.org/team/repo.git" +:+ nl +:+
            "  HEAD branch: main" +:+ nl) "".

(** * Properties *)

(** ** The primitives on small inputs *)

Example lower_mixed : Py.lower "Origin/DTS-6038_Fix" = "origin/dts-6038_fix".
Proof. reflexivity. Qed.

Example strip_line : Py.strip "  origin/DTS-1 " = "origin/DTS-1".
Proof. reflexivity. Qed.

Example split_join : Py.split_lines (Py.join_lines ["a"; ""; "b"]) = ["a"; ""; "b"].
Proof. reflexivity. Qed.

Example split_empty : Py.split_lines "" = [""].
Proof. reflexivity. Qed.

Example remove_origin :
  Py.remove_all "origin/" "origin/feature/origin/x" = "feature/x".
Proof. reflexivity. Qed.

Example parent_of_document :
  parent_dir "/tmp/auto-md-1/docs/.tasks/DTS-1.md" = sample_tasks_dir.
Proof. reflexivity. Qed.

Example listing_of_two :
  matching_branches (Py.split_lines (Py.strip (stdout two_branches))) "dts-1"
  = ["origin/DTS-1-fix"].
Proof. reflexivity. Qed.

Example resolve_one :
  resolve ["origin/DTS-1-fix"; "  origin/main"] "DTS-1" (Some "DTS-0")
  = Checkout "origin/DTS-1-fix".
Proof. reflexivity. Qed.

Example resolve_many :
  resolve ["origin/DTS-1-a"; "  origin/DTS-1-b"] "DTS-1" None
  = ChooseAmong ["origin/DTS-1-a"; "origin/DTS-1-b"].
Proof. reflexivity. Qed.

Example resolve_parent :
  resolve ["origin/DTS-0-epic"; "  origin/main"] "DTS-1" (Some "DTS-0")
  = Checkout "origin/DTS-0-epic".
Proof. reflexivity. Qed.

Example resolve_none :
  resolve ["origin/main"] "DTS-1" (Some "DTS-0") = CreateNew "release".
Proof. reflexivity. Qed.

Example keys_present_values_ignored :
  is_initialized (Some (JObj {[ "git" := JObj {[ "url" := JNull;
                                                 "username" := JNull;
                                                 "password" := JNull ]};
                                "jira" := JObj {[ "username" := JNull;
                                                  "password" := JNull ]} ]}))
  = Some true.
Proof. vm_compute. reflexivity. Qed.

Example key_missing :
  is_initialized (Some (JObj {[ "git" := JObj {[ "url" := JStr "u" ]} ]}))
  = Some false.
Proof. vm_compute. reflexivity. Qed.

Example no_config_file : is_initialized None = Some false.
Proof. vm_compute. reflexivity. Qed.

(** ** Strings *)

Lemma app_String c a b : String c a +:+ b = String c (a +:+ b).
Proof. reflexivity. Qed.

Lemma app_empty_l a : EmptyString +:+ a = a.
Proof. reflexivity. Qed.

Lemma startswith_app p r : Py.startswith p (p +:+ r) = true.
Proof.
  induction p as [|c p IH]; [reflexivity|].
  rewrite app_String. cbn. destruct (ascii_dec c c); [exact IH | congruence].
Qed.

Lemma startswith_inv p s :
  Py.startswith p s = true -> ∃ r, s = p +:+ r.
Proof.
  revert s. induction p as [|c p IH]; intros s H.
  - exists s. reflexivity.
  - destruct s as [|d s]; [discriminate|]. cbn in H.
    destruct (ascii_dec c d) as [->|]; [|discriminate].
    destruct (IH s H) as [r ->]. exists r. reflexivity.
Qed.

Lemma contains_head sub s :
  Py.startswith sub s = true -> Py.contains sub s = true.
Proof. intros H. destruct s; cbn [Py.contains]; rewrite H; reflexivity. Qed.

Lemma contains_app pre sub post :
  Py.contains sub (pre +:+ sub +:+ post) = true.
Proof.
  induction pre as [|c pre IH].
  - rewrite app_empty_l. apply contains_head, startswith_app.
  - rewrite app_String. cbn [Py.contains]. rewrite IH. apply orb_true_r.
Qed.

Lemma contains_inv sub s :
  Py.contains sub s = true -> ∃ pre post, s = pre +:+ sub +:+ post.
Proof.
  induction s as [|c s IH]; cbn; intros H.
  - apply orb_true_iff in H as [H|H]; [|discriminate].
    apply startswith_inv in H as [r Hr]. exists EmptyString, r. exact Hr.
  - apply orb_true_iff in H as [H|H].
    + apply startswith_inv in H as [r Hr]. exists EmptyString, r. exact Hr.
    + destruct (IH H) as (pre & post & ->).
      exists (String c pre), post. reflexivity.
Qed.

Lemma lower_app a b : Py.lower (a +:+ b) = Py.lower a +:+ Py.lower b.
Proof.
  induction a as [|c a IH]; [reflexivity|].
  rewrite app_String. unfold Py.lower in *. cbn. rewrite IH. reflexivity.
Qed.

Lemma lower_split s x y :
  Py.lower s = x +:+ y ->
  ∃ a b, s = a +:+ b ∧ Py.lower a = x ∧ Py.lower b = y.
Proof.
  revert s. induction x as [|c x IH]; intros s H.
  - exists EmptyString, s. auto.
  - destruct s as [|d s]; [discriminate|].
    rewrite app_String in H. unfold Py.lower in H. cbn in H.
    injection H as Hc Hs. destruct (IH s Hs) as (a & b & -> & Ha & Hb).
    exists (String d a), b. repeat split; [|exact Hb].
    unfold Py.lower. cbn. rewrite Hc. f_equal. exact Ha.
Qed.

(** ** Letter case *)

Lemma nat_of_ascii_inj a b : nat_of_ascii a = nat_of_ascii b -> a = b.
Proof.
  intros H.
  rewrite <- (ascii_nat_embedding a), <- (ascii_nat_embedding b), H.
  reflexivity.
Qed.

Lemma lower_char_code c :
  nat_of_ascii (Py.lower_char c) =
  if (Nat.leb 65 (nat_of_ascii c) && Nat.leb (nat_of_ascii c) 90)%bool
  then (nat_of_ascii c + 32)%nat else nat_of_ascii c.
Proof.
  unfold Py.lower_char.
  destruct (Nat.leb 65 (nat_of_ascii c) && Nat.leb (nat_of_ascii c) 90)%bool
    eqn:E; [|reflexivity].
  apply andb_true_iff in E as [_ E]. apply Nat.leb_le in E.
  apply nat_ascii_embedding. lia.
Qed.

(** Two characters have the same lower-case form exactly when they are
    the same letter. *)
Lemma lower_char_same a b :
  Py.lower_char a = Py.lower_char b ↔ same_letter a b.
Proof.
  unfold same_letter, capital. split.
  - intros H. apply (f_equal nat_of_ascii) in H.
    rewrite !lower_char_code in H.
    destruct (Nat.leb_spec 65 (nat_of_ascii a)),
             (Nat.leb_spec (nat_of_ascii a) 90),
             (Nat.leb_spec 65 (nat_of_ascii b)),
             (Nat.leb_spec (nat_of_ascii b) 90);
      cbn [andb] in H;
      first [ left; apply nat_of_ascii_inj; lia
            | right; left; lia
            | right; right; lia ].
  - intros H. apply nat_of_ascii_inj. rewrite !lower_char_code.
    destruct H as [->|[[Ha Hb]|[Hb Ha]]]; [reflexivity| |];
      destruct (Nat.leb_spec 65 (nat_of_ascii a)),
               (Nat.leb_spec (nat_of_ascii a) 90),
               (Nat.leb_spec 65 (nat_of_ascii b)),
               (Nat.leb_spec (nat_of_ascii b) 90);
      cbn [andb]; lia.
Qed.

Lemma lower_same s t : Py.lower s = Py.lower t ↔ EqualUpToCase s t.
Proof.
  unfold EqualUpToCase, Py.lower. revert t.
  induction s as [|a s IH]; intros [|b t]; cbn [Py.str_map list_ascii_of_string].
  - split; [constructor | reflexivity].
  - split; [discriminate | inversion 1].
  - split; [discriminate | inversion 1].
  - split.
    + intros H. injection H as Hc Hs.
      constructor; [apply lower_char_same, Hc | apply IH, Hs].
    + intros H. inversion H as [|? ? ? ? Hc Hs]; subst.
      f_equal; [apply lower_char_same, Hc | apply IH, Hs].
Qed.

(** On the lower-case forms that [Py.lower] gives, the test of
    [find_branch_for_issue] is containment up to case. *)
Lemma contains_lower_iff key name :
  Py.contains (Py.lower key) (Py.lower name) = true ↔ ContainsUpToCase key name.
Proof.
  split.
  - intros H. apply contains_inv in H as (x & y & H).
    apply lower_split in H as (pre & rest & -> & Hpre & Hrest).
    apply lower_split in Hrest as (mid & post & -> & Hmid & Hpost).
    exists pre, mid, post. split; [reflexivity|].
    apply lower_same. symmetry. exact Hmid.
  - intros (pre & mid & post & -> & H). apply lower_same in H.
    rewrite !lower_app, <- H. apply contains_app.
Qed.

(** ** Branch matching *)

Section Matching.

Variables lower strip : string -> string.

Lemma matching_with_cons branches key name :
  matching_with lower strip (name :: branches) key =
  if Py.contains (lower key) (lower name)
  then strip name :: matching_with lower strip branches key
  else matching_with lower strip branches key.
Proof.
  unfold matching_with. cbn.
  destruct (Py.contains (lower key) (lower name)); reflexivity.
Qed.

Lemma matching_with_selects branches key :
  Selects strip (λ name, Py.contains (lower key) (lower name) = true)
          branches (matching_with lower strip branches key).
Proof.
  induction branches as [|name branches IH]; [constructor|].
  rewrite matching_with_cons.
  destruct (Py.contains (lower key) (lower name)) eqn:E.
  - apply Selects_take; [exact E | exact IH].
  - apply Selects_skip; [congruence | exact IH].
Qed.

Lemma Selects_functional P listing r1 r2 :
  Selects strip P listing r1 -> Selects strip P listing r2 -> r1 = r2.
Proof.
  intros H1. revert r2.
  induction H1 as [|name listing r1 Hp _ IH|name listing r1 Hn _ IH];
    intros r2 H2; inversion H2; subst; try reflexivity; try contradiction.
  - f_equal. auto.
  - auto.
Qed.

Lemma matching_with_clean branches key :
  Forall (λ name, strip name = name) branches ->
  matching_with lower strip branches key =
  List.filter (λ name, Py.contains (lower key) (lower name)) branches.
Proof.
  induction 1 as [|name branches Hname _ IH]; [reflexivity|].
  rewrite matching_with_cons. cbn.
  destruct (Py.contains (lower key) (lower name)); [|exact IH].
  rewrite Hname, IH. reflexivity.
Qed.

End Matching.


(** ** Running commands *)

Ltac run_step :=
  unfold subprocess_run, console_print, console_print_markup, os_chdir,
    click_confirm,
    click_prompt_int, click_prompt_str, text_chain_invoke, write_text,
    display_markdown, mbind, M_bind, mret, M_ret, emit, next_process,
    next_answer, next_reply, store, stuck, log, set_terminal, set_processes,
    set_backend, set_files, set_dirs;
  cbn -[String.append Py.strip Py.split_lines Py.lower Py.contains
        Py.remove_all Py.startswith Py.join_lines matching_branches
        Z.leb Z.eqb Z.to_nat Z.of_nat pretty length lookup dir_ok parent_dir
        path_join].

Ltac world_eq :=
  cbv beta iota zeta delta
    [log set_terminal set_processes set_backend set_files set_dirs
     terminal processes backend dirs files markup_ok trace
     round_events rejected_events accepted_events choice_events];
  repeat rewrite <- app_assoc; cbn [app]; try reflexivity.

Lemma bind_run {A B} (m : M A) (f : A -> M B) (w : World) :
  (m ≫= f) w = match m w with Some (a, w') => f a w' | None => None end.
Proof. reflexivity. Qed.

Lemma commands_app a b : commands (a ++ b) = commands a ++ commands b.
Proof.
  induction a as [|e a IH]; [reflexivity|].
  destruct e; cbn; rewrite IH; reflexivity.
Qed.

Lemma commands_printed {A} (f : A -> string) l :
  commands (map (λ x, Printed (f x)) l) = [].
Proof. induction l; [reflexivity | exact IHl]. Qed.

(** ** The branch listing *)

Lemma find_branch_ok temp_dir key p rest w :
  processes w = p :: rest -> returncode p = 0 ->
  find_branch_for_issue temp_dir key w =
  Some (matching_branches (Py.split_lines (Py.strip (stdout p))) key,
        log [Chdir temp_dir; Ran ["git"; "branch"; "-r"]]
            (set_processes rest w)).
Proof.
  intros Hp Hrc. apply Z.eqb_eq in Hrc.
  unfold find_branch_for_issue. run_step.
  rewrite Hp. run_step. rewrite Hrc. run_step. world_eq.
Qed.

Lemma find_branch_failed temp_dir key p rest w :
  processes w = p :: rest -> returncode p ≠ 0 ->
  find_branch_for_issue temp_dir key w =
  if markup_ok w ("[bold red]查找分支失败: " +:+ stderr p +:+ "[/bold red]")
  then Some ([], log [Chdir temp_dir; Ran ["git"; "branch"; "-r"];
                      Printed ("[bold red]查找分支失败: " +:+ stderr p +:+ "[/bold red]")]
                     (set_processes rest w))
  else None.
Proof.
  intros Hp Hrc. unfold find_branch_for_issue. run_step.
  rewrite Hp. run_step. apply Z.eqb_neq in Hrc. rewrite Hrc. run_step.
  destruct (markup_ok w _); [world_eq | reflexivity].
Qed.

Lemma print_branches_run branches w :
  print_branches branches w = Some (tt, log (branch_lines branches) w).
Proof.
  unfold print_branches. revert w.
  induction branches as [|b branches IH]; intros w.
  - run_step. rewrite app_nil_r. destruct w; reflexivity.
  - cbn [for_each]. run_step. unfold log in IH. rewrite IH. run_step.
    world_eq.
Qed.

(** C6, as the code has it.  For every listing and every key, the list
    comprehension of [find_branch_for_issue] keeps exactly the listed
    names whose lower-case form contains the lower-case form of the key, in
    the order of the listing, and no other list does; each kept name is
    returned as [str.strip] returns it, so on a listing of names that
    [str.strip] leaves alone the result is the listing filtered.  This
    holds for any two functions in the place of [str.lower] and
    [str.strip], whatever they do outside the ASCII range.  For a
    lower-casing function that acts on ASCII text as [str.lower] does, an
    ASCII name passes the test for an ASCII key exactly when some stretch
    of the name reads as the key does, letter by letter, capital or small.
    [matching_branches] is the comprehension with the two ASCII
    functions. *)
Theorem find_branch_case_insensitive_in_order
    (lower strip : string -> string) (branches : list string) (key : string) :
  let kept := λ name, Py.contains (lower key) (lower name) = true in
  Selects strip kept branches (matching_with lower strip branches key)
  ∧ (∀ result, Selects strip kept branches result ->
               result = matching_with lower strip branches key)
  ∧ (Forall (λ name, strip name = name) branches ->
     matching_with lower strip branches key =
     List.filter (λ name, Py.contains (lower key) (lower name)) branches)
  ∧ ((∀ s, is_ascii s = true -> lower s = Py.lower s) ->
     is_ascii key = true ->
     ∀ name, is_ascii name = true ->
             (kept name ↔ ContainsUpToCase key name))
  ∧ matching_branches branches key
    = matching_with Py.lower Py.strip branches key.
Proof.
  intros kept.
  split; [apply matching_with_selects|].
  split.
  { intros result H.
    eapply Selects_functional; [exact H | apply matching_with_selects]. }
  split; [apply matching_with_clean|].
  split; [|reflexivity].
  intros Hlower Hkey name Hname. unfold kept.
  rewrite (Hlower key Hkey), (Hlower name Hname).
  apply contains_lower_iff.
Qed.

(** C6 as stated fails: the name [origin/ΑΣΒ] holds the key [ΑΣ] as it is
    written, and the comprehension does not select it.  The lower-case
    form of the key ends in the final sigma, that of the name has the
    sigma inside a word. *)
Lemma final_sigma_not_matched :
  matching_with lower_final_sigma Py.strip ["origin/ΑΣΒ"] "ΑΣ" = []
  ∧ "origin/ΑΣΒ" = "origin/" +:+ "ΑΣ" +:+ "Β"
  ∧ ContainsUpToCase "ΑΣ" "origin/ΑΣΒ".
Proof.
  split; [reflexivity|]. split; [reflexivity|].
  exists "origin/", "ΑΣ", "Β". split; [reflexivity|].
  repeat constructor.
Qed.


(** ** Branch search *)

Section Search.

Variables (issue_key : string) (parent_issue : option string).
Variable temp_dir : string.
Variable p : CompletedProcess.
Hypothesis listing_ok : returncode p = 0.

Let listing := Py.split_lines (Py.strip (stdout p)).

Lemma search_primary_hit rest w b bs :
  processes w = p :: rest ->
  matching_branches listing issue_key = b :: bs ->
  search_branches issue_key parent_issue temp_dir w =
  Some (b :: bs,
        log ([Chdir temp_dir; Ran ["git"; "branch"; "-r"];
              Printed ("[bold green]找到与问题 " +:+ issue_key +:+ " 相关的分支:[/bold green]")]
             ++ branch_lines (b :: bs))
            (set_processes rest w)).
Proof.
  intros Hp Hm. unfold search_branches.
  rewrite bind_run, (find_branch_ok _ _ _ _ _ Hp listing_ok).
  fold listing. rewrite Hm.
  rewrite bind_run. unfold console_print, emit at 1.
  rewrite bind_run, print_branches_run. run_step. world_eq.
Qed.

Lemma search_primary_miss rest w :
  processes w = p :: rest ->
  matching_branches listing issue_key = [] ->
  search_branches issue_key parent_issue temp_dir w =
  let w' := log [Chdir temp_dir; Ran ["git"; "branch"; "-r"];
                 Printed ("[bold yellow]未找到与问题 " +:+ issue_key +:+ " 相关的分支[/bold yellow]")]
                (set_processes rest w) in
  match parent_issue with
  | Some parent_key => search_parent temp_dir parent_key w'
  | None => Some ([], w')
  end.
Proof.
  intros Hp Hm. unfold search_branches.
  rewrite bind_run, (find_branch_ok _ _ _ _ _ Hp listing_ok).
  fold listing. rewrite Hm.
  rewrite bind_run. unfold console_print, emit at 1.
  replace (log _ (log _ _)) with
    (log [Chdir temp_dir; Ran ["git"; "branch"; "-r"];
          Printed ("[bold yellow]未找到与问题 " +:+ issue_key +:+ " 相关的分支[/bold yellow]")]
         (set_processes rest w))
    by world_eq.
  destruct parent_issue; reflexivity.
Qed.

Lemma search_parent_ok parent_key rest w :
  processes w = p :: rest ->
  ∃ events,
    search_parent temp_dir parent_key w =
    Some (matching_branches listing parent_key,
          log events (set_processes rest w))
    ∧ commands events = [["git"; "branch"; "-r"]].
Proof.
  intros Hp. unfold search_parent.
  rewrite bind_run, (find_branch_ok _ _ _ _ _ Hp listing_ok).
  fold listing.
  destruct (matching_branches listing parent_key) as [|b bs].
  - eexists. split; [run_step; world_eq|]. reflexivity.
  - rewrite bind_run. unfold console_print, emit at 1.
    rewrite bind_run, print_branches_run.
    exists ([Chdir temp_dir; Ran ["git"; "branch"; "-r"];
             Printed ("[bold green]找到与父问题 " +:+ parent_key +:+ " 相关的分支:[/bold green]")]
            ++ branch_lines (b :: bs)).
    split; [run_step; world_eq|].
    rewrite commands_app. unfold branch_lines. rewrite commands_printed.
    reflexivity.
Qed.

End Search.

(** ** Branch selection *)

Lemma select_single issue_key branch w yes answers :
  terminal w = Confirm yes :: answers ->
  select_branch issue_key [branch] w =
  let w' := set_terminal answers (log [Asked (checkout_question branch)] w) in
  if yes then try_checkout branch w' else Some (None, w').
Proof.
  intros Ht. unfold select_branch. run_step. rewrite Ht.
  destruct yes; reflexivity.
Qed.

Lemma select_none issue_key w yes answers :
  terminal w = Confirm yes :: answers ->
  select_branch issue_key [] w =
  let w' := set_terminal answers (log [Asked (create_question issue_key)] w) in
  if yes then create_new_branch issue_key w' else Some (None, w').
Proof.
  intros Ht. unfold select_branch. run_step. rewrite Ht.
  destruct yes; reflexivity.
Qed.

Lemma select_many_valid issue_key b1 b2 bs w idx answers :
  let branches := b1 :: b2 :: bs in
  terminal w = IntAnswer idx :: answers ->
  1 <= idx <= Z.of_nat (length branches) ->
  ∃ branch,
    branches !! Z.to_nat (idx - 1) = Some branch
    ∧ select_branch issue_key branches w =
      try_checkout branch
        (set_terminal answers (log (choice_events branches) w)).
Proof.
  intros branches Ht Hidx.
  destruct (lookup_lt_is_Some_2 branches (Z.to_nat (idx - 1))) as [branch Hb];
    [lia|].
  exists branch. split; [exact Hb|].
  unfold select_branch, branches in *. run_step. rewrite Ht.
  assert (((1 <=? idx) && (idx <=? Z.of_nat (length (b1 :: b2 :: bs))))%bool
          = true) as ->
    by (apply andb_true_iff; split; apply Z.leb_le; lia).
  rewrite Hb. unfold choice_events. f_equal. world_eq.
Qed.

Lemma select_many_invalid issue_key b1 b2 bs w idx answers :
  let branches := b1 :: b2 :: bs in
  terminal w = IntAnswer idx :: answers ->
  idx < 1 ∨ Z.of_nat (length branches) < idx ->
  select_branch issue_key branches w =
  Some (None,
        log [Printed "[bold red]无效的分支编号[/bold red]"]
            (set_terminal answers (log (choice_events branches) w))).
Proof.
  intros branches Ht Hidx. unfold select_branch, branches in *.
  run_step. rewrite Ht.
  assert (((1 <=? idx) && (idx <=? Z.of_nat (length (b1 :: b2 :: bs))))%bool
          = false) as ->.
  { apply andb_false_iff. destruct Hidx; [left | right]; apply Z.leb_gt; lia. }
  unfold choice_events. world_eq.
Qed.

Lemma create_new_branch_ok issue_key w ok1 ok2 ok3 rest :
  processes w = ok1 :: ok2 :: ok3 :: rest ->
  returncode ok1 = 0 -> returncode ok2 = 0 -> returncode ok3 = 0 ->
  ∃ events,
    create_new_branch issue_key w =
    Some (Some issue_key, log events (set_processes rest w))
    ∧ commands events = [["git"; "checkout"; base_branch]; ["git"; "pull"];
                         ["git"; "checkout"; "-b"; issue_key]].
Proof.
  intros Hp H1 H2 H3.
  apply Z.eqb_eq in H1. apply Z.eqb_eq in H2. apply Z.eqb_eq in H3.
  unfold create_new_branch, create_branch_for_issue, create_branch_commands.
  run_step. rewrite Hp. run_step. rewrite H1. run_step.
  rewrite H2. run_step. rewrite H3. run_step.
  eexists. split; [world_eq|]. reflexivity.
Qed.

(** C1. Branch resolution.  For every listing that [git branch -r]
    prints, every issue key and every optional parent key, the search step
    of [run] lists the branches once, and a second time with the parent key
    only when the first search found nothing and a parent is known; it
    never lists a third time.  What [select_branch] then does follows the
    decision of the specification: on [Checkout b] it offers to check out
    [b]; on [ChooseAmong cs] it asks for a number, checks out the branch at
    that position when the number is between 1 and the number of candidates,
    and otherwise reports an invalid number and leaves no branch selected;
    on [CreateNew base] nothing was found, [base] is the fixed base branch
    [release], and on confirmation the new branch named after the issue key
    is cut from it. *)
Theorem branch_resolution
    (issue_key : string) (parent_issue : option string) (temp_dir : string)
    (p : CompletedProcess) (procs : list CompletedProcess) (w : World) :
  let listing := Py.split_lines (Py.strip (stdout p)) in
  let n := searches listing issue_key parent_issue in
  returncode p = 0 ->
  processes w = replicate n p ++ procs ->
  ∃ found events,
    search_branches issue_key parent_issue temp_dir w
    = Some (found, log events (set_processes procs w))
    ∧ commands events = replicate n ["git"; "branch"; "-r"]
    ∧ (n ≤ 2)%nat
    ∧ match resolve listing issue_key parent_issue with
      | Checkout branch =>
          found = [branch]
          ∧ ∀ w1 yes answers,
              terminal w1 = Confirm yes :: answers ->
              let w2 := set_terminal answers
                          (log [Asked (checkout_question branch)] w1) in
              select_branch issue_key found w1 =
              if yes then try_checkout branch w2 else Some (None, w2)
      | ChooseAmong candidates =>
          found = candidates
          ∧ (2 ≤ length candidates)%nat
          ∧ ∀ w1 idx answers,
              terminal w1 = IntAnswer idx :: answers ->
              let w2 := set_terminal answers
                          (log (choice_events candidates) w1) in
              (1 <= idx <= Z.of_nat (length candidates) ->
               ∃ branch,
                 candidates !! Z.to_nat (idx - 1) = Some branch
                 ∧ select_branch issue_key found w1 = try_checkout branch w2)
              ∧ (idx < 1 ∨ Z.of_nat (length candidates) < idx ->
                 select_branch issue_key found w1 =
                 Some (None,
                       log [Printed "[bold red]无效的分支编号[/bold red]"] w2))
      | CreateNew base =>
          found = []
          ∧ base = "release"
          ∧ (∀ w1 yes answers,
               terminal w1 = Confirm yes :: answers ->
               let w2 := set_terminal answers
                           (log [Asked (create_question issue_key)] w1) in
               select_branch issue_key found w1 =
               if yes then create_new_branch issue_key w2 else Some (None, w2))
          ∧ ∀ w2 ok1 ok2 ok3 rest,
              processes w2 = ok1 :: ok2 :: ok3 :: rest ->
              returncode ok1 = 0 -> returncode ok2 = 0 -> returncode ok3 = 0 ->
              ∃ created,
                create_new_branch issue_key w2 =
                Some (Some issue_key, log created (set_processes rest w2))
                ∧ commands created =
                  [["git"; "checkout"; base]; ["git"; "pull"];
                   ["git"; "checkout"; "-b"; issue_key]]
      end.
Proof.
  intros listing n Hrc Hprocs.
  assert (Hdecide : ∀ found,
    match decide_found found with
    | Some (Checkout branch) =>
        found = [branch]
        ∧ ∀ w1 yes answers,
            terminal w1 = Confirm yes :: answers ->
            let w2 := set_terminal answers
                        (log [Asked (checkout_question branch)] w1) in
            select_branch issue_key found w1 =
            if yes then try_checkout branch w2 else Some (None, w2)
    | Some (ChooseAmong candidates) =>
        found = candidates
        ∧ (2 ≤ length candidates)%nat
        ∧ ∀ w1 idx answers,
            terminal w1 = IntAnswer idx :: answers ->
            let w2 := set_terminal answers
                        (log (choice_events candidates) w1) in
            (1 <= idx <= Z.of_nat (length candidates) ->
             ∃ branch,
               candidates !! Z.to_nat (idx - 1) = Some branch
               ∧ select_branch issue_key found w1 = try_checkout branch w2)
            ∧ (idx < 1 ∨ Z.of_nat (length candidates) < idx ->
               select_branch issue_key found w1 =
               Some (None,
                     log [Printed "[bold red]无效的分支编号[/bold red]"] w2))
    | Some (CreateNew _) => False
    | None => found = []
    end).
  { intros [|b1 [|b2 bs]]; cbn [decide_found].
    - reflexivity.
    - split; [reflexivity|]. intros. apply select_single. assumption.
    - split; [reflexivity|]. split; [cbn; lia|].
      intros w1 idx answers Ht. split; intros Hidx.
      + apply select_many_valid; assumption.
      + eapply select_many_invalid; eassumption. }
  assert (Hcreate :
    (∀ w1 yes answers,
       terminal w1 = Confirm yes :: answers ->
       let w2 := set_terminal answers
                   (log [Asked (create_question issue_key)] w1) in
       select_branch issue_key [] w1 =
       if yes then create_new_branch issue_key w2 else Some (None, w2))
    ∧ ∀ w2 ok1 ok2 ok3 rest,
        processes w2 = ok1 :: ok2 :: ok3 :: rest ->
        returncode ok1 = 0 -> returncode ok2 = 0 -> returncode ok3 = 0 ->
        ∃ created,
          create_new_branch issue_key w2 =
          Some (Some issue_key, log created (set_processes rest w2))
          ∧ commands created =
            [["git"; "checkout"; "release"]; ["git"; "pull"];
             ["git"; "checkout"; "-b"; issue_key]]).
  { split.
    - intros. apply select_none. assumption.
    - intros. eapply create_new_branch_ok; eassumption. }
  unfold resolve. subst n. unfold searches in *.
  destruct (matching_branches listing issue_key) as [|b bs] eqn:E1.
  - (* nothing under the primary key *)
    cbn [decide_found].
    destruct parent_issue as [parent_key|].
    + cbn [replicate app] in Hprocs.
      rewrite (search_primary_miss _ _ _ _ Hrc _ _ Hprocs E1).
      cbv zeta.
      match goal with
      | |- context [search_parent _ _ (log ?first ?w')] =>
          destruct (search_parent_ok temp_dir p Hrc parent_key procs
                      (log first w') eq_refl) as (events & Hsearch & Hcmd);
          exists (matching_branches listing parent_key), (first ++ events)
      end.
      split; [rewrite Hsearch; f_equal; f_equal; world_eq|].
      split; [rewrite commands_app, Hcmd; reflexivity|].
      split; [lia|].
      specialize (Hdecide (matching_branches listing parent_key)).
      destruct (decide_found (matching_branches listing parent_key))
        as [[branch|candidates|base]|]; try exact Hdecide; [contradiction|].
      rewrite Hdecide. split; [reflexivity|]. split; [reflexivity|].
      exact Hcreate.
    + cbn [replicate app] in Hprocs.
      rewrite (search_primary_miss _ _ _ _ Hrc _ _ Hprocs E1).
      exists []. eexists. split; [reflexivity|].
      split; [reflexivity|]. split; [lia|].
      split; [reflexivity|]. split; [reflexivity|]. exact Hcreate.
  - (* found under the primary key *)
    cbn [replicate app] in Hprocs |- *.
    rewrite (search_primary_hit _ parent_issue _ _ Hrc _ _ _ _ Hprocs E1).
    exists (b :: bs). eexists. split; [reflexivity|].
    split; [rewrite commands_app; unfold branch_lines;
            rewrite commands_printed; reflexivity|].
    split; [lia|].
    specialize (Hdecide (b :: bs)).
    destruct (decide_found (b :: bs)) as [[branch|candidates|base]|] eqn:E;
      try exact Hdecide; [contradiction | discriminate].
Qed.

(** ** A failing branch listing *)

Lemma search_parent_failed temp_dir parent_key failed rest w :
  processes w = failed :: rest -> returncode failed ≠ 0 ->
  search_parent temp_dir parent_key w =
  if markup_ok w ("[bold red]查找分支失败: " +:+ stderr failed +:+ "[/bold red]")
  then Some ([],
             log [Chdir temp_dir; Ran ["git"; "branch"; "-r"];
                  Printed ("[bold red]查找分支失败: " +:+ stderr failed +:+ "[/bold red]");
                  Printed ("[bold yellow]未找到与父问题 " +:+ parent_key +:+ " 相关的分支[/bold yellow]")]
                 (set_processes rest w))
  else None.
Proof.
  intros Hp Hrc. unfold search_parent.
  rewrite bind_run, (find_branch_failed _ _ _ _ _ Hp Hrc).
  destruct (markup_ok w _); [|reflexivity].
  run_step. world_eq.
Qed.

(** C10 on the code.  When [git branch -r] exits with a non-zero code,
    [find_branch_for_issue] hands the text of the error stream to the
    console inside its diagnostic.  When the console prints the
    diagnostic, the function returns the empty list, the value of a
    successful listing without a match, and the search step of [run] goes
    on as after a search without a match: with a parent key it searches
    again with that key (and finds nothing when that listing fails too and
    its diagnostic is printed), without one it ends with no branch; on no
    branch [select_branch] asks whether to create a new one.  When the
    console refuses the diagnostic, because the error text holds a closing
    tag such as [[/x]], the exception leaves [find_branch_for_issue] and
    the search step: no list is returned. *)
Theorem listing_failure_returns_or_raises
    (issue_key : string) (parent_issue : option string) (temp_dir : string)
    (failed : CompletedProcess) (procs : list CompletedProcess) (w : World) :
  returncode failed ≠ 0 ->
  processes w = failed :: procs ->
  let diagnostic := "[bold red]查找分支失败: " +:+ stderr failed +:+ "[/bold red]" in
  let w1 := log [Chdir temp_dir; Ran ["git"; "branch"; "-r"];
                 Printed diagnostic]
                (set_processes procs w) in
  let w2 := log [Printed ("[bold yellow]未找到与问题 " +:+ issue_key +:+ " 相关的分支[/bold yellow]")] w1 in
  find_branch_for_issue temp_dir issue_key w
  = (if markup_ok w diagnostic then Some ([], w1) else None)
  ∧ search_branches issue_key parent_issue temp_dir w
    = (if markup_ok w diagnostic then
         match parent_issue with
         | Some parent_key => search_parent temp_dir parent_key w2
         | None => Some ([], w2)
         end
       else None)
  ∧ (markup_ok w diagnostic = true ->
     ∀ ok w',
       returncode ok = 0 ->
       matching_branches (Py.split_lines (Py.strip (stdout ok))) issue_key = [] ->
       processes w' = ok :: procs ->
       fst <$> find_branch_for_issue temp_dir issue_key w'
       = fst <$> find_branch_for_issue temp_dir issue_key w)
  ∧ (∀ parent_key failed' rest,
       procs = failed' :: rest -> returncode failed' ≠ 0 ->
       search_parent temp_dir parent_key w2
       = if markup_ok w ("[bold red]查找分支失败: " +:+ stderr failed' +:+ "[/bold red]")
         then Some ([],
                    log [Chdir temp_dir; Ran ["git"; "branch"; "-r"];
                         Printed ("[bold red]查找分支失败: " +:+ stderr failed' +:+ "[/bold red]");
                         Printed ("[bold yellow]未找到与父问题 " +:+ parent_key +:+ " 相关的分支[/bold yellow]")]
                        (set_processes rest w2))
         else None)
  ∧ ∀ w3 yes answers,
      terminal w3 = Confirm yes :: answers ->
      let w4 := set_terminal answers
                  (log [Asked (create_question issue_key)] w3) in
      select_branch issue_key [] w3 =
      if yes then create_new_branch issue_key w4 else Some (None, w4).
Proof.
  intros Hrc Hp diagnostic w1 w2.
  pose proof (find_branch_failed temp_dir issue_key _ _ _ Hp Hrc) as Hfind.
  fold diagnostic in Hfind. fold w1 in Hfind.
  split; [exact Hfind|].
  split.
  { unfold search_branches. rewrite bind_run, Hfind.
    destruct (markup_ok w diagnostic); [|reflexivity].
    rewrite bind_run. unfold console_print, emit at 1.
    destruct parent_issue; reflexivity. }
  split.
  { intros Hok ok w' Hzero Hnone Hp'.
    rewrite (find_branch_ok _ _ _ _ _ Hp' Hzero), Hnone, Hfind, Hok.
    reflexivity. }
  split.
  { intros parent_key failed' rest -> Hrc'.
    apply (search_parent_failed temp_dir parent_key failed' rest w2);
      [reflexivity | exact Hrc']. }
  intros w3 yes answers Ht. apply select_none. exact Ht.
Qed.

(** ** The feedback loop *)

Lemma histories_app a b : histories (a ++ b) = histories a ++ histories b.
Proof.
  induction a as [|e a IH]; [reflexivity|].
  destruct e; cbn; rewrite IH; reflexivity.
Qed.

Lemma turns_app a b : turns (a ++ b) = turns a ++ turns b.
Proof. induction a as [|x a IH]; [reflexivity|]. cbn. rewrite IH. reflexivity. Qed.

Lemma turns_length feedbacks : length (turns feedbacks) = (2 * length feedbacks)%nat.
Proof. induction feedbacks as [|x l IH]; [reflexivity|]. cbn. lia. Qed.

Section Loop.

Variables issue_key summary description status_name assignee parent_info : string.
Variable tasks_dir : string.

Let loop := feedback_loop issue_key summary description status_name
                          assignee parent_info.
Let doc_file_path := path_join tasks_dir (issue_key +:+ ".md").
Let round := round_events issue_key summary description status_name
                          assignee parent_info.

Lemma loop_reject rounds history w draft replies answer fb answers :
  backend w = draft :: replies ->
  terminal w = StrAnswer answer :: StrAnswer fb :: answers ->
  Py.lower answer ≠ "y" ->
  loop (S rounds) tasks_dir history w =
  loop rounds tasks_dir (history ++ [human_turn fb; assistant_turn])
       (log (round history draft ++ rejected_events)
            (set_backend replies (set_terminal answers w))).
Proof.
  intros Hb Ht Hno. unfold loop. cbn [feedback_loop].
  unfold generate_task_document. run_step. rewrite Hb. run_step.
  rewrite Ht. run_step.
  rewrite bool_decide_eq_false_2 by exact Hno.
  f_equal; unfold round; world_eq.
Qed.

Lemma loop_accept rounds history w draft replies answer answers :
  backend w = draft :: replies ->
  terminal w = StrAnswer answer :: answers ->
  Py.lower answer = "y" ->
  dir_ok (parent_dir doc_file_path) (dirs w) = true ->
  loop (S rounds) tasks_dir history w =
  Some ((doc_file_path, history),
        log (round history draft ++ accepted_events doc_file_path)
            (set_files (<[doc_file_path := draft]> (files w))
               (set_backend replies (set_terminal answers w)))).
Proof.
  intros Hb Ht Hyes Hdir. unfold loop. cbn [feedback_loop].
  unfold generate_task_document. run_step. rewrite Hb. run_step.
  rewrite Ht. run_step.
  rewrite bool_decide_eq_true_2 by exact Hyes.
  unfold write_text. run_step. fold doc_file_path. rewrite Hdir.
  run_step. unfold round. world_eq.
Qed.

Lemma loop_script rejections :
  ∀ rounds history w draft answer replies answers,
    Forall (λ r, Py.lower (verdict r) ≠ "y") rejections ->
    Py.lower answer = "y" ->
    backend w = map rejected_draft rejections ++ draft :: replies ->
    terminal w = rejection_answers rejections ++ StrAnswer answer :: answers ->
    dir_ok (parent_dir doc_file_path) (dirs w) = true ->
    (length rejections < rounds)%nat ->
    ∃ events,
      loop rounds tasks_dir history w =
      Some ((doc_file_path, history ++ turns (map feedback rejections)),
            log events
                (set_files (<[doc_file_path := draft]> (files w))
                   (set_backend replies (set_terminal answers w))))
      ∧ histories events = conversations history (map feedback rejections).
Proof.
  induction rejections as [|r rejections IH];
    intros rounds history w draft answer replies answers Hno Hyes Hb Ht Hdir Hlen.
  - destruct rounds as [|rounds]; [cbn in Hlen; lia|].
    cbn in Hb, Ht.
    rewrite (loop_accept _ _ _ _ _ _ _ Hb Ht Hyes Hdir).
    eexists. split; [cbn [map turns]; rewrite app_nil_r; reflexivity|].
    reflexivity.
  - destruct rounds as [|rounds]; [cbn in Hlen; lia|].
    inversion Hno as [|? ? Hr Hrest]; subst.
    cbn in Hb, Ht.
    rewrite (loop_reject _ _ _ _ _ _ _ _ Hb Ht Hr).
    match goal with
    | |- context [loop rounds tasks_dir ?h ?w'] =>
        destruct (IH rounds h w' draft answer replies answers Hrest Hyes)
          as (events & Hloop & Hhist);
          [reflexivity | reflexivity | exact Hdir | cbn in Hlen; lia |]
    end.
    exists ((round history (rejected_draft r) ++ rejected_events) ++ events).
    split.
    + rewrite Hloop. cbn [map turns]. rewrite <- app_assoc. cbn [app].
      f_equal. f_equal. unfold round; world_eq.
    + rewrite histories_app, Hhist. reflexivity.
Qed.

End Loop.

(** C2. For every run of the feedback loop of [run] in which the user
    rejects [rejections] drafts in turn and accepts the next one, the loop
    completes once enough rounds are allowed and the directory for the
    document exists; the conversation it ends with
    is the one it started with followed, for each rejected draft in order,
    by a human turn that carries the feedback and the fixed assistant
    acknowledgment, two entries per rejection; the conversations handed to
    the successive generator calls are the starting one and then, each
    time, the previous one with those two turns appended.  With no
    rejection the conversation is returned as it was and is the only one
    the generator sees. *)
Theorem feedback_appends_two_turns
    (issue_key summary description status_name assignee parent_info : string)
    (tasks_dir : string) (rejections : list Rejection) (rounds : nat)
    (history : list (string * string)) (w : World)
    (draft answer : string) (replies : list string) (answers : list Answer) :
  Forall (λ r, Py.lower (verdict r) ≠ "y") rejections ->
  Py.lower answer = "y" ->
  backend w = map rejected_draft rejections ++ draft :: replies ->
  terminal w = rejection_answers rejections ++ StrAnswer answer :: answers ->
  dir_ok (parent_dir (path_join tasks_dir (issue_key +:+ ".md"))) (dirs w) = true ->
  (length rejections < rounds)%nat ->
  ∃ events final w',
    feedback_loop issue_key summary description status_name assignee
                  parent_info rounds tasks_dir history w
    = Some ((path_join tasks_dir (issue_key +:+ ".md"), final), w')
    ∧ trace w' = trace w ++ events
    ∧ final = history ++ turns (map feedback rejections)
    ∧ length final = (length history + 2 * length rejections)%nat
    ∧ histories events = conversations history (map feedback rejections)
    ∧ (rejections = [] -> final = history ∧ histories events = [history])
    ∧ ∀ fb, human_turn fb = ("human", "我对生成的文档有以下修改建议：" +:+ fb)
            ∧ Py.contains fb (snd (human_turn fb)) = true
            ∧ fst assistant_turn = "assistant".
Proof.
  intros Hno Hyes Hb Ht Hdir Hlen.
  destruct (loop_script issue_key summary description status_name assignee
              parent_info tasks_dir rejections rounds history w draft answer
              replies answers Hno Hyes Hb Ht Hdir Hlen)
    as (events & Hloop & Hhist).
  exists events, (history ++ turns (map feedback rejections)).
  eexists. split; [exact Hloop|].
  split; [reflexivity|]. split; [reflexivity|].
  split; [rewrite length_app, turns_length, length_map; reflexivity|].
  split; [exact Hhist|].
  split.
  - intros ->. cbn [map turns conversations] in *.
    rewrite app_nil_r. split; [reflexivity | exact Hhist].
  - intros fb. split; [reflexivity|]. split; [|reflexivity].
    unfold human_turn. cbn [snd].
    replace fb with (fb +:+ "") at 2
      by (clear; induction fb as [|c s IH]; [reflexivity|];
          rewrite app_String, IH; reflexivity).
    apply contains_app.
Qed.

(** ** Publishing *)

(** After a yes, the publish step is the body of its [try] followed by
    its [except] clause. *)
Lemma publish_confirmed
    issue_key temp_dir doc_file_path branch_used answers w :
  terminal w = Confirm true :: answers ->
  publish issue_key temp_dir doc_file_path branch_used w
  = (r ← publish_commands issue_key temp_dir doc_file_path branch_used;
     publish_outcome r)
      (set_terminal answers (log [Asked "是否提交并推送文档到远程仓库？"] w)).
Proof.
  intros Ht. unfold publish. run_step. rewrite Ht. reflexivity.
Qed.

(** The body of the [try] when the commit fails: the error of the commit
    is what the [except] clause receives, and the push is not started. *)
Lemma publish_commands_failed_commit
    issue_key temp_dir doc_file_path branch_used rel added failed procs w :
  relative_to doc_file_path temp_dir = Some rel ->
  processes w = added :: failed :: procs ->
  returncode added = 0 ->
  returncode failed ≠ 0 ->
  publish_commands issue_key temp_dir doc_file_path branch_used w
  = Some (inr {| e_returncode := returncode failed; e_stderr := stderr failed |},
          log [Chdir temp_dir; Ran ["git"; "add"; rel];
               Ran ["git"; "commit"; "-m"; commit_message issue_key]]
              (set_processes procs w)).
Proof.
  intros Hrel Hp Hadd Hfail.
  apply Z.eqb_eq in Hadd. apply Z.eqb_neq in Hfail.
  unfold publish_commands. run_step. rewrite Hrel. run_step.
  rewrite Hp. run_step. rewrite Hadd. run_step. rewrite Hfail. run_step.
  world_eq.
Qed.

(** C4 on the code.  In the publish step, whenever staging succeeds and
    the commit exits with a non-zero code, the body of the [try] has
    started exactly [git add] and [git commit]: no push and no undoing
    command is started, the outcome scripted for a later subprocess is
    still unused and the files written before stay as they are.  The
    [except] clause then hands the text that the commit wrote to its error
    stream to the console, inside the diagnostic.  When the console prints
    the diagnostic, the step completes with it as its last event; when the
    console refuses it, because the error text holds a closing tag such as
    [[/x]], the exception leaves the publish step and the text is not
    shown. *)
Theorem publish_stops_at_failed_commit
    (issue_key temp_dir doc_file_path branch_used rel : string)
    (added failed : CompletedProcess) (procs : list CompletedProcess)
    (answers : list Answer) (w : World) :
  terminal w = Confirm true :: answers ->
  relative_to doc_file_path temp_dir = Some rel ->
  processes w = added :: failed :: procs ->
  returncode added = 0 ->
  returncode failed ≠ 0 ->
  let diagnostic := "[bold red]提交或推送失败: " +:+ stderr failed +:+ "[/bold red]" in
  let started :=
    [Asked "是否提交并推送文档到远程仓库？"; Chdir temp_dir;
     Ran ["git"; "add"; rel];
     Ran ["git"; "commit"; "-m"; commit_message issue_key]] in
  let w1 := log started (set_processes procs (set_terminal answers w)) in
  publish_commands issue_key temp_dir doc_file_path branch_used
    (set_terminal answers (log [Asked "是否提交并推送文档到远程仓库？"] w))
  = Some (inr {| e_returncode := returncode failed; e_stderr := stderr failed |},
          w1)
  ∧ commands started = [["git"; "add"; rel];
                        ["git"; "commit"; "-m"; commit_message issue_key]]
  ∧ Forall (λ argv, argv !! 1%nat ≠ Some "push") (commands started)
  ∧ processes w1 = procs
  ∧ files w1 = files w
  ∧ dirs w1 = dirs w
  ∧ publish issue_key temp_dir doc_file_path branch_used w
    = (if markup_ok w diagnostic
       then Some (tt, log [Printed diagnostic] w1)
       else None).
Proof.
  intros Ht Hrel Hp Hadd Hfail diagnostic started w1.
  assert (Hbody :
    publish_commands issue_key temp_dir doc_file_path branch_used
      (set_terminal answers (log [Asked "是否提交并推送文档到远程仓库？"] w))
    = Some (inr {| e_returncode := returncode failed;
                   e_stderr := stderr failed |}, w1)).
  { rewrite (publish_commands_failed_commit
               issue_key temp_dir doc_file_path branch_used rel added failed
               procs
               (set_terminal answers
                  (log [Asked "是否提交并推送文档到远程仓库？"] w))
               Hrel Hp Hadd Hfail).
    subst w1 started. f_equal. f_equal. world_eq. }
  split; [exact Hbody|].
  split; [reflexivity|].
  split; [repeat constructor; discriminate|].
  split; [reflexivity|]. split; [reflexivity|]. split; [reflexivity|].
  rewrite (publish_confirmed _ _ _ _ _ _ Ht), bind_run, Hbody.
  unfold publish_outcome, console_print_markup. cbn [e_stderr].
  change (markup_ok w1) with (markup_ok w). fold diagnostic.
  destruct (markup_ok w diagnostic); [|reflexivity].
  reflexivity.
Qed.

(** The body of the [try] gets to the commit whenever staging succeeds,
    and the commit carries the message built from the issue key, whatever
    the commit and the push then do. *)
Lemma publish_commands_commit
    issue_key temp_dir doc_file_path branch_used rel
    added committed pushed procs w :
  relative_to doc_file_path temp_dir = Some rel ->
  processes w = added :: committed :: pushed :: procs ->
  returncode added = 0 ->
  ∃ events outcome,
    publish_commands issue_key temp_dir doc_file_path branch_used w
    = Some (outcome, log events (set_processes
                                   (if (returncode committed =? 0) then procs
                                    else pushed :: procs) w))
    ∧ commands events !! 1%nat
      = Some ["git"; "commit"; "-m"; commit_message issue_key]
    ∧ (∀ more, commands more = [] ->
               commands (events ++ more) !! 1%nat
               = Some ["git"; "commit"; "-m"; commit_message issue_key]).
Proof.
  intros Hrel Hp Hadd. apply Z.eqb_eq in Hadd.
  unfold publish_commands. run_step. rewrite Hrel. run_step.
  rewrite Hp. run_step. rewrite Hadd. run_step.
  destruct (returncode committed =? 0) eqn:Hc; run_step.
  - destruct (returncode pushed =? 0) eqn:Hpush; run_step;
      eexists; eexists; (split; [f_equal; f_equal; world_eq|]);
      (split; [reflexivity|]);
      intros more Hmore; rewrite commands_app, Hmore; reflexivity.
  - eexists; eexists; (split; [f_equal; f_equal; world_eq|]);
      (split; [reflexivity|]);
      intros more Hmore; rewrite commands_app, Hmore; reflexivity.
Qed.

(** The [except] clause starts no command: when it completes, it has
    printed at most one text. *)
Lemma publish_outcome_quiet outcome w w' :
  publish_outcome outcome w = Some (tt, w') ->
  ∃ more, w' = log more w ∧ commands more = [].
Proof.
  unfold publish_outcome, console_print_markup.
  destruct outcome as [[]|e].
  - intros H. injection H as <-. exists []. split; [|reflexivity].
    unfold log. rewrite app_nil_r. destruct w; reflexivity.
  - destruct (markup_ok w _); [|discriminate].
    intros H. injection H as <-. eexists. split; reflexivity.
Qed.

(** ** Section parsing *)

Lemma scan_lines_plain lines :
  ∀ current_section current_content sections,
    Forall (λ line, heading_line line = false) lines ->
    scan_lines lines current_section current_content sections =
    close_section current_section (current_content ++ lines) sections.
Proof.
  induction lines as [|line lines IH];
    intros current_section current_content sections Hplain.
  - rewrite app_nil_r. reflexivity.
  - inversion Hplain as [|? ? Hline Hrest]; subst.
    unfold heading_line in Hline. apply orb_false_iff in Hline as [H1 H2].
    cbn [scan_lines]. rewrite H1, H2, IH by exact Hrest.
    rewrite <- app_assoc. reflexivity.
Qed.

Lemma extract_sections_nonempty markdown_content :
  extract_sections markdown_content ≠ [].
Proof.
  unfold extract_sections.
  destruct (scan_lines _ _ _ _); discriminate.
Qed.

(** C3, as the code has it.  For the text [# Title], [## A], [foo],
    [## B], [bar] (each line ended by a line feed) the parser produces
    three sections: [Title] with empty content, closed by the next heading;
    [A] with content [foo]; [B] with content [bar] and a line feed.  The
    title of the document is the title of the first section, here [Title],
    and so it is for every text. *)
Theorem sections_of_example (issue_key summary : string) :
  let document := make_document issue_key summary example_markdown in
  doc_sections document =
    [{| sec_title := "Title"; sec_content := "" |};
     {| sec_title := "A"; sec_content := "foo" |};
     {| sec_title := "B"; sec_content := "bar" +:+ nl |}]
  ∧ doc_title document = "Title"
  ∧ doc_content document = example_markdown
  ∧ ∀ markdown_content,
      ∃ first rest,
        doc_sections (make_document issue_key summary markdown_content)
        = first :: rest
        ∧ doc_title (make_document issue_key summary markdown_content)
          = sec_title first.
Proof.
  cbv zeta. split; [reflexivity|]. split; [reflexivity|].
  split; [reflexivity|].
  intros markdown_content. unfold make_document. cbn [doc_sections doc_title].
  pose proof (extract_sections_nonempty markdown_content) as Hne.
  destruct (extract_sections markdown_content) as [|first rest];
    [contradiction|].
  exists first, rest. split; reflexivity.
Qed.

(** C3 as stated fails: the parser does not produce the two sections [A]
    with content [foo] and a line feed, and [B] with content [bar] and a
    line feed. *)
Lemma sections_of_example_not_two :
  doc_sections (make_document "DTS-6038" "summary" example_markdown) ≠
    [{| sec_title := "A"; sec_content := "foo" +:+ nl |};
     {| sec_title := "B"; sec_content := "bar" +:+ nl |}].
Proof. discriminate. Qed.

(** C7, as the code has it.  For every text none of whose lines starts
    with [# ] or [## ], the document consists of exactly one section,
    titled [任务详情], whose content is the whole text. *)
Theorem no_heading_one_section (issue_key summary markdown_content : string) :
  Forall (λ line, heading_line line = false) (Py.split_lines markdown_content) ->
  doc_sections (make_document issue_key summary markdown_content) =
    [{| sec_title := "任务详情"; sec_content := markdown_content |}]
  ∧ doc_title (make_document issue_key summary markdown_content) = "任务详情"
  ∧ doc_content (make_document issue_key summary markdown_content)
    = markdown_content.
Proof.
  intros Hplain.
  assert (Hsections : extract_sections markdown_content =
            [{| sec_title := "任务详情"; sec_content := markdown_content |}]).
  { unfold extract_sections. rewrite scan_lines_plain by exact Hplain.
    reflexivity. }
  unfold make_document. cbn [doc_sections doc_title doc_content].
  rewrite Hsections. repeat split.
Qed.

Lemma no_heading_one_section_witness :
  doc_sections (make_document "DTS-6038" "summary" "plain text") =
    [{| sec_title := "任务详情"; sec_content := "plain text" |}].
Proof.
  apply (no_heading_one_section "DTS-6038" "summary" "plain text").
  repeat constructor.
Defined.

(** C7 as stated fails: on a text without headings the title of the one
    section is not [Task Details]. *)
Lemma no_heading_not_task_details :
  Forall (λ line, heading_line line = false) (Py.split_lines "plain text")
  ∧ doc_sections (make_document "DTS-6038" "summary" "plain text") ≠
      [{| sec_title := "Task Details"; sec_content := "plain text" |}].
Proof. split; [repeat constructor | discriminate]. Qed.

(** ** The commit message *)

(** C8, as the code has it.  For every issue key, whenever the publish
    step gets past staging, the commit it starts carries the message
    [docs: 添加{issue_key}任务文档]: the body of the [try] completes with that
    commit as its second command whatever the commit and the push do, the
    [except] clause is all that follows it, and every publish step that
    completes shows that commit in its trace. *)
Theorem commit_message_template
    (issue_key temp_dir doc_file_path branch_used rel : string)
    (added committed pushed : CompletedProcess) (procs : list CompletedProcess)
    (answers : list Answer) (w : World) :
  terminal w = Confirm true :: answers ->
  relative_to doc_file_path temp_dir = Some rel ->
  processes w = added :: committed :: pushed :: procs ->
  returncode added = 0 ->
  ∃ events outcome w1,
    publish_commands issue_key temp_dir doc_file_path branch_used
      (set_terminal answers (log [Asked "是否提交并推送文档到远程仓库？"] w))
    = Some (outcome, w1)
    ∧ trace w1 = trace w ++ events
    ∧ commands events !! 1%nat
      = Some ["git"; "commit"; "-m"; "docs: 添加" +:+ issue_key +:+ "任务文档"]
    ∧ publish issue_key temp_dir doc_file_path branch_used w
      = publish_outcome outcome w1
    ∧ ∀ w',
        publish issue_key temp_dir doc_file_path branch_used w = Some (tt, w') ->
        ∃ events',
          trace w' = trace w ++ events'
          ∧ commands events' !! 1%nat
            = Some ["git"; "commit"; "-m"; "docs: 添加" +:+ issue_key +:+ "任务文档"].
Proof.
  intros Ht Hrel Hp Hadd.
  destruct (publish_commands_commit
              issue_key temp_dir doc_file_path branch_used rel
              added committed pushed procs
              (set_terminal answers
                 (log [Asked "是否提交并推送文档到远程仓库？"] w))
              Hrel Hp Hadd)
    as (events & outcome & Hbody & Hcmd & Hmore).
  assert (Hpublish :
    publish issue_key temp_dir doc_file_path branch_used w
    = publish_outcome outcome
        (log events
             (set_processes (if returncode committed =? 0 then procs
                             else pushed :: procs)
                (set_terminal answers
                   (log [Asked "是否提交并推送文档到远程仓库？"] w))))).
  { rewrite (publish_confirmed _ _ _ _ _ _ Ht), bind_run, Hbody.
    reflexivity. }
  exists (Asked "是否提交并推送文档到远程仓库？" :: events), outcome.
  eexists. split; [exact Hbody|].
  split; [cbn [trace log set_processes set_terminal];
          rewrite <- app_assoc; reflexivity|].
  split; [exact Hcmd|].
  split; [exact Hpublish|].
  intros w' Hdone. rewrite Hpublish in Hdone.
  apply publish_outcome_quiet in Hdone as (more & -> & Hquiet).
  exists (Asked "是否提交并推送文档到远程仓库？" :: events ++ more).
  split; [cbn [trace log set_processes set_terminal];
          rewrite <- !app_assoc; reflexivity|].
  apply (Hmore more Hquiet).
Qed.

Lemma commit_message_template_witness :
  ∃ events w',
    publish "DTS-6038" sample_clone "/tmp/auto-md-1/docs/.tasks/DTS-6038.md"
            "DTS-6038"
            (scripted [Confirm true]
                      [exited 0 "" ""; exited 0 "" ""; exited 0 "" ""] [])
    = Some (tt, w')
    ∧ trace w' = [] ++ events
    ∧ commands events !! 1%nat
      = Some ["git"; "commit"; "-m"; "docs: 添加" +:+ "DTS-6038" +:+ "任务文档"].
Proof.
  destruct (commit_message_template
              "DTS-6038" sample_clone "/tmp/auto-md-1/docs/.tasks/DTS-6038.md"
              "DTS-6038" "docs/.tasks/DTS-6038.md"
              (exited 0 "" "") (exited 0 "" "") (exited 0 "" "") [] []
              (scripted [Confirm true]
                        [exited 0 "" ""; exited 0 "" ""; exited 0 "" ""] [])
              eq_refl eq_refl eq_refl eq_refl)
    as (_ & _ & _ & _ & _ & _ & _ & Hdone).
  destruct (Hdone _ eq_refl) as (events & Htrace & Hcmd).
  exists events. eexists. split; [reflexivity|].
  split; [exact Htrace | exact Hcmd].
Defined.

(** C8 as stated fails: for the key [DTS-6038] the commit that the publish
    step starts does not carry the message
    [docs: add DTS-6038 task document]. *)
Lemma commit_message_not_english :
  ∃ w',
    publish "DTS-6038" sample_clone "/tmp/auto-md-1/docs/.tasks/DTS-6038.md"
            "DTS-6038"
            (scripted [Confirm true]
                      [exited 0 "" ""; exited 0 "" ""; exited 0 "" ""] [])
    = Some (tt, w')
    ∧ commands (trace w') =
        [["git"; "add"; "docs/.tasks/DTS-6038.md"];
         ["git"; "commit"; "-m"; "docs: 添加DTS-6038任务文档"];
         ["git"; "push"; "-u"; "origin"; "DTS-6038"]]
    ∧ commands (trace w') !! 1%nat
      ≠ Some ["git"; "commit"; "-m"; "docs: add DTS-6038 task document"].
Proof.
  eexists. split; [reflexivity|]. split; [reflexivity | discriminate].
Qed.

(** ** Persisting the document *)

Lemma contains_slash_app a b :
  Py.contains "/" (a +:+ b) = (Py.contains "/" a || Py.contains "/" b)%bool.
Proof.
  induction a as [|c a IH].
  - rewrite app_empty_l. destruct b; reflexivity.
  - rewrite app_String. cbn [Py.contains Py.startswith].
    destruct (ascii_dec "/" c); [reflexivity|]. cbn [orb]. exact IH.
Qed.

Lemma parent_dir_join d name :
  Py.contains "/" name = false -> parent_dir (d +:+ "/" +:+ name) = d.
Proof.
  intros Hname. induction d as [|c d IH].
  - rewrite app_empty_l. change ("/" +:+ name) with (String "/" name).
    cbn [parent_dir]. rewrite Hname. reflexivity.
  - rewrite app_String. cbn [parent_dir].
    rewrite (contains_app d "/" name), IH. reflexivity.
Qed.

Lemma path_join_plain d name :
  Py.contains "/" name = false -> path_join d name = d +:+ "/" +:+ name.
Proof.
  intros Hname. unfold path_join.
  destruct name as [|c name]; [reflexivity|].
  cbn [Py.contains] in Hname. apply orb_false_iff in Hname as [-> _].
  reflexivity.
Qed.

Lemma write_text_run path content w :
  dir_ok (parent_dir path) (dirs w) = true ->
  write_text path content w =
  Some (tt, log [Wrote path] (set_files (<[path := content]> (files w)) w)).
Proof.
  intros Hdir. unfold write_text. rewrite Hdir. run_step. world_eq.
Qed.

Lemma write_text_inv path content w u w' :
  write_text path content w = Some (u, w') ->
  w' = log [Wrote path] (set_files (<[path := content]> (files w)) w).
Proof.
  unfold write_text. destruct (dir_ok (parent_dir path) (dirs w));
    [|discriminate].
  run_step. intros H. injection H as _ <-. world_eq.
Qed.

(** C9. Writing the accepted text and reading the file back gives the
    text unchanged.  Whenever [save_markdown_to_file] completes, it returns
    the path [docs/.tasks/{issue_key}.md], the file at that path holds the
    content it was given, and every other file is as before; it completes
    for every issue key without a path separator.  In [run], once the user
    accepts a draft and the directory for the document exists, the file at
    [{tasks_dir}/{issue_key}.md] holds the reply of the backend as it
    came. *)
Theorem persist_then_read_back
    (issue_key summary description status_name assignee parent_info : string)
    (tasks_dir markdown_content : string) (w : World) :
  (∀ path w',
     save_markdown_to_file issue_key markdown_content w = Some (path, w') ->
     path = path_join "docs/.tasks" (issue_key +:+ ".md")
     ∧ read_text path w' = Some markdown_content
     ∧ ∀ other, other ≠ path -> read_text other w' = read_text other w)
  ∧ (Py.contains "/" issue_key = false ->
     ∃ w', save_markdown_to_file issue_key markdown_content w
           = Some (path_join "docs/.tasks" (issue_key +:+ ".md"), w'))
  ∧ ∀ rejections rounds history answer replies answers,
      Forall (λ r, Py.lower (verdict r) ≠ "y") rejections ->
      Py.lower answer = "y" ->
      backend w = map rejected_draft rejections ++ markdown_content :: replies ->
      terminal w = rejection_answers rejections ++ StrAnswer answer :: answers ->
      dir_ok (parent_dir (path_join tasks_dir (issue_key +:+ ".md"))) (dirs w)
      = true ->
      (length rejections < rounds)%nat ->
      ∃ final w',
        feedback_loop issue_key summary description status_name assignee
                      parent_info rounds tasks_dir history w
        = Some ((path_join tasks_dir (issue_key +:+ ".md"), final), w')
        ∧ read_text (path_join tasks_dir (issue_key +:+ ".md")) w'
          = Some markdown_content.
Proof.
  split; [|split].
  - intros path w' Hsave. unfold save_markdown_to_file in Hsave.
    rewrite bind_run in Hsave. unfold os_makedirs in Hsave.
    rewrite bind_run in Hsave.
    destruct (write_text _ _ _) as [[u w1]|] eqn:Hwrite; [|discriminate].
    apply write_text_inv in Hwrite. subst w1.
    injection Hsave as <- <-.
    split; [reflexivity|]. unfold read_text. cbn [files log set_files set_dirs].
    split; [apply lookup_insert_eq|].
    intros other Hother. apply lookup_insert_ne. congruence.
  - intros Hkey. unfold save_markdown_to_file.
    rewrite bind_run. unfold os_makedirs. rewrite bind_run.
    rewrite write_text_run; [eexists; reflexivity|].
    assert (Hname : Py.contains "/" (issue_key +:+ ".md") = false)
      by (rewrite contains_slash_app, Hkey; reflexivity).
    rewrite (path_join_plain _ _ Hname), (parent_dir_join _ _ Hname).
    unfold dir_ok. apply orb_true_iff. right.
    apply bool_decide_eq_true_2. cbn [dirs set_dirs list_to_set].
    set_solver.
  - intros rejections rounds history answer replies answers
           Hno Hyes Hb Ht Hdir Hlen.
    destruct (loop_script issue_key summary description status_name assignee
                parent_info tasks_dir rejections rounds history w
                markdown_content answer replies answers Hno Hyes Hb Ht Hdir Hlen)
      as (events & Hloop & _).
    eexists. eexists. split; [exact Hloop|].
    unfold read_text. cbn [files log set_files]. apply lookup_insert_eq.
Qed.

(** ** Initialization *)

Lemma all_in_dict keys members :
  all_in keys (JObj members) =
  Some (forallb (λ key, bool_decide (is_Some (members !! key))) keys).
Proof.
  induction keys as [|key keys IH]; [reflexivity|].
  cbn [all_in py_in forallb].
  destruct (bool_decide (is_Some (members !! key))); [exact IH | reflexivity].
Qed.

(** On a configuration whose [git] and [jira] entries are dicts,
    [is_initialized] is true exactly when the five keys are there; what
    they hold is not looked at. *)
Lemma is_initialized_keys_only config git_config jira_config :
  config !! "git" = Some (JObj git_config) ->
  config !! "jira" = Some (JObj jira_config) ->
  is_initialized (Some (JObj config)) =
  Some (forallb (λ key, bool_decide (is_Some (git_config !! key)))
                ["url"; "username"; "password"]
        && forallb (λ key, bool_decide (is_Some (jira_config !! key)))
                   ["username"; "password"]).
Proof.
  intros Hgit Hjira. unfold is_initialized, load_config, dict_get.
  rewrite Hgit, Hjira. cbn [mbind option_bind].
  rewrite !all_in_dict. reflexivity.
Qed.

(** C5 on the code: a configuration whose repository URL is present and
    empty counts as initialized. *)
Theorem is_initialized_accepts_empty_field :
  is_initialized (Some config_empty_url) = Some true.
Proof. vm_compute. reflexivity. Qed.

(** ** The theorems at work on sample runs *)

Lemma find_branch_case_insensitive_witness :
  matching_branches ["origin/DTS-1-fix"; "origin/main"; "origin/feature/dts-1"]
                    "dts-1"
  = ["origin/DTS-1-fix"; "origin/feature/dts-1"]
  ∧ ContainsUpToCase "dts-1" "origin/DTS-1-fix".
Proof.
  pose proof (find_branch_case_insensitive_in_order
                Py.lower Py.strip
                ["origin/DTS-1-fix"; "origin/main"; "origin/feature/dts-1"]
                "dts-1") as H.
  cbv zeta in H. destruct H as (_ & _ & Hclean & Hcase & Hsame).
  split.
  - rewrite Hsame, Hclean; [reflexivity | repeat constructor].
  - apply (Hcase (λ s _, eq_refl) eq_refl "origin/DTS-1-fix" eq_refl).
    reflexivity.
Defined.

Lemma branch_resolution_witness :
  ∃ events,
    search_branches "DTS-1" None sample_clone
                    (scripted [Confirm true] [two_branches] [])
    = Some (["origin/DTS-1-fix"],
            log events (set_processes [] (scripted [Confirm true] [two_branches] [])))
    ∧ commands events = [["git"; "branch"; "-r"]]
    ∧ resolve (Py.split_lines (Py.strip (stdout two_branches))) "DTS-1" None
      = Checkout "origin/DTS-1-fix".
Proof.
  destruct (branch_resolution "DTS-1" None sample_clone two_branches []
              (scripted [Confirm true] [two_branches] []) eq_refl eq_refl)
    as (found & events & Hsearch & Hcommands & _ & Hdecision).
  cbn in Hdecision. destruct Hdecision as [-> _].
  exists events. repeat split; assumption.
Defined.

Lemma feedback_appends_two_turns_witness :
  ∃ events final w',
    feedback_loop "DTS-1" "s" "d" "Open" "alice" "" 2 sample_tasks_dir []
      (scripted [StrAnswer "n"; StrAnswer "expand background"; StrAnswer "Y"]
                [] ["# D1"; "# D2"])
    = Some (("/tmp/auto-md-1/docs/.tasks/DTS-1.md", final), w')
    ∧ final = [human_turn "expand background"; assistant_turn]
    ∧ histories events = [[]; [human_turn "expand background"; assistant_turn]].
Proof.
  destruct (feedback_appends_two_turns
              "DTS-1" "s" "d" "Open" "alice" "" sample_tasks_dir
              one_rejection 2 []
              (scripted [StrAnswer "n"; StrAnswer "expand background"; StrAnswer "Y"]
                        [] ["# D1"; "# D2"])
              "# D2" "Y" [] [])
    as (events & final & w' & Hloop & _ & Hfinal & _ & Hhist & _);
    [repeat constructor; discriminate | reflexivity | reflexivity
    | reflexivity | reflexivity | cbn; lia |].
  exists events, final, w'. repeat split; assumption.
Defined.

Lemma publish_stops_at_failed_commit_witness :
  publish "DTS-1" sample_clone "/tmp/auto-md-1/docs/.tasks/DTS-1.md" "DTS-1"
          (scripted [Confirm true]
                    [exited 0 "" "";
                     exited 1 "" "pre-commit: rule [/docs] rejected the file";
                     exited 0 "" ""] [])
  = None.
Proof.
  destruct (publish_stops_at_failed_commit
              "DTS-1" sample_clone "/tmp/auto-md-1/docs/.tasks/DTS-1.md" "DTS-1"
              "docs/.tasks/DTS-1.md" (exited 0 "" "")
              (exited 1 "" "pre-commit: rule [/docs] rejected the file")
              [exited 0 "" ""] []
              (scripted [Confirm true]
                        [exited 0 "" "";
                         exited 1 "" "pre-commit: rule [/docs] rejected the file";
                         exited 0 "" ""] [])
              eq_refl eq_refl eq_refl eq_refl ltac:(discriminate))
    as (_ & _ & _ & _ & _ & _ & Hpublish).
  exact Hpublish.
Defined.

(** The same run with an error text that holds no tag: the diagnostic is
    the last thing printed. *)
Example failed_commit_reported :
  publish "DTS-1" sample_clone "/tmp/auto-md-1/docs/.tasks/DTS-1.md" "DTS-1"
          (scripted [Confirm true]
                    [exited 0 "" ""; exited 1 "" "nothing to commit";
                     exited 0 "" ""] [])
  = Some (tt,
          log [Asked "是否提交并推送文档到远程仓库？"; Chdir sample_clone;
               Ran ["git"; "add"; "docs/.tasks/DTS-1.md"];
               Ran ["git"; "commit"; "-m"; commit_message "DTS-1"];
               Printed ("[bold red]提交或推送失败: " +:+ "nothing to commit" +:+ "[/bold red]")]
              (scripted [] [exited 0 "" ""] [])).
Proof. reflexivity. Qed.

Lemma persist_then_read_back_witness :
  ∃ final w',
    feedback_loop "DTS-1" "s" "d" "Open" "alice" "" 1 sample_tasks_dir []
      (scripted [StrAnswer "y"] [] ["# D1"])
    = Some (("/tmp/auto-md-1/docs/.tasks/DTS-1.md", final), w')
    ∧ read_text "/tmp/auto-md-1/docs/.tasks/DTS-1.md" w' = Some "# D1".
Proof.
  destruct (persist_then_read_back
              "DTS-1" "s" "d" "Open" "alice" "" sample_tasks_dir
              "# D1" (scripted [StrAnswer "y"] [] ["# D1"]))
    as (_ & _ & Hloop).
  apply (Hloop [] 1%nat [] "y" [] []);
    [constructor | reflexivity | reflexivity | reflexivity | reflexivity
    | cbn; lia].
Defined.

Lemma listing_failure_returns_or_raises_witness :
  find_branch_for_issue sample_clone "DTS-1"
    (scripted [] [exited 128 "" "fatal: bad revision [/x]"] [])
  = None.
Proof.
  destruct (listing_failure_returns_or_raises
              "DTS-1" None sample_clone
              (exited 128 "" "fatal: bad revision [/x]") []
              (scripted [] [exited 128 "" "fatal: bad revision [/x]"] [])
              ltac:(discriminate) eq_refl)
    as (Hfind & _).
  exact Hfind.
Defined.

(** The same listing failing with an error text that holds no tag: the
    diagnostic is printed and no branch is returned. *)
Example listing_failure_reported :
  find_branch_for_issue sample_clone "DTS-1"
    (scripted [] [exited 128 "" "fatal: not a git repository"] [])
  = Some ([],
          log [Chdir sample_clone; Ran ["git"; "branch"; "-r"];
               Printed ("[bold red]查找分支失败: " +:+ "fatal: not a git repository" +:+ "[/bold red]")]
              (scripted [] [] [])).
Proof. reflexivity. Qed.

(** The sample console on the texts of the sample runs. *)
Example console_accepts_frame :
  sample_console "[bold red]查找分支失败: fatal: not a git repository[/bold red]"
  = true.
Proof. reflexivity. Qed.

Example console_refuses_stray_closing_tag :
  sample_console "[bold red]查找分支失败: fatal: bad revision [/x][/bold red]"
  = false.
Proof. reflexivity. Qed.

Example console_plain_brackets :
  sample_console "[bold]merge [1/2]: see [ notes ][/bold]" = true.
Proof. reflexivity. Qed.

(** * Properties of the rest of the code *)

(** ** Sections of a document *)

Lemma close_section_titles current_section current_content sections :
  Forall (λ s, sec_title s ≠ "") sections ->
  Forall (λ s, sec_title s ≠ "")
         (close_section current_section current_content sections).
Proof.
  intros Hs. unfold close_section.
  destruct current_section as [title|]; [|exact Hs].
  destruct title as [|c title]; [exact Hs|].
  cbn [Py.truthy]. apply Forall_app. split; [exact Hs|].
  repeat constructor. discriminate.
Qed.

Lemma scan_lines_titles lines :
  ∀ current_section current_content sections,
    Forall (λ s, sec_title s ≠ "") sections ->
    Forall (λ s, sec_title s ≠ "")
           (scan_lines lines current_section current_content sections).
Proof.
  induction lines as [|line lines IH];
    intros current_section current_content sections Hs; cbn [scan_lines].
  - apply close_section_titles, Hs.
  - destruct (Py.startswith "# " line);
      [apply IH, close_section_titles, Hs|].
    destruct (Py.startswith "## " line);
      [apply IH, close_section_titles, Hs | apply IH, Hs].
Qed.

(** Whatever text the backend returns, the document has at least one
    section, no section has an empty title, and neither has the
    document. *)
Theorem sections_have_titles (issue_key summary markdown_content : string) :
  let document := make_document issue_key summary markdown_content in
  doc_sections document ≠ []
  ∧ Forall (λ s, sec_title s ≠ "") (doc_sections document)
  ∧ doc_title document ≠ "".
Proof.
  cbv zeta.
  assert (Ht : Forall (λ s, sec_title s ≠ "")
                      (extract_sections markdown_content)).
  { unfold extract_sections.
    pose proof (scan_lines_titles (Py.split_lines markdown_content)
                  None [] [] (List.Forall_nil _)) as H.
    destruct (scan_lines _ _ _ _); [repeat constructor; discriminate | exact H]. }
  pose proof (extract_sections_nonempty markdown_content) as Hne.
  unfold make_document. cbn [doc_sections doc_title].
  split; [exact Hne|]. split; [exact Ht|].
  destruct (extract_sections markdown_content) as [|first rest];
    [contradiction|].
  inversion Ht; assumption.
Qed.

Lemma split_lines_cons s : ∃ h t, Py.split_lines s = h :: t.
Proof.
  destruct s as [|c s]; [eexists _, _; reflexivity|].
  cbn [Py.split_lines]. destruct (ascii_dec c Py.LF); [eexists _, _; reflexivity|].
  destruct (Py.split_lines s); eexists _, _; reflexivity.
Qed.

Lemma split_lines_app a b :
  Py.split_lines (a +:+ nl +:+ b) = Py.split_lines a ++ Py.split_lines b.
Proof.
  induction a as [|c a IH].
  - reflexivity.
  - rewrite app_String. cbn [Py.split_lines].
    destruct (ascii_dec c Py.LF); [rewrite IH; reflexivity|].
    rewrite IH. destruct (split_lines_cons a) as (h & t & ->). reflexivity.
Qed.

Lemma split_lines_prefix p r :
  Forall (λ c, c ≠ Py.LF) (list_ascii_of_string p) ->
  ∃ h t, Py.split_lines (p +:+ r) = h :: t ∧ Py.startswith p h = true.
Proof.
  induction p as [|c p IH]; intros Hp.
  - rewrite app_empty_l. destruct r as [|c r]; [eexists _, _; split; reflexivity|].
    cbn [Py.split_lines]. destruct (ascii_dec c Py.LF).
    + eexists _, _. split; reflexivity.
    + destruct (Py.split_lines r); eexists _, _; split; reflexivity.
  - cbn [list_ascii_of_string] in Hp. inversion Hp as [|? ? Hc Hrest]; subst.
    destruct (IH Hrest) as (h & t & Hsplit & Hh).
    rewrite app_String. cbn [Py.split_lines].
    destruct (ascii_dec c Py.LF); [contradiction|]. rewrite Hsplit.
    exists (String c h), t. split; [reflexivity|].
    cbn [Py.startswith]. destruct (ascii_dec c c); [exact Hh | congruence].
Qed.

Lemma scan_lines_preamble pre :
  ∀ current_content line rest,
    Forall (λ l, heading_line l = false) pre ->
    heading_line line = true ->
    scan_lines (pre ++ line :: rest) None current_content [] =
    scan_lines (line :: rest) None [] [].
Proof.
  induction pre as [|l pre IH]; intros current_content line rest Hpre Hline.
  - cbn [app scan_lines]. unfold heading_line in Hline.
    destruct (Py.startswith "# " line); [reflexivity|].
    cbn [orb] in Hline. rewrite Hline. reflexivity.
  - inversion Hpre as [|? ? Hl Hrest]; subst.
    unfold heading_line in Hl. apply orb_false_iff in Hl as [H1 H2].
    cbn [app scan_lines]. rewrite H1, H2. apply IH; assumption.
Qed.

(** Text in front of the first heading is in no section: when the text
    starts with lines that are no headings and goes on with a heading, the
    parser finds the sections it finds in the text from that heading on. *)
Theorem preamble_in_no_section (preamble text : string) :
  Forall (λ l, heading_line l = false) (Py.split_lines preamble) ->
  heading_line text = true ->
  scan_lines (Py.split_lines (preamble +:+ nl +:+ text)) None [] [] =
  scan_lines (Py.split_lines text) None [] [].
Proof.
  intros Hpre Htext. rewrite split_lines_app.
  assert (Hfirst : ∃ line rest, Py.split_lines text = line :: rest
                                ∧ heading_line line = true).
  { unfold heading_line in *. apply orb_true_iff in Htext as [H|H];
      apply startswith_inv in H as [r ->].
    - destruct (split_lines_prefix "# " r) as (h & t & -> & Hh);
        [repeat constructor; discriminate|].
      exists h, t. rewrite Hh. split; reflexivity.
    - destruct (split_lines_prefix "## " r) as (h & t & -> & Hh);
        [repeat constructor; discriminate|].
      exists h, t. rewrite Hh. split; [reflexivity | apply orb_true_r]. }
  destruct Hfirst as (line & rest & -> & Hline).
  apply scan_lines_preamble; assumption.
Qed.

(** ** Checking out and creating branches *)

Lemma contains_cons_false pat c s :
  Py.contains pat (String c s) = false ->
  Py.startswith pat (String c s) = false ∧ Py.contains pat s = false.
Proof. cbn [Py.contains]. intros H. apply orb_false_iff in H. exact H. Qed.

Lemma remove_all_absent pat s :
  Py.contains pat s = false -> Py.remove_all pat s = s.
Proof.
  unfold Py.remove_all. induction s as [|c s IH]; intros H; [reflexivity|].
  apply contains_cons_false in H as [Hhead Htail].
  cbn [Py.remove_from]. rewrite Hhead, IH by exact Htail. reflexivity.
Qed.

(** Checking out a remote branch [origin/NAME], where [NAME] holds no
    further [origin/]: one command is started, [git checkout -b NAME
    origin/NAME]; when it succeeds the branch in use is [NAME], the local
    branch just created; when it fails no branch is in use.  On failure
    the error text of the command goes to the console inside a
    diagnostic; the step completes when the console prints it, and does
    not complete when the console refuses it. *)
Theorem try_checkout_remote (name : string) (p : CompletedProcess)
    (rest : list CompletedProcess) (w : World) :
  Py.contains "origin/" name = false ->
  processes w = p :: rest ->
  let diagnostic := "[bold red]检出分支失败: " +:+ stderr p +:+ "[/bold red]" in
  ∃ events,
    try_checkout ("origin/" +:+ name) w
    = (if (returncode p =? 0) || markup_ok w diagnostic
       then Some (if returncode p =? 0 then Some name else None,
                  log events (set_processes rest w))
       else None)
    ∧ commands events = [["git"; "checkout"; "-b"; name; "origin/" +:+ name]].
Proof.
  intros Hname Hp diagnostic.
  assert (Hlocal : Py.remove_all "origin/" ("origin/" +:+ name) = name).
  { rewrite <- (remove_all_absent "origin/" name Hname) at 2. reflexivity. }
  unfold try_checkout, checkout_branch.
  change (Py.startswith "origin/" ("origin/" +:+ name)) with true.
  cbv iota. rewrite Hlocal. run_step. rewrite Hp. run_step.
  destruct (returncode p =? 0); run_step.
  - eexists; split; [f_equal; f_equal; world_eq | reflexivity].
  - fold diagnostic. destruct (markup_ok w diagnostic); run_step.
    + eexists; split; [f_equal; f_equal; world_eq | reflexivity].
    + exists [Ran ["git"; "checkout"; "-b"; name; "origin/" +:+ name]].
      split; reflexivity.
Qed.

(** [create_branch_for_issue] starts [git checkout BASE], [git pull] and
    [git checkout -b KEY] in this order and stops at the first that fails.
    When all three succeed it reports success, with the issue key itself
    as the name of the new branch.  Otherwise the error text of the
    failing command goes to the console inside a diagnostic: when the
    console prints it, the function reports failure without a name, and
    the outcomes scripted for the commands it did not start are left
    unused; when the console refuses it, the function does not return. *)
Theorem create_branch_stops_at_first_failure
    (issue_key base : string) (p1 p2 p3 : CompletedProcess)
    (rest : list CompletedProcess) (w : World) :
  processes w = p1 :: p2 :: p3 :: rest ->
  let started :=
    if returncode p1 =? 0 then if returncode p2 =? 0 then 3%nat else 2%nat
    else 1%nat in
  let all_ok := ((returncode p1 =? 0) && (returncode p2 =? 0)
                 && (returncode p3 =? 0))%bool in
  let last_started :=
    if returncode p1 =? 0 then if returncode p2 =? 0 then p3 else p2
    else p1 in
  let diagnostic := "[bold red]创建分支失败: " +:+ stderr last_started +:+ "[/bold red]" in
  ∃ events,
    create_branch_for_issue issue_key base w
    = (if all_ok || markup_ok w diagnostic
       then Some (if all_ok then (true, Some issue_key) else (false, None),
                  log events
                      (set_processes (drop started (p1 :: p2 :: p3 :: rest)) w))
       else None)
    ∧ commands events
      = take started [["git"; "checkout"; base]; ["git"; "pull"];
                      ["git"; "checkout"; "-b"; issue_key]].
Proof.
  intros Hp. cbv zeta.
  unfold create_branch_for_issue, create_branch_commands.
  run_step. rewrite Hp. run_step.
  destruct (returncode p1 =? 0); run_step;
    [destruct (returncode p2 =? 0); run_step;
     [destruct (returncode p3 =? 0); run_step|]|];
    try (destruct (markup_ok w _); run_step);
    lazymatch goal with
    | |- ∃ events, None = None ∧ commands events = ?started =>
        exists (map Ran started); split; reflexivity
    | |- _ => eexists; split; [f_equal; f_equal; world_eq | reflexivity]
    end.
Qed.

(** ** Publishing, in general *)

(** Whatever the user answers and however the commands end, a publish
    step that completes has started an initial part of [git add],
    [git commit], [git push -u origin BRANCH], in this order, and nothing
    else; it wrote no file, created no directory and did not call the
    backend. *)
Theorem publish_starts_a_prefix
    (issue_key temp_dir doc_file_path branch_used : string) (w w' : World) :
  publish issue_key temp_dir doc_file_path branch_used w = Some (tt, w') ->
  ∃ events,
    trace w' = trace w ++ events
    ∧ commands events `prefix_of`
        match relative_to doc_file_path temp_dir with
        | Some rel =>
            [["git"; "add"; rel];
             ["git"; "commit"; "-m"; commit_message issue_key];
             ["git"; "push"; "-u"; "origin"; branch_used]]
        | None => []
        end
    ∧ files w' = files w ∧ dirs w' = dirs w ∧ backend w' = backend w.
Proof.
  unfold publish, publish_commands, publish_outcome. run_step.
  destruct (terminal w) as [|[[|]| |] answers]; try discriminate.
  - destruct (relative_to doc_file_path temp_dir) as [rel|]; [|discriminate].
    run_step.
    destruct (processes w) as [|p1 procs]; [discriminate|]. run_step.
    destruct (returncode p1 =? 0); run_step.
    + destruct procs as [|p2 procs]; [discriminate|]. run_step.
      destruct (returncode p2 =? 0); run_step.
      * destruct procs as [|p3 procs]; [discriminate|]. run_step.
        destruct (returncode p3 =? 0); run_step;
          try (destruct (markup_ok w _); [|discriminate]);
          intros H; injection H as <-;
          (eexists; split; [world_eq|]);
          (split; [exists []; reflexivity | repeat split]).
      * destruct (markup_ok w _); [|discriminate].
        intros H; injection H as <-.
        eexists; split; [world_eq|].
        split; [eexists; reflexivity | repeat split].
    + destruct (markup_ok w _); [|discriminate].
      intros H; injection H as <-.
      eexists; split; [world_eq|].
      split; [eexists; reflexivity | repeat split].
  - run_step. intros H; injection H as <-.
    eexists; split; [world_eq|].
    split; [apply prefix_nil | repeat split].
Qed.

(** The publish step once staging and the commit have succeeded. *)
Lemma publish_after_commit
    issue_key temp_dir doc_file_path branch_used rel
    added committed pushed procs answers w :
  terminal w = Confirm true :: answers ->
  relative_to doc_file_path temp_dir = Some rel ->
  processes w = added :: committed :: pushed :: procs ->
  returncode added = 0 ->
  returncode committed = 0 ->
  let started :=
    [Asked "是否提交并推送文档到远程仓库？"; Chdir temp_dir;
     Ran ["git"; "add"; rel];
     Ran ["git"; "commit"; "-m"; commit_message issue_key];
     Ran ["git"; "push"; "-u"; "origin"; branch_used]] in
  let diagnostic := "[bold red]提交或推送失败: " +:+ stderr pushed +:+ "[/bold red]" in
  let w1 := set_processes procs (set_terminal answers w) in
  publish issue_key temp_dir doc_file_path branch_used w
  = (if returncode pushed =? 0
     then Some (tt,
                log (started ++
                     [Printed ("[bold green]文档已成功提交并推送到分支: " +:+ branch_used +:+ "[/bold green]")])
                    w1)
     else if markup_ok w diagnostic
          then Some (tt, log (started ++ [Printed diagnostic]) w1)
          else None).
Proof.
  intros Ht Hrel Hp Hadd Hcommit started diagnostic w1.
  apply Z.eqb_eq in Hadd. apply Z.eqb_eq in Hcommit.
  unfold publish, publish_commands, publish_outcome. run_step.
  rewrite Ht. run_step.
  rewrite Hrel. run_step. rewrite Hp. run_step. rewrite Hadd. run_step.
  rewrite Hcommit. run_step.
  destruct (returncode pushed =? 0); run_step; [subst started w1; world_eq|].
  fold diagnostic. destruct (markup_ok w diagnostic);
    [subst started w1; world_eq | reflexivity].
Qed.

(** When staging fails, neither the commit nor the push is started, and
    the text that [git add] wrote to its error stream goes to the console
    inside the diagnostic: the step completes with the diagnostic printed
    when the console prints it, and does not complete when the console
    refuses it. *)
Theorem publish_stops_at_failed_add
    (issue_key temp_dir doc_file_path branch_used rel : string)
    (failed : CompletedProcess) (procs : list CompletedProcess)
    (answers : list Answer) (w : World) :
  terminal w = Confirm true :: answers ->
  relative_to doc_file_path temp_dir = Some rel ->
  processes w = failed :: procs ->
  returncode failed ≠ 0 ->
  publish issue_key temp_dir doc_file_path branch_used w
  = (if markup_ok w ("[bold red]提交或推送失败: " +:+ stderr failed +:+ "[/bold red]")
     then Some (tt,
                log [Asked "是否提交并推送文档到远程仓库？"; Chdir temp_dir;
                     Ran ["git"; "add"; rel];
                     Printed ("[bold red]提交或推送失败: " +:+ stderr failed +:+ "[/bold red]")]
                    (set_processes procs (set_terminal answers w)))
     else None).
Proof.
  intros Ht Hrel Hp Hfail. apply Z.eqb_neq in Hfail.
  unfold publish, publish_commands, publish_outcome. run_step.
  rewrite Ht. run_step.
  rewrite Hrel. run_step. rewrite Hp. run_step. rewrite Hfail. run_step.
  destruct (markup_ok w _); [world_eq | reflexivity].
Qed.

(** When the three commands succeed, the push goes to [origin] under the
    name of the branch in use and sets it as upstream, and the success is
    reported.  When only the push fails, no command is started to undo the
    commit, and the error text of the push goes to the console inside the
    diagnostic: the step completes with the diagnostic printed when the
    console prints it, and does not complete when the console refuses
    it. *)
Theorem publish_pushes_branch_in_use
    (issue_key temp_dir doc_file_path branch_used rel : string)
    (added committed pushed : CompletedProcess)
    (procs : list CompletedProcess) (answers : list Answer) (w : World) :
  terminal w = Confirm true :: answers ->
  relative_to doc_file_path temp_dir = Some rel ->
  processes w = added :: committed :: pushed :: procs ->
  returncode added = 0 ->
  returncode committed = 0 ->
  let started :=
    [Asked "是否提交并推送文档到远程仓库？"; Chdir temp_dir;
     Ran ["git"; "add"; rel];
     Ran ["git"; "commit"; "-m"; commit_message issue_key];
     Ran ["git"; "push"; "-u"; "origin"; branch_used]] in
  let diagnostic := "[bold red]提交或推送失败: " +:+ stderr pushed +:+ "[/bold red]" in
  let w1 := set_processes procs (set_terminal answers w) in
  publish issue_key temp_dir doc_file_path branch_used w
  = (if returncode pushed =? 0
     then Some (tt,
                log (started ++
                     [Printed ("[bold green]文档已成功提交并推送到分支: " +:+ branch_used +:+ "[/bold green]")])
                    w1)
     else if markup_ok w diagnostic
          then Some (tt, log (started ++ [Printed diagnostic]) w1)
          else None).
Proof. apply publish_after_commit. Qed.

(** ** Paths *)

Lemma str_app_assoc a b c : (a +:+ b) +:+ c = a +:+ b +:+ c.
Proof.
  induction a as [|x a IH]; [reflexivity|].
  rewrite !app_String, IH. reflexivity.
Qed.

Lemma drop_app_length base rest :
  Py.drop (String.length base) (base +:+ rest) = rest.
Proof. induction base as [|c base IH]; [reflexivity | exact IH]. Qed.

Lemma relative_to_join base rest :
  relative_to (base +:+ "/" +:+ rest) base = Some rest.
Proof.
  unfold relative_to.
  rewrite <- (str_app_assoc base "/" rest), startswith_app.
  f_equal.
  replace (String.length base + 1)%nat with (String.length (base +:+ "/"))
    by (clear; induction base as [|c base IH]; [reflexivity|];
        rewrite app_String; cbn [String.length]; rewrite IH; reflexivity).
  apply drop_app_length.
Qed.

(** ** From the branch to the published document *)

Lemma loop_starts_no_command
    issue_key summary description status_name assignee parent_info tasks_dir
    rejections :
  ∀ rounds history w draft answer replies answers,
    Forall (λ r, Py.lower (verdict r) ≠ "y") rejections ->
    Py.lower answer = "y" ->
    backend w = map rejected_draft rejections ++ draft :: replies ->
    terminal w = rejection_answers rejections ++ StrAnswer answer :: answers ->
    dir_ok (parent_dir (path_join tasks_dir (issue_key +:+ ".md"))) (dirs w)
    = true ->
    (length rejections < rounds)%nat ->
    ∃ events,
      feedback_loop issue_key summary description status_name assignee
                    parent_info rounds tasks_dir history w =
      Some ((path_join tasks_dir (issue_key +:+ ".md"),
             history ++ turns (map feedback rejections)),
            log events
                (set_files (<[path_join tasks_dir (issue_key +:+ ".md") := draft]>
                              (files w))
                   (set_backend replies (set_terminal answers w))))
      ∧ commands events = [].
Proof.
  induction rejections as [|r rejections IH];
    intros rounds history w draft answer replies answers Hno Hyes Hb Ht Hdir Hlen.
  - destruct rounds as [|rounds]; [cbn in Hlen; lia|].
    cbn in Hb, Ht.
    rewrite (loop_accept _ _ _ _ _ _ _ _ _ _ _ _ _ _ Hb Ht Hyes Hdir).
    eexists. split; [cbn [map turns]; rewrite app_nil_r; reflexivity|].
    reflexivity.
  - destruct rounds as [|rounds]; [cbn in Hlen; lia|].
    inversion Hno as [|? ? Hr Hrest]; subst.
    cbn in Hb, Ht.
    rewrite (loop_reject _ _ _ _ _ _ _ _ _ _ _ _ _ _ _ Hb Ht Hr).
    match goal with
    | |- context [feedback_loop _ _ _ _ _ _ rounds tasks_dir ?h ?w'] =>
        destruct (IH rounds h w' draft answer replies answers Hrest Hyes)
          as (events & Hloop & Hcmd);
          [reflexivity | reflexivity | exact Hdir | cbn in Hlen; lia |]
    end.
    eexists. split.
    + rewrite Hloop. cbn [map turns]. rewrite <- app_assoc. cbn [app].
      f_equal. f_equal. unfold log at 1 2 3.
      cbn [terminal processes backend dirs files trace set_backend set_terminal
           set_files].
      rewrite <- app_assoc. reflexivity.
    + rewrite commands_app, Hcmd. reflexivity.
Qed.

Section Document.

Variables issue_key summary description status_name assignee parent_info : string.
Variable temp_dir : string.
Hypothesis plain_key : Py.contains "/" issue_key = false.

Let tasks_dir := temp_dir +:+ "/docs/.tasks".
Let doc_file_path := temp_dir +:+ "/docs/.tasks/" +:+ issue_key +:+ ".md".

Lemma plain_file_name : Py.contains "/" (issue_key +:+ ".md") = false.
Proof. rewrite contains_slash_app, plain_key. reflexivity. Qed.

Lemma tasks_dir_joined :
  path_join (path_join temp_dir "docs") ".tasks" = tasks_dir.
Proof.
  unfold path_join, tasks_dir. cbn [Py.startswith].
  destruct (ascii_dec "/" "d"); [discriminate|].
  destruct (ascii_dec "/" "."); [discriminate|].
  rewrite str_app_assoc. reflexivity.
Qed.

Lemma doc_file_path_joined :
  path_join tasks_dir (issue_key +:+ ".md") = doc_file_path.
Proof.
  rewrite (path_join_plain _ _ plain_file_name).
  unfold tasks_dir, doc_file_path. rewrite str_app_assoc. reflexivity.
Qed.

Lemma doc_file_path_relative :
  relative_to doc_file_path temp_dir
  = Some ("docs/.tasks/" +:+ issue_key +:+ ".md").
Proof. apply (relative_to_join temp_dir). Qed.

Lemma doc_file_path_parent : parent_dir doc_file_path = tasks_dir.
Proof.
  rewrite <- doc_file_path_joined, (path_join_plain _ _ plain_file_name).
  apply parent_dir_join, plain_file_name.
Qed.

(** Steps 5 to 7 on the fields as lines 212-216 left them. *)
Lemma document_steps_run
    (branch_used : string) (rejections : list Rejection) (rounds : nat)
    (draft answer : string) (replies : list string) (answers : list Answer)
    (added committed pushed : CompletedProcess)
    (procs : list CompletedProcess) (w : World) :
  Forall (λ r, Py.lower (verdict r) ≠ "y") rejections ->
  Py.lower answer = "y" ->
  backend w = map rejected_draft rejections ++ draft :: replies ->
  terminal w = rejection_answers rejections
               ++ StrAnswer answer :: Confirm true :: answers ->
  processes w = added :: committed :: pushed :: procs ->
  returncode added = 0 ->
  returncode committed = 0 ->
  (returncode pushed ≠ 0 ->
   markup_ok w ("[bold red]提交或推送失败: " +:+ stderr pushed +:+ "[/bold red]")
   = true) ->
  (length rejections < rounds)%nat ->
  ∃ events w',
    document_steps issue_key summary description status_name assignee
                   parent_info temp_dir rounds branch_used w
    = Some (turns (map feedback rejections), w')
    ∧ trace w' = trace w ++ events
    ∧ read_text doc_file_path w' = Some draft
    ∧ tasks_dir ∈ dirs w'
    ∧ commands events
      = [["git"; "add"; "docs/.tasks/" +:+ issue_key +:+ ".md"];
         ["git"; "commit"; "-m"; commit_message issue_key];
         ["git"; "push"; "-u"; "origin"; branch_used]]
    ∧ terminal w' = answers ∧ processes w' = procs ∧ backend w' = replies.
Proof.
  intros Hno Hyes Hb Ht Hp Hadd Hcommit Hmarkup Hlen.
  unfold document_steps. rewrite tasks_dir_joined.
  rewrite bind_run. unfold path_exists at 1. rewrite bind_run.
  set (w1 := if bool_decide (tasks_dir ∈ dirs w) then w
             else log [Printed "[bold green]已创建目录: docs/.tasks[/bold green]"]
                      (set_dirs (list_to_set [path_join temp_dir "docs"; tasks_dir]
                                 ∪ dirs w) w)).
  assert (Hprep :
    (if bool_decide (tasks_dir ∈ dirs w) then mret tt
     else _ ← os_makedirs [path_join temp_dir "docs"; tasks_dir];
          console_print "[bold green]已创建目录: docs/.tasks[/bold green]") w
    = Some (tt, w1)).
  { subst w1. destruct (bool_decide (tasks_dir ∈ dirs w)); reflexivity. }
  rewrite Hprep. clear Hprep.
  assert (Hdirs : tasks_dir ∈ dirs w1).
  { subst w1. destruct (bool_decide (tasks_dir ∈ dirs w)) eqn:E.
    - apply bool_decide_eq_true_1 in E. exact E.
    - cbn [dirs log set_dirs list_to_set]. set_solver. }
  assert (Hsame : backend w1 = backend w ∧ terminal w1 = terminal w
                  ∧ processes w1 = processes w ∧ files w1 = files w
                  ∧ markup_ok w1 = markup_ok w
                  ∧ ∃ pre, trace w1 = trace w ++ pre ∧ commands pre = []).
  { subst w1. destruct (bool_decide (tasks_dir ∈ dirs w)).
    - repeat split. exists []. rewrite app_nil_r. split; reflexivity.
    - repeat split. eexists. split; reflexivity. }
  destruct Hsame as (Hb1 & Ht1 & Hp1 & Hf1 & Hm1 & pre & Htr1 & Hpre).
  clearbody w1.
  rewrite bind_run. unfold console_print at 1, emit at 1.
  rewrite bind_run.
  match goal with
  | |- context [feedback_loop _ _ _ _ _ _ rounds tasks_dir [] ?w2] =>
      destruct (loop_starts_no_command
                  issue_key summary description status_name assignee
                  parent_info tasks_dir rejections rounds [] w2 draft answer
                  replies (Confirm true :: answers) Hno Hyes)
        as (loop_events & Hloop & Hquiet)
  end.
  { cbn [backend log]. rewrite Hb1. exact Hb. }
  { cbn [terminal log]. rewrite Ht1. exact Ht. }
  { cbn [dirs log]. rewrite doc_file_path_joined, doc_file_path_parent.
    unfold dir_ok. apply orb_true_iff. right.
    apply bool_decide_eq_true_2. exact Hdirs. }
  { exact Hlen. }
  rewrite Hloop. cbn [app]. rewrite doc_file_path_joined.
  rewrite bind_run.
  erewrite (publish_after_commit issue_key temp_dir doc_file_path
              branch_used _ added committed pushed procs answers);
    [| reflexivity | apply doc_file_path_relative
     | cbn [processes log set_files set_backend set_terminal];
       rewrite Hp1; exact Hp
     | exact Hadd | exact Hcommit].
  cbn [markup_ok log set_files set_backend set_terminal]. rewrite Hm1.
  destruct (returncode pushed =? 0) eqn:Hpush;
    [|apply Z.eqb_neq in Hpush; rewrite (Hmarkup Hpush)];
    (eexists; eexists; split; [reflexivity|]);
    (split; [cbn [trace log set_processes set_terminal set_files set_backend];
             rewrite Htr1, <- !app_assoc; reflexivity|]);
    (split; [unfold read_text;
             cbn [files log set_processes set_terminal set_files set_backend];
             apply lookup_insert_eq|]);
    (split; [exact Hdirs|]);
    (split; [rewrite !commands_app, Hpre, Hquiet; reflexivity|]);
    repeat split.
Qed.

(** Steps 5 to 7 of [run] for an issue key without a path separator and
    an issue whose summary, description, status name and assignee name are
    strings: whether or not the clone already holds [docs/.tasks], once
    the user has rejected some drafts, accepted the next and agreed to
    publish, [git add] and [git commit] succeed, and the push succeeds or
    the console prints its diagnostic, the steps complete; the accepted
    text is in [TEMP/docs/.tasks/KEY.md], the directory exists, the path
    staged is that file's path relative to the clone, and the three
    commands of the publish step are the only ones started. *)
Theorem document_written_then_staged
    (issue : json) (branch_used : string) (rejections : list Rejection)
    (rounds : nat) (draft answer : string) (replies : list string)
    (answers : list Answer) (added committed pushed : CompletedProcess)
    (procs : list CompletedProcess) (w : World) :
  issue_details issue
  = Some {| d_summary := JStr summary; d_description := JStr description;
            d_status_name := JStr status_name; d_assignee := JStr assignee |} ->
  Forall (λ r, Py.lower (verdict r) ≠ "y") rejections ->
  Py.lower answer = "y" ->
  backend w = map rejected_draft rejections ++ draft :: replies ->
  terminal w = rejection_answers rejections
               ++ StrAnswer answer :: Confirm true :: answers ->
  processes w = added :: committed :: pushed :: procs ->
  returncode added = 0 ->
  returncode committed = 0 ->
  (returncode pushed ≠ 0 ->
   markup_ok w ("[bold red]提交或推送失败: " +:+ stderr pushed +:+ "[/bold red]")
   = true) ->
  (length rejections < rounds)%nat ->
  ∃ events w',
    document_steps_of issue_key issue parent_info temp_dir rounds branch_used w
    = Some (turns (map feedback rejections), w')
    ∧ trace w' = trace w ++ events
    ∧ read_text doc_file_path w' = Some draft
    ∧ tasks_dir ∈ dirs w'
    ∧ commands events
      = [["git"; "add"; "docs/.tasks/" +:+ issue_key +:+ ".md"];
         ["git"; "commit"; "-m"; commit_message issue_key];
         ["git"; "push"; "-u"; "origin"; branch_used]]
    ∧ terminal w' = answers ∧ processes w' = procs ∧ backend w' = replies.
Proof.
  intros Hissue. unfold document_steps_of. rewrite Hissue.
  cbn [field_text d_summary d_description d_status_name d_assignee].
  apply document_steps_run.
Qed.

End Document.

(** ** A run without a branch *)

Lemma search_branches_found
    (issue_key : string) (parent_issue : option string) (temp_dir : string)
    (p : CompletedProcess) (procs : list CompletedProcess) (w : World) :
  let listing := Py.split_lines (Py.strip (stdout p)) in
  let n := searches listing issue_key parent_issue in
  returncode p = 0 ->
  processes w = replicate n p ++ procs ->
  ∃ events,
    search_branches issue_key parent_issue temp_dir w
    = Some (candidates listing issue_key parent_issue,
            log events (set_processes procs w))
    ∧ commands events = replicate n ["git"; "branch"; "-r"].
Proof.
  intros listing n Hrc Hprocs. subst n. unfold searches, candidates in *.
  destruct (matching_branches listing issue_key) as [|b bs] eqn:E1.
  - destruct parent_issue as [parent_key|]; cbn [replicate app] in Hprocs.
    + rewrite (search_primary_miss _ _ _ _ Hrc _ _ Hprocs E1). cbv zeta.
      match goal with
      | |- context [search_parent _ _ (log ?first ?w')] =>
          destruct (search_parent_ok temp_dir p Hrc parent_key procs
                      (log first w') eq_refl) as (events & Hsearch & Hcmd);
          exists (first ++ events)
      end.
      split; [rewrite Hsearch; f_equal; f_equal; world_eq|].
      rewrite commands_app, Hcmd. reflexivity.
    + rewrite (search_primary_miss _ _ _ _ Hrc _ _ Hprocs E1).
      eexists. split; reflexivity.
  - cbn [replicate app] in Hprocs |- *.
    rewrite (search_primary_hit _ parent_issue _ _ Hrc _ _ _ _ Hprocs E1).
    eexists. split; [reflexivity|].
    rewrite commands_app. unfold branch_lines. rewrite commands_printed.
    reflexivity.
Qed.

(** No branch, no document.  When the user turns down the one branch
    found, turns down the creation of a branch, or answers with a number
    that names none of the branches found, [run] ends its work there: the
    listings of the search are the only commands started, and the world
    it leaves differs from the one it found only by the outcomes and the
    answer it used up and by what it printed and asked, so the backend was
    not called, no file was written and no directory created. *)
Theorem run_without_branch_generates_nothing
    (issue_key : string) (parent_issue : option string)
    (summary description status_name assignee parent_info temp_dir : string)
    (rounds : nat) (p : CompletedProcess) (procs : list CompletedProcess)
    (a : Answer) (answers : list Answer) (w : World) :
  let listing := Py.split_lines (Py.strip (stdout p)) in
  let n := searches listing issue_key parent_issue in
  returncode p = 0 ->
  processes w = replicate n p ++ procs ->
  terminal w = a :: answers ->
  refusal (candidates listing issue_key parent_issue) a ->
  ∃ events,
    run_from_step4 issue_key parent_issue summary description status_name
                   assignee parent_info temp_dir rounds w
    = Some (None, log events (set_terminal answers (set_processes procs w)))
    ∧ commands events = replicate n ["git"; "branch"; "-r"].
Proof.
  intros listing n Hrc Hprocs Ht Hrefuse.
  destruct (search_branches_found issue_key parent_issue temp_dir p procs w
              Hrc Hprocs) as (events & Hsearch & Hcmd).
  fold listing in Hsearch. fold listing n in Hcmd.
  unfold run_from_step4, resolve_branch. rewrite !bind_run, Hsearch.
  set (found := candidates listing issue_key parent_issue) in *.
  assert (Ht1 : terminal (log events (set_processes procs w)) = a :: answers)
    by exact Ht.
  destruct found as [|b1 [|b2 bs]]; cbn [refusal] in Hrefuse.
  - subst a. rewrite (select_none _ _ _ _ Ht1).
    eexists. split; [cbv zeta; cbv iota; f_equal; f_equal; world_eq|].
    rewrite commands_app, Hcmd, app_nil_r. reflexivity.
  - subst a. rewrite (select_single _ _ _ _ _ Ht1).
    eexists. split; [cbv zeta; cbv iota; f_equal; f_equal; world_eq|].
    rewrite commands_app, Hcmd, app_nil_r. reflexivity.
  - destruct Hrefuse as (idx & -> & Hidx).
    rewrite (select_many_invalid _ _ _ _ _ _ _ Ht1 Hidx).
    eexists. split; [cbv iota; f_equal; f_equal; world_eq|].
    rewrite commands_app, Hcmd, app_nil_r. reflexivity.
Qed.

(** ** The fields of an issue *)

Lemma py_get_dict members key default :
  py_get (JObj members) key default = Some (member_or members key default).
Proof. reflexivity. Qed.

Lemma member_or_absent members key default :
  members !! key = None -> member_or members key default = default.
Proof. intros H. unfold member_or. rewrite H. reflexivity. Qed.

(** Reading the fields of an issue raises no exception exactly when the
    issue is a dict whose [fields] entry is a dict in which [status] and
    [assignee] are each missing or a dict.  An issue whose [assignee] is
    [null] therefore makes the commands fail. *)
Theorem issue_details_completes_iff (issue : json) :
  is_Some (issue_details issue)
  ↔ ∃ members fields,
      issue = JObj members
      ∧ members !! "fields" = Some (JObj fields)
      ∧ dict_or_absent (fields !! "status")
      ∧ dict_or_absent (fields !! "assignee").
Proof.
  unfold issue_details. split.
  - intros [details H].
    destruct issue as [| | | | |members]; try discriminate.
    cbn [subscript] in H.
    destruct (members !! "fields") as [fields|] eqn:Hf; [|discriminate].
    cbn [mbind option_bind] in H.
    destruct fields as [| | | | |fields]; try discriminate.
    exists members, fields. split; [reflexivity|]. split; [exact Hf|].
    rewrite !py_get_dict in H. cbn [mbind option_bind] in H.
    unfold member_or in H. unfold dict_or_absent.
    destruct (fields !! "status") as [[| | | | |st]|];
      try discriminate; cbn [py_get mbind option_bind] in H;
      (split; [exact I|]);
      destruct (fields !! "assignee") as [[| | | | |asg]|];
      try discriminate; exact I.
  - intros (members & fields & -> & Hf & Hs & Ha).
    cbn [subscript]. rewrite Hf. cbn [mbind option_bind].
    rewrite !py_get_dict. cbn [mbind option_bind]. unfold member_or.
    unfold dict_or_absent in *.
    destruct (fields !! "status") as [[| | | | |st]|]; try contradiction;
      destruct (fields !! "assignee") as [[| | | | |asg]|]; try contradiction;
      cbn [py_get mbind option_bind]; eexists; reflexivity.
Qed.

(** The defaults: with [status] and [assignee] missing, the status name
    is [未知状态] and the assignee [未分配]; the summary and the description
    are what the issue holds, or [无标题] and [无描述] when it holds none. *)
Theorem issue_details_defaults (members fields : gmap string json) :
  members !! "fields" = Some (JObj fields) ->
  fields !! "status" = None ->
  fields !! "assignee" = None ->
  issue_details (JObj members)
  = Some {| d_summary := member_or fields "summary" (JStr "无标题");
            d_description := member_or fields "description" (JStr "无描述");
            d_status_name := JStr "未知状态";
            d_assignee := JStr "未分配" |}.
Proof.
  intros Hf Hs Ha. unfold issue_details. cbn [subscript]. rewrite Hf.
  cbn [mbind option_bind]. rewrite !py_get_dict. cbn [mbind option_bind].
  rewrite (member_or_absent fields "status"), (member_or_absent fields "assignee")
    by assumption.
  rewrite !py_get_dict. cbn [mbind option_bind].
  rewrite (member_or_absent ∅ "name"), (member_or_absent ∅ "displayName")
    by apply lookup_empty.
  reflexivity.
Qed.

(** ** [init] and the configuration *)

(** After [init], whatever the five answers were (empty ones included)
    and whatever else the configuration held, the configuration counts as
    initialized, [get_git_config] and [get_jira_config] return what was
    entered, and the other entries of the configuration are kept. *)
Theorem init_then_initialized
    (persisted : option json) (members : gmap string json)
    (git_url git_username git_password jira_username jira_password : string) :
  load_config persisted = JObj members ->
  ∃ config,
    init_config persisted git_url git_username git_password
                jira_username jira_password = Some (JObj config)
    ∧ is_initialized (Some (JObj config)) = Some true
    ∧ get_git_config (Some (JObj config))
      = Some (JObj {[ "url" := JStr git_url; "username" := JStr git_username;
                      "password" := JStr git_password ]})
    ∧ get_jira_config (Some (JObj config))
      = Some (JObj {[ "username" := JStr jira_username;
                      "password" := JStr jira_password ]})
    ∧ ∀ key, key ≠ "git" -> key ≠ "jira" -> config !! key = members !! key.
Proof.
  intros Hload. unfold init_config. rewrite Hload.
  eexists. split; [reflexivity|].
  split.
  { erewrite is_initialized_keys_only;
      [| rewrite lookup_insert_ne by discriminate; apply lookup_insert_eq
       | apply lookup_insert_eq].
    cbn [forallb].
    rewrite !bool_decide_eq_true_2; [reflexivity|..];
      by simplify_map_eq. }
  split.
  { unfold get_git_config, load_config, dict_get.
    rewrite lookup_insert_ne by discriminate. rewrite lookup_insert_eq.
    reflexivity. }
  split.
  { unfold get_jira_config, load_config, dict_get.
    rewrite lookup_insert_eq. reflexivity. }
  intros key Hgit Hjira.
  rewrite !lookup_insert_ne by congruence. reflexivity.
Qed.

(** ** Cloning *)

Lemma hex_digit_unreserved k : unreserved (hex_digit k) = true.
Proof. do 16 (destruct k as [|k]; [reflexivity|]). reflexivity. Qed.

Lemma quote_chars s :
  Forall (λ c, unreserved c = true ∨ c = "%"%char)
         (list_ascii_of_string (quote s)).
Proof.
  induction s as [|c s IH]; [constructor|].
  cbn [quote]. destruct (unreserved c) eqn:Hc.
  - cbn [list_ascii_of_string]. constructor; [left; exact Hc | exact IH].
  - cbn [list_ascii_of_string].
    repeat (constructor; [first [right; reflexivity
                                | left; apply hex_digit_unreserved]|]).
    exact IH.
Qed.

Lemma contains_char_absent x s :
  Forall (λ c, c ≠ x) (list_ascii_of_string s) ->
  Py.contains (String x EmptyString) s = false.
Proof.
  induction s as [|c s IH]; intros H; [reflexivity|].
  cbn [list_ascii_of_string] in H. inversion H as [|? ? Hc Hs]; subst.
  cbn [Py.contains Py.startswith].
  destruct (ascii_dec x c); [congruence|]. cbn [orb]. apply IH, Hs.
Qed.

(** The credentials as [clone_repo] writes them into the URL consist of
    letters, digits, [_.-~] and [%] only, so none of the characters that
    structure the URL ([:], [@], [/]) comes from the user name or the
    password; credentials made of letters, digits and [_.-~] are written
    unchanged. *)
Theorem quoted_credentials_are_url_safe (s : string) :
  Forall (λ c, unreserved c = true ∨ c = "%"%char)
         (list_ascii_of_string (quote s))
  ∧ Py.contains ":" (quote s) = false
  ∧ Py.contains "@" (quote s) = false
  ∧ Py.contains "/" (quote s) = false
  ∧ (Forall (λ c, unreserved c = true) (list_ascii_of_string s) ->
     quote s = s).
Proof.
  pose proof (quote_chars s) as H.
  split; [exact H|].
  assert (Habsent : ∀ x, unreserved x = false -> x ≠ "%"%char ->
                         Py.contains (String x EmptyString) (quote s) = false).
  { intros x Hx Hpct. apply contains_char_absent.
    eapply Forall_impl; [exact H|]. cbv beta.
    intros c [Hc| ->] Heq; [subst; congruence | congruence]. }
  split; [apply Habsent; [reflexivity | discriminate]|].
  split; [apply Habsent; [reflexivity | discriminate]|].
  split; [apply Habsent; [reflexivity | discriminate]|].
  clear. induction s as [|c s IH]; intros Hs; [reflexivity|].
  cbn [list_ascii_of_string] in Hs. inversion Hs as [|? ? Hc Hrest]; subst.
  cbn [quote]. rewrite Hc, IH by exact Hrest. reflexivity.
Qed.

Section Clone.

Variable persisted : option json.
Variable settings : gmap string json.
Variables repo_url username password : string.
Variable temp_dir : string.

Hypothesis git_settings : get_git_config persisted = Some (JObj settings).
Hypothesis url_set : settings !! "url" = Some (JStr repo_url).
Hypothesis username_set : settings !! "username" = Some (JStr username).
Hypothesis password_set : settings !! "password" = Some (JStr password).
Hypothesis url_filled : repo_url ≠ "".
Hypothesis username_filled : username ≠ "".
Hypothesis password_filled : password ≠ "".




End Clone.

(** [clone_repo] gets past its check of the settings only when the [url],
    the [username] and the [password] of the [git] entry are non-empty
    strings. *)
Theorem clone_needs_filled_settings
    (persisted : option json) (temp_dir : string) (w w' : World) (ok : bool) :
  clone_repo persisted temp_dir w = Some (ok, w') ->
  ∃ settings repo_url,
    get_git_config persisted = Some (JObj settings)
    ∧ settings !! "url" = Some (JStr repo_url) ∧ repo_url ≠ ""
    ∧ json_truthy (member_or settings "username" JNull) = true
    ∧ json_truthy (member_or settings "password" JNull) = true
    ∧ (length (split_on "://" repo_url) = 2%nat ->
       ∃ username password,
         settings !! "username" = Some (JStr username) ∧ username ≠ ""
         ∧ settings !! "password" = Some (JStr password) ∧ password ≠ "").
Proof.
  unfold clone_repo. intros H.
  destruct (get_git_config persisted) as [[| | | | |settings]|];
    try discriminate.
  exists settings. cbn [py_get] in H. fold (member_or settings "url" JNull) in H.
  fold (member_or settings "username" JNull) in H.
  fold (member_or settings "password" JNull) in H.
  destruct (json_truthy (member_or settings "url" JNull)) eqn:Hu;
    [|discriminate].
  destruct (json_truthy (member_or settings "username" JNull)) eqn:Hn;
    [|discriminate].
  destruct (json_truthy (member_or settings "password" JNull)) eqn:Hq;
    [|discriminate].
  cbn [negb orb] in H. rewrite bind_run in H.
  unfold console_print at 1, emit at 1 in H.
  unfold member_or in *.
  destruct (settings !! "url") as [[| | |repo_url| |]|]; try discriminate.
  exists repo_url. split; [reflexivity|]. split; [reflexivity|].
  split; [destruct repo_url; [discriminate | discriminate]|].
  split; [reflexivity|]. split; [reflexivity|].
  intros Hparts.
  destruct (split_on "://" repo_url) as [|scheme [|rest [|]]];
    try discriminate.
  destruct (settings !! "username") as [[| | |username| |]|]; try discriminate.
  destruct (settings !! "password") as [[| | |password| |]|]; try discriminate.
  exists username, password.
  repeat split; try reflexivity.
  - destruct username; [discriminate | discriminate].
  - destruct password; [discriminate | discriminate].
Qed.

(** ** The default branch *)

Lemma split_from_cons skip sep s : ∃ h t, split_from skip sep s = h :: t.
Proof.
  revert skip. induction s as [|c s IH]; intros skip.
  - eexists _, _. reflexivity.
  - cbn [split_from]. destruct skip as [|k]; [|apply IH].
    destruct (Py.startswith sep (String c s)); [eexists _, _; reflexivity|].
    destruct (IH 0%nat) as (h & t & ->). eexists _, _. reflexivity.
Qed.

Lemma split_on_char_plain x s :
  Py.contains (String x EmptyString) s = false ->
  split_on (String x EmptyString) s = [s].
Proof.
  unfold split_on. induction s as [|c s IH]; intros H; [reflexivity|].
  apply contains_cons_false in H as [Hhead Htail].
  cbn [split_from]. rewrite Hhead, IH by exact Htail. reflexivity.
Qed.

Lemma split_on_char_app x a b :
  split_on (String x EmptyString) (a +:+ String x b)
  = split_on (String x EmptyString) a ++ split_on (String x EmptyString) b.
Proof.
  unfold split_on. induction a as [|c a IH].
  - rewrite app_empty_l. cbn [split_from Py.startswith String.length].
    destruct (ascii_dec x x); [reflexivity | congruence].
  - rewrite app_String. cbn [split_from Py.startswith String.length].
    destruct (ascii_dec x c).
    + cbn [Nat.sub]. rewrite IH. reflexivity.
    + rewrite IH. destruct (split_from_cons 0 (String x EmptyString) a)
        as (h & t & ->). reflexivity.
Qed.

Lemma last_field pre name :
  Py.contains ":" name = false ->
  List.last (split_on ":" (pre +:+ ":" +:+ name)) EmptyString = name.
Proof.
  intros Hname. change (":" +:+ name) with (String ":" name).
  rewrite split_on_char_app, (split_on_char_plain _ _ Hname).
  apply List.last_last.
Qed.

(** When [git remote show origin] succeeds and prints a line with
    [HEAD branch], the first such line decides: the default branch is what
    follows the last colon of that line, without the white space around
    it, and no further command is started. *)
Theorem default_branch_from_head_line
    (p : CompletedProcess) (procs : list CompletedProcess) (w : World)
    (pre name : string) :
  processes w = p :: procs ->
  returncode p = 0 ->
  List.find (Py.contains "HEAD branch") (Py.split_lines (Py.strip (stdout p)))
  = Some (pre +:+ ":" +:+ name) ->
  Py.contains ":" name = false ->
  get_default_branch w
  = Some (Py.strip name,
          log [Ran ["git"; "remote"; "show"; "origin"]] (set_processes procs w)).
Proof.
  intros Hp Hrc Hfind Hname. apply Z.eqb_eq in Hrc.
  unfold get_default_branch. run_step. rewrite Hp. run_step.
  rewrite Hrc. run_step. rewrite Hfind.
  rewrite (last_field _ _ Hname). reflexivity.
Qed.

(** When [git remote show origin] fails, the default branch is taken to
    be [master] and nothing else is tried. *)
Theorem default_branch_when_remote_fails
    (p : CompletedProcess) (procs : list CompletedProcess) (w : World) :
  processes w = p :: procs ->
  returncode p ≠ 0 ->
  get_default_branch w
  = Some ("master",
          log [Ran ["git"; "remote"; "show"; "origin"]] (set_processes procs w)).
Proof.
  intros Hp Hrc. apply Z.eqb_neq in Hrc.
  unfold get_default_branch. run_step. rewrite Hp. run_step.
  rewrite Hrc. reflexivity.
Qed.

(** When the output names no HEAD branch, [origin/main], [origin/master]
    and [origin/develop] are verified in this order; the first that
    verifies is the answer and ends the probing, and [master] is the
    answer when none does. *)
Theorem default_branch_probes_in_order
    (p q1 q2 q3 : CompletedProcess) (procs : list CompletedProcess) (w : World) :
  processes w = p :: q1 :: q2 :: q3 :: procs ->
  returncode p = 0 ->
  List.find (Py.contains "HEAD branch") (Py.split_lines (Py.strip (stdout p)))
  = None ->
  let probed :=
    if returncode q1 =? 0 then 1%nat
    else if returncode q2 =? 0 then 2%nat else 3%nat in
  ∃ events,
    get_default_branch w
    = Some (if returncode q1 =? 0 then "main"
            else if returncode q2 =? 0 then "master"
            else if returncode q3 =? 0 then "develop" else "master",
            log events (set_processes (drop probed (q1 :: q2 :: q3 :: procs)) w))
    ∧ commands events
      = ["git"; "remote"; "show"; "origin"]
        :: take probed [["git"; "rev-parse"; "--verify"; "origin/main"];
                        ["git"; "rev-parse"; "--verify"; "origin/master"];
                        ["git"; "rev-parse"; "--verify"; "origin/develop"]].
Proof.
  intros Hp Hrc Hfind. apply Z.eqb_eq in Hrc. cbv zeta.
  unfold get_default_branch. run_step. rewrite Hp. run_step.
  rewrite Hrc. run_step. rewrite Hfind. cbn [probe_branches]. run_step.
  destruct (returncode q1 =? 0); run_step;
    [|destruct (returncode q2 =? 0); run_step;
      [|destruct (returncode q3 =? 0); run_step]];
    (eexists; split; [f_equal; f_equal; world_eq | reflexivity]).
Qed.

(** ** The prompts file *)

Lemma load_prompts_app pre rest :
  load_prompts (Some (pre ++ rest))
  = prompt_finish (fold_left prompt_line rest
                             (fold_left prompt_line pre prompt_start)).
Proof. unfold load_prompts. rewrite fold_left_app. reflexivity. Qed.

Lemma top_heading_not_sub s :
  Py.startswith "# " s = true -> Py.startswith "## " s = false.
Proof.
  destruct s as [|c1 [|c2 s]]; cbn [Py.startswith]; try discriminate.
  - destruct (ascii_dec "#" c1); discriminate.
  - destruct (ascii_dec "#" c1); [|discriminate].
    destruct (ascii_dec " " c2) as [<-|]; [|discriminate].
    destruct (ascii_dec "#" " "); [discriminate | reflexivity].
Qed.

(** A top-level heading changes nothing.  The loop looks at each line
    after [rstrip] has taken the white space off its end; an ASCII line
    that starts with [# ] in that form (a [#], a space and something that
    is not white space after it) can be put into the prompts file or taken
    out of it at any place without changing the prompts that are loaded.
    A line made of [#] and white space only is not such a line: [rstrip]
    leaves [#], which is kept as text of the open section. *)
Theorem prompts_ignore_top_heading (before after : list string) (line : string) :
  is_ascii line = true ->
  Py.startswith "# " (Py.rstrip line) = true ->
  load_prompts (Some (before ++ line :: after))
  = load_prompts (Some (before ++ after)).
Proof.
  intros _ Htop. rewrite !load_prompts_app. cbn [fold_left]. f_equal. f_equal.
  unfold prompt_line.
  rewrite (top_heading_not_sub _ Htop), Htop. reflexivity.
Qed.

Lemma prompt_preamble pre :
  Forall (λ l, Py.startswith "## " (Py.rstrip l) = false) pre ->
  fold_left prompt_line pre prompt_start = prompt_start.
Proof.
  induction 1 as [|l pre Hl _ IH]; [reflexivity|].
  cbn [fold_left].
  replace (prompt_line prompt_start l) with prompt_start; [exact IH|].
  unfold prompt_line. rewrite Hl.
  destruct (Py.startswith "# " (Py.rstrip l)); reflexivity.
Qed.

(** What precedes the first [## ] heading of the prompts file is not
    loaded; a file without such a heading yields no prompt at all. *)
Theorem prompts_start_at_first_heading (pre rest : list string) :
  Forall (λ l, Py.startswith "## " (Py.rstrip l) = false) pre ->
  load_prompts (Some (pre ++ rest)) = load_prompts (Some rest)
  ∧ load_prompts (Some pre) = ∅.
Proof.
  intros Hpre. split.
  - rewrite load_prompts_app, (prompt_preamble _ Hpre). reflexivity.
  - unfold load_prompts. rewrite (prompt_preamble _ Hpre). reflexivity.
Qed.

(** A heading without content counts only when another heading follows:
    as the last line of the file it adds no prompt, while followed by a
    further heading it adds a prompt with empty text under its name. *)
Theorem prompts_last_heading_dropped (before : list string) (line next : string) :
  let name := Py.strip (Py.drop 3 (Py.rstrip line)) in
  Py.startswith "## " (Py.rstrip line) = true ->
  Py.startswith "## " (Py.rstrip next) = true ->
  name ≠ "" ->
  load_prompts (Some (before ++ [line]))
  = ps_prompts (prompt_line (fold_left prompt_line before prompt_start) line)
  ∧ load_prompts (Some (before ++ [line; next]))
    = <[name := ""]> (load_prompts (Some (before ++ [line]))).
Proof.
  intros name Hline Hnext Hname. rewrite !load_prompts_app.
  cbn [fold_left]. set (st := fold_left prompt_line before prompt_start).
  assert (H1 : ∃ closed,
            prompt_line st line
            = {| ps_prompts := closed; ps_section := Some name;
                 ps_content := [] |}).
  { unfold prompt_line. rewrite Hline. eexists. reflexivity. }
  destruct H1 as [closed ->].
  split; [reflexivity|].
  unfold prompt_line. rewrite Hnext.
  unfold prompt_finish. cbn [ps_section ps_content ps_prompts].
  destruct name as [|c s]; [contradiction | reflexivity].
Qed.

(** ** The loops of [generate_doc] and [ai_doc] *)


Section OtherLoops.

Variables issue_key summary description status_name assignee parent_info : string.
Hypothesis plain_key : Py.contains "/" issue_key = false.

Let round := round_events issue_key summary description status_name
                          assignee parent_info.
Let saved_path := "docs/.tasks/" +:+ issue_key +:+ ".md".

Lemma save_markdown_run content w :
  save_markdown_to_file issue_key content w
  = Some (saved_path,
          log [Wrote saved_path]
              (set_files (<[saved_path := content]> (files w))
                 (set_dirs (list_to_set ["docs"; "docs/.tasks"] ∪ dirs w) w))).
Proof.
  pose proof (plain_file_name issue_key plain_key) as Hname.
  unfold save_markdown_to_file. rewrite bind_run. unfold os_makedirs.
  rewrite bind_run, (path_join_plain _ _ Hname).
  rewrite write_text_run; [reflexivity|].
  rewrite (parent_dir_join _ _ Hname).
  unfold dir_ok. apply orb_true_iff. right.
  apply bool_decide_eq_true_2. cbn [dirs set_dirs list_to_set]. set_solver.
Qed.

Lemma generate_doc_script rejections :
  ∀ rounds history w draft answer replies answers,
    Forall (λ r, Py.lower (verdict r) ≠ "y") rejections ->
    Py.lower answer = "y" ->
    backend w = map rejected_draft rejections ++ draft :: replies ->
    terminal w = rejection_answers rejections ++ StrAnswer answer :: answers ->
    (length rejections < rounds)%nat ->
    ∃ events,
      generate_doc_loop issue_key summary description status_name assignee
                        parent_info rounds history w
      = Some ((saved_path, history ++ turns (map feedback rejections)),
              log events
                  (set_files (<[saved_path := draft]> (files w))
                     (set_dirs (list_to_set ["docs"; "docs/.tasks"] ∪ dirs w)
                        (set_backend replies (set_terminal answers w)))))
      ∧ histories events = conversations history (map feedback rejections)
      ∧ commands events = [].
Proof.
  induction rejections as [|r rejections IH];
    intros rounds history w draft answer replies answers Hno Hyes Hb Ht Hlen;
    (destruct rounds as [|rounds]; [cbn in Hlen; lia|]);
    cbn in Hb, Ht; cbn [generate_doc_loop];
    unfold generate_task_document; run_step; rewrite Hb; run_step;
    rewrite Ht; run_step.
  - rewrite bool_decide_eq_true_2 by exact Hyes.
    rewrite save_markdown_run. run_step.
    eexists. split; [cbn [map turns]; rewrite app_nil_r; f_equal; f_equal;
                     world_eq|].
    split; reflexivity.
  - inversion Hno as [|? ? Hr Hrest]; subst.
    rewrite bool_decide_eq_false_2 by exact Hr. run_step.
    match goal with
    | |- context [generate_doc_loop _ _ _ _ _ _ rounds ?h ?w'] =>
        destruct (IH rounds h w' draft answer replies answers Hrest Hyes)
          as (events & Hloop & Hhist & Hcmd);
          [reflexivity | reflexivity | cbn in Hlen; lia |]
    end.
    rewrite Hloop.
    rewrite <- (app_assoc history) in Hhist. cbn [app] in Hhist.
    exists ((round history (rejected_draft r) ++ rejected_events) ++ events).
    split; [cbn [map turns]; rewrite <- !(app_assoc history); cbn [app];
            f_equal; f_equal; unfold round; world_eq|].
    split; [rewrite histories_app, Hhist; reflexivity|].
    rewrite commands_app, Hcmd. reflexivity.
Qed.


End OtherLoops.

(** [generate_doc], for an issue key without a path separator: once the
    user has rejected some drafts and accepted the next, the loop
    completes; the accepted text, and no rejected one, is in
    [docs/.tasks/KEY.md]; the conversation grew by two turns for each
    rejection, as in [run]; no command was started. *)
Theorem generate_doc_saves_accepted_draft
    (issue_key summary description status_name assignee parent_info : string)
    (rejections : list Rejection) (rounds : nat)
    (history : list (string * string)) (draft answer : string)
    (replies : list string) (answers : list Answer) (w : World) :
  Py.contains "/" issue_key = false ->
  Forall (λ r, Py.lower (verdict r) ≠ "y") rejections ->
  Py.lower answer = "y" ->
  backend w = map rejected_draft rejections ++ draft :: replies ->
  terminal w = rejection_answers rejections ++ StrAnswer answer :: answers ->
  (length rejections < rounds)%nat ->
  ∃ events w',
    generate_doc_loop issue_key summary description status_name assignee
                      parent_info rounds history w
    = Some (("docs/.tasks/" +:+ issue_key +:+ ".md",
             history ++ turns (map feedback rejections)), w')
    ∧ trace w' = trace w ++ events
    ∧ histories events = conversations history (map feedback rejections)
    ∧ commands events = []
    ∧ files w' = <["docs/.tasks/" +:+ issue_key +:+ ".md" := draft]> (files w)
    ∧ read_text ("docs/.tasks/" +:+ issue_key +:+ ".md") w' = Some draft.
Proof.
  intros Hkey Hno Hyes Hb Ht Hlen.
  destruct (generate_doc_script issue_key summary description status_name
              assignee parent_info Hkey rejections rounds history w draft
              answer replies answers Hno Hyes Hb Ht Hlen)
    as (events & Hloop & Hhist & Hcmd).
  exists events. eexists. split; [exact Hloop|].
  split; [reflexivity|]. split; [exact Hhist|]. split; [exact Hcmd|].
  split; [reflexivity|]. unfold read_text. cbn [files log set_files].
  apply lookup_insert_eq.
Qed.


(** ** Further sample runs *)

Example unassigned_issue_raises : issue_details unassigned_issue = None.
Proof. vm_compute. reflexivity. Qed.

Example quote_password : quote "p@ss:word/1" = "p%40ss%3Aword%2F1".
Proof. reflexivity. Qed.

Example split_url :
  split_on "://" "https://bitbucket.org/team/repo.git"
  = ["https"; "bitbucket.org/team/repo.git"].
Proof. reflexivity. Qed.

Example split_twice : split_on "://" "a://b://c" = ["a"; "b"; "c"].
Proof. reflexivity. Qed.

Lemma preamble_in_no_section_witness :
  scan_lines (Py.split_lines ("An introduction." +:+ nl +:+ "# Title")) None [] []
  = scan_lines (Py.split_lines "# Title") None [] [].
Proof.
  apply (preamble_in_no_section "An introduction." "# Title");
    [repeat constructor | reflexivity].
Defined.

Lemma try_checkout_remote_witness :
  (∃ events,
     try_checkout "origin/DTS-1-fix" (scripted [] [exited 0 "" ""] [])
     = Some (Some "DTS-1-fix",
             log events (set_processes [] (scripted [] [exited 0 "" ""] [])))
     ∧ commands events
       = [["git"; "checkout"; "-b"; "DTS-1-fix"; "origin/DTS-1-fix"]])
  ∧ ∃ events,
      try_checkout "origin/DTS-1-fix"
        (scripted [] [exited 128 "" "fatal: not a commit"] [])
      = Some (None,
              log events
                  (set_processes []
                     (scripted [] [exited 128 "" "fatal: not a commit"] [])))
      ∧ commands events
        = [["git"; "checkout"; "-b"; "DTS-1-fix"; "origin/DTS-1-fix"]].
Proof.
  split.
  - apply (try_checkout_remote "DTS-1-fix" (exited 0 "" "") []
             (scripted [] [exited 0 "" ""] [])); reflexivity.
  - apply (try_checkout_remote "DTS-1-fix"
             (exited 128 "" "fatal: not a commit") []
             (scripted [] [exited 128 "" "fatal: not a commit"] []));
      reflexivity.
Defined.

(** A checkout that fails with an error text the console prints, and one
    that fails with a closing tag in its error text. *)
Example failed_checkout_reported :
  try_checkout "origin/DTS-1-fix"
    (scripted [] [exited 128 "" "fatal: a branch named 'DTS-1-fix' already exists"] [])
  = Some (None,
          log [Ran ["git"; "checkout"; "-b"; "DTS-1-fix"; "origin/DTS-1-fix"];
               Printed "[bold red]检出分支失败: fatal: a branch named 'DTS-1-fix' already exists[/bold red]";
               Printed "[bold red]检出分支失败: origin/DTS-1-fix[/bold red]"]
              (scripted [] [] [])).
Proof. reflexivity. Qed.

Example failed_checkout_raises :
  try_checkout "origin/DTS-1-fix"
    (scripted [] [exited 128 "" "fatal: bad revision [/x]"] [])
  = None.
Proof. reflexivity. Qed.

Lemma create_branch_stops_at_first_failure_witness :
  ∃ events,
    create_branch_for_issue "DTS-1" "release"
      (scripted [] [exited 0 "" ""; exited 1 "" "no tracking"; exited 0 "" ""] [])
    = Some ((false, None),
            log events
                (set_processes [exited 0 "" ""]
                   (scripted [] [exited 0 "" ""; exited 1 "" "no tracking";
                                 exited 0 "" ""] [])))
    ∧ commands events = [["git"; "checkout"; "release"]; ["git"; "pull"]].
Proof.
  apply (create_branch_stops_at_first_failure "DTS-1" "release"
           (exited 0 "" "") (exited 1 "" "no tracking") (exited 0 "" "") []
           (scripted [] [exited 0 "" ""; exited 1 "" "no tracking";
                         exited 0 "" ""] [])).
  reflexivity.
Defined.

Lemma publish_starts_a_prefix_witness :
  ∃ events,
    trace (log [Asked "是否提交并推送文档到远程仓库？"; Chdir sample_clone;
                Ran ["git"; "add"; "docs/.tasks/DTS-1.md"];
                Ran ["git"; "commit"; "-m"; commit_message "DTS-1"];
                Printed "[bold red]提交或推送失败: nothing to commit[/bold red]"]
               (scripted [] [exited 0 "" ""] []))
    = trace (scripted [Confirm true]
                      [exited 0 "" ""; exited 1 "" "nothing to commit";
                       exited 0 "" ""] []) ++ events
    ∧ commands events `prefix_of`
        [["git"; "add"; "docs/.tasks/DTS-1.md"];
         ["git"; "commit"; "-m"; commit_message "DTS-1"];
         ["git"; "push"; "-u"; "origin"; "DTS-1"]]
    ∧ commands events
      = [["git"; "add"; "docs/.tasks/DTS-1.md"];
         ["git"; "commit"; "-m"; commit_message "DTS-1"]].
Proof.
  destruct (publish_starts_a_prefix "DTS-1" sample_clone
              "/tmp/auto-md-1/docs/.tasks/DTS-1.md" "DTS-1"
              (scripted [Confirm true]
                        [exited 0 "" ""; exited 1 "" "nothing to commit";
                         exited 0 "" ""] [])
              (log [Asked "是否提交并推送文档到远程仓库？"; Chdir sample_clone;
                    Ran ["git"; "add"; "docs/.tasks/DTS-1.md"];
                    Ran ["git"; "commit"; "-m"; commit_message "DTS-1"];
                    Printed "[bold red]提交或推送失败: nothing to commit[/bold red]"]
                   (scripted [] [exited 0 "" ""] []))
              eq_refl)
    as (events & Htrace & Hprefix & _).
  exists events. split; [exact Htrace|]. split; [exact Hprefix|].
  cbn [trace log scripted app] in Htrace.
  rewrite <- Htrace. reflexivity.
Defined.

Lemma publish_stops_at_failed_add_witness :
  publish "DTS-1" sample_clone "/tmp/auto-md-1/docs/.tasks/DTS-1.md" "DTS-1"
          (scripted [Confirm true] [exited 128 "" "pathspec did not match"] [])
  = Some (tt,
          log [Asked "是否提交并推送文档到远程仓库？"; Chdir sample_clone;
               Ran ["git"; "add"; "docs/.tasks/DTS-1.md"];
               Printed ("[bold red]提交或推送失败: " +:+ "pathspec did not match" +:+ "[/bold red]")]
              (scripted [] [] [])).
Proof.
  apply (publish_stops_at_failed_add
           "DTS-1" sample_clone "/tmp/auto-md-1/docs/.tasks/DTS-1.md" "DTS-1"
           "docs/.tasks/DTS-1.md" (exited 128 "" "pathspec did not match") [] []
           (scripted [Confirm true] [exited 128 "" "pathspec did not match"] []));
    try reflexivity.
  discriminate.
Defined.

Lemma publish_pushes_branch_in_use_witness :
  publish "DTS-1" sample_clone "/tmp/auto-md-1/docs/.tasks/DTS-1.md" "DTS-1-fix"
          (scripted [Confirm true]
                    [exited 0 "" ""; exited 0 "" "";
                     exited 1 "" "remote: permission denied"] [])
  = Some (tt,
          log [Asked "是否提交并推送文档到远程仓库？"; Chdir sample_clone;
               Ran ["git"; "add"; "docs/.tasks/DTS-1.md"];
               Ran ["git"; "commit"; "-m"; commit_message "DTS-1"];
               Ran ["git"; "push"; "-u"; "origin"; "DTS-1-fix"];
               Printed ("[bold red]提交或推送失败: " +:+ "remote: permission denied" +:+ "[/bold red]")]
              (scripted [] [] [])).
Proof.
  apply (publish_pushes_branch_in_use
           "DTS-1" sample_clone "/tmp/auto-md-1/docs/.tasks/DTS-1.md" "DTS-1-fix"
           "docs/.tasks/DTS-1.md" (exited 0 "" "") (exited 0 "" "")
           (exited 1 "" "remote: permission denied") [] []
           (scripted [Confirm true]
                     [exited 0 "" ""; exited 0 "" "";
                      exited 1 "" "remote: permission denied"] []));
    reflexivity.
Defined.

(** The publish step on a push that succeeds, and on one whose error text
    holds a closing tag. *)
Example push_reported :
  publish "DTS-1" sample_clone "/tmp/auto-md-1/docs/.tasks/DTS-1.md" "DTS-1-fix"
          (scripted [Confirm true]
                    [exited 0 "" ""; exited 0 "" ""; exited 0 "" ""] [])
  = Some (tt,
          log [Asked "是否提交并推送文档到远程仓库？"; Chdir sample_clone;
               Ran ["git"; "add"; "docs/.tasks/DTS-1.md"];
               Ran ["git"; "commit"; "-m"; commit_message "DTS-1"];
               Ran ["git"; "push"; "-u"; "origin"; "DTS-1-fix"];
               Printed ("[bold green]文档已成功提交并推送到分支: " +:+ "DTS-1-fix" +:+ "[/bold green]")]
              (scripted [] [] [])).
Proof. reflexivity. Qed.

Example failed_push_raises :
  publish "DTS-1" sample_clone "/tmp/auto-md-1/docs/.tasks/DTS-1.md" "DTS-1-fix"
          (scripted [Confirm true]
                    [exited 0 "" ""; exited 0 "" "";
                     exited 1 "" "remote: hook [/pre-receive] declined"] [])
  = None.
Proof. reflexivity. Qed.

Lemma document_written_then_staged_witness :
  ∃ events w',
    document_steps_of "DTS-1" (JObj sample_issue) "" sample_clone 2 "DTS-1-fix"
      (scripted [StrAnswer "n"; StrAnswer "expand background"; StrAnswer "y";
                 Confirm true]
                [exited 0 "" ""; exited 0 "" "";
                 exited 1 "" "remote: permission denied"]
                ["# D1"; "# D2"])
    = Some ([human_turn "expand background"; assistant_turn], w')
    ∧ read_text "/tmp/auto-md-1/docs/.tasks/DTS-1.md" w' = Some "# D2"
    ∧ commands events
      = [["git"; "add"; "docs/.tasks/DTS-1.md"];
         ["git"; "commit"; "-m"; commit_message "DTS-1"];
         ["git"; "push"; "-u"; "origin"; "DTS-1-fix"]].
Proof.
  destruct (document_written_then_staged
              "DTS-1" "Fix login" "Users cannot log in" "Open" "alice" ""
              sample_clone eq_refl
              (JObj sample_issue) "DTS-1-fix" one_rejection 2%nat "# D2" "y" [] []
              (exited 0 "" "") (exited 0 "" "")
              (exited 1 "" "remote: permission denied") []
              (scripted [StrAnswer "n"; StrAnswer "expand background";
                         StrAnswer "y"; Confirm true]
                        [exited 0 "" ""; exited 0 "" "";
                         exited 1 "" "remote: permission denied"]
                        ["# D1"; "# D2"]))
    as (events & w' & Hrun & _ & Hread & _ & Hcmd & _);
    [reflexivity | repeat constructor; discriminate | reflexivity
    | reflexivity | reflexivity | reflexivity | reflexivity | reflexivity
    | reflexivity | cbn; lia |].
  exists events, w'. repeat split; assumption.
Defined.

(** An issue without [fields]: line 212 raises, and nothing is generated. *)
Example steps_raise_without_fields :
  document_steps_of "DTS-1" (JObj {[ "key" := JStr "DTS-1" ]}) "" sample_clone 1
    "DTS-1-fix"
    (scripted [StrAnswer "y"; Confirm true]
              [exited 0 "" ""; exited 0 "" ""; exited 0 "" ""] ["# D1"])
  = None.
Proof. reflexivity. Qed.

Lemma run_without_branch_generates_nothing_witness :
  ∃ events,
    run_from_step4 "DTS-1" None "s" "d" "Open" "alice" "" sample_clone 1
      (scripted [Confirm false] [two_branches] ["# D1"])
    = Some (None,
            log events
                (set_terminal []
                   (set_processes []
                      (scripted [Confirm false] [two_branches] ["# D1"]))))
    ∧ commands events = [["git"; "branch"; "-r"]].
Proof.
  apply (run_without_branch_generates_nothing
           "DTS-1" None "s" "d" "Open" "alice" "" sample_clone 1%nat
           two_branches [] (Confirm false) []
           (scripted [Confirm false] [two_branches] ["# D1"]));
    reflexivity.
Defined.

Lemma issue_details_completes_iff_witness :
  is_Some (issue_details (JObj bare_issue)).
Proof.
  apply (issue_details_completes_iff (JObj bare_issue)).
  exists bare_issue, bare_fields.
  split; [reflexivity|]. split; [reflexivity|].
  split; vm_compute; exact I.
Defined.

Lemma issue_details_defaults_witness :
  issue_details (JObj bare_issue)
  = Some {| d_summary := member_or bare_fields "summary" (JStr "无标题");
            d_description := member_or bare_fields "description" (JStr "无描述");
            d_status_name := JStr "未知状态";
            d_assignee := JStr "未分配" |}.
Proof.
  apply (issue_details_defaults bare_issue bare_fields); reflexivity.
Defined.

Lemma init_then_initialized_witness :
  ∃ config,
    init_config None "https://bitbucket.org/team/repo.git" "alice" "" "alice" "secret"
    = Some (JObj config)
    ∧ is_initialized (Some (JObj config)) = Some true.
Proof.
  destruct (init_then_initialized None ∅
              "https://bitbucket.org/team/repo.git" "alice" "" "alice" "secret"
              eq_refl) as (config & Hinit & Hok & _).
  exists config. split; assumption.
Defined.

Lemma quoted_credentials_are_url_safe_witness : quote "alice_1" = "alice_1".
Proof.
  destruct (quoted_credentials_are_url_safe "alice_1") as (_ & _ & _ & _ & Hid).
  apply Hid. repeat constructor.
Defined.


(** A malformed address that holds a closing tag. *)
Example malformed_url_raises :
  clone_repo
    (Some (JObj {[ "git" := JObj {[ "url" := JStr "host[/x]repo.git";
                                    "username" := JStr "alice";
                                    "password" := JStr "secret" ]} ]}))
    sample_clone (scripted [] [] [])
  = None.
Proof. vm_compute. reflexivity. Qed.


Lemma clone_needs_filled_settings_witness :
  ∃ settings repo_url,
    get_git_config (Some schemeless_config) = Some (JObj settings)
    ∧ settings !! "url" = Some (JStr repo_url) ∧ repo_url ≠ "".
Proof.
  destruct (clone_needs_filled_settings
              (Some schemeless_config) sample_clone (scripted [] [] [])
              (log [Printed ("[bold]克隆仓库到临时目录: " +:+ sample_clone +:+ "[/bold]");
                    Printed ("[bold red]Git仓库URL格式不正确: " +:+ "bitbucket.org/team/repo.git" +:+ "[/bold red]")]
                   (scripted [] [] []))
              false eq_refl)
    as (settings & repo_url & Hget & Hurl & Hfilled & _).
  exists settings, repo_url. repeat split; assumption.
Defined.

Lemma default_branch_from_head_line_witness :
  get_default_branch (scripted [] [remote_show] [])
  = Some ("main",
          log [Ran ["git"; "remote"; "show"; "origin"]]
              (set_processes [] (scripted [] [remote_show] []))).
Proof.
  apply (default_branch_from_head_line remote_show []
           (scripted [] [remote_show] []) "  HEAD branch" " main");
    reflexivity.
Defined.

Lemma default_branch_when_remote_fails_witness :
  get_default_branch (scripted [] [exited 128 "" "no such remote"] [])
  = Some ("master",
          log [Ran ["git"; "remote"; "show"; "origin"]]
              (set_processes [] (scripted [] [exited 128 "" "no such remote"] []))).
Proof.
  apply (default_branch_when_remote_fails (exited 128 "" "no such remote") []
           (scripted [] [exited 128 "" "no such remote"] []));
    [reflexivity | discriminate].
Defined.

Lemma default_branch_probes_in_order_witness :
  ∃ events,
    get_default_branch
      (scripted [] [exited 0 "* remote origin" ""; exited 1 "" "";
                    exited 0 "" ""; exited 0 "" ""] [])
    = Some ("master",
            log events
                (set_processes [exited 0 "" ""]
                   (scripted [] [exited 0 "* remote origin" ""; exited 1 "" "";
                                 exited 0 "" ""; exited 0 "" ""] [])))
    ∧ commands events
      = [["git"; "remote"; "show"; "origin"];
         ["git"; "rev-parse"; "--verify"; "origin/main"];
         ["git"; "rev-parse"; "--verify"; "origin/master"]].
Proof.
  apply (default_branch_probes_in_order
           (exited 0 "* remote origin" "") (exited 1 "" "") (exited 0 "" "")
           (exited 0 "" "") []
           (scripted [] [exited 0 "* remote origin" ""; exited 1 "" "";
                         exited 0 "" ""; exited 0 "" ""] []));
    reflexivity.
Defined.

Lemma prompts_ignore_top_heading_witness :
  load_prompts (Some ["## A"; "# Prompts  "; "text"])
  = load_prompts (Some ["## A"; "text"]).
Proof.
  apply (prompts_ignore_top_heading ["## A"] ["text"] "# Prompts  ");
    reflexivity.
Defined.

(** A line made of [#] and a space is kept as the text [#]. *)
Example bare_hash_is_text :
  load_prompts (Some ["## A"; "# "; "text"])
  = {[ "A" := "#" +:+ nl +:+ "text" ]}.
Proof. vm_compute. reflexivity. Qed.

Lemma prompts_start_at_first_heading_witness :
  load_prompts (Some (["# Prompts"; "notes"] ++ ["## A"; "text"]))
  = load_prompts (Some ["## A"; "text"])
  ∧ load_prompts (Some ["# Prompts"; "notes"]) = ∅.
Proof.
  apply (prompts_start_at_first_heading ["# Prompts"; "notes"] ["## A"; "text"]).
  repeat constructor.
Defined.

Lemma prompts_last_heading_dropped_witness :
  load_prompts (Some ([] ++ ["## A"; "## B"]))
  = <["A" := ""]> (load_prompts (Some ([] ++ ["## A"]))).
Proof.
  destruct (prompts_last_heading_dropped [] "## A" "## B") as [_ H];
    [reflexivity | reflexivity | discriminate |].
  exact H.
Defined.

Lemma generate_doc_saves_accepted_draft_witness :
  ∃ events w',
    generate_doc_loop "DTS-1" "s" "d" "Open" "alice" "" 2 []
      (scripted [StrAnswer "n"; StrAnswer "expand background"; StrAnswer "y"]
                [] ["# D1"; "# D2"])
    = Some (("docs/.tasks/DTS-1.md",
             [human_turn "expand background"; assistant_turn]), w')
    ∧ histories events = [[]; [human_turn "expand background"; assistant_turn]]
    ∧ read_text "docs/.tasks/DTS-1.md" w' = Some "# D2".
Proof.
  destruct (generate_doc_saves_accepted_draft
              "DTS-1" "s" "d" "Open" "alice" "" one_rejection 2 []
              "# D2" "y" [] []
              (scripted [StrAnswer "n"; StrAnswer "expand background"; StrAnswer "y"]
                        [] ["# D1"; "# D2"]))
    as (events & w' & Hrun & _ & Hhist & _ & _ & Hread);
    [reflexivity | repeat constructor; discriminate | reflexivity
    | reflexivity | reflexivity | cbn; lia |].
  exists events, w'. repeat split; assumption.
Defined.

